(** * SLRDesktop: keyword filter, highlight renderer, paging and
    affiliation classifiers of [main.py], embedded in Rocq.

  Python values are modelled as follows.
  - [str] is [string]; the model covers ASCII text (for non-ASCII text
    [str.lower], [str.strip] and [len] of Python work on code points).
  - a pandas cell is [cell]: [NaN] for a missing value, [Val s] for a
    present value whose [str(...)] is [s].
  - a [dict] is an association list in insertion order.
  - [int] is [Z]; lengths and counts that cannot be negative are [nat]. *)

From Stdlib Require Import String Ascii List ZArith Lia Bool Arith.
From Stdlib Require Import Permutation Sorted.
Import ListNotations.

Local Open Scope string_scope.
Local Open Scope list_scope.

(** ** Python string primitives *)

Module PyStr.

Definition char_in_range (lo hi : nat) (c : ascii) : bool :=
  let n := nat_of_ascii c in (lo <=? n)%nat && (n <=? hi)%nat.

(** [str.lower] on one ASCII character. *)
Definition lower_char (c : ascii) : ascii :=
  if char_in_range 65 90 c then ascii_of_nat (nat_of_ascii c + 32) else c.

Fixpoint lower (s : string) : string :=
  match s with
  | EmptyString => EmptyString
  | String c s' => String (lower_char c) (lower s')
  end.

(** [str.isspace] on the ASCII range: tab, LF, VT, FF, CR, the four
    separators 28..31 and the blank. *)
Definition is_space (c : ascii) : bool :=
  char_in_range 9 13 c || char_in_range 28 32 c.

Fixpoint lstrip (s : string) : string :=
  match s with
  | EmptyString => EmptyString
  | String c s' => if is_space c then lstrip s' else s
  end.

Fixpoint rstrip (s : string) : string :=
  match s with
  | EmptyString => EmptyString
  | String c s' =>
      match rstrip s' with
      | EmptyString => if is_space c then EmptyString else String c EmptyString
      | r => String c r
      end
  end.

(** [s.strip()] *)
Definition strip (s : string) : string := rstrip (lstrip s).

(** [s.split(sep)] for a one-character separator: never the empty list. *)
Fixpoint split (sep : ascii) (s : string) : list string :=
  match s with
  | EmptyString => [EmptyString]
  | String c s' =>
      if Ascii.eqb c sep then EmptyString :: split sep s'
      else match split sep s' with
           | h :: t => String c h :: t
           | [] => [String c EmptyString]
           end
  end.

(** [s.split(sep, 1)] as the pair (before, after) of the first separator;
    [None] when [sep] does not occur. *)
Fixpoint split_once (sep : ascii) (s : string) : option (string * string) :=
  match s with
  | EmptyString => None
  | String c s' =>
      if Ascii.eqb c sep then Some (EmptyString, s')
      else match split_once sep s' with
           | Some (a, b) => Some (String c a, b)
           | None => None
           end
  end.

(** [sep.join(l)] *)
Fixpoint join (sep : string) (l : list string) : string :=
  match l with
  | [] => EmptyString
  | [x] => x
  | x :: rest => x ++ sep ++ join sep rest
  end.

(** [w in s] *)
Fixpoint contains (w s : string) : bool :=
  prefix w s ||
  match s with
  | EmptyString => false
  | String _ s' => contains w s'
  end.

(** [s.count(w)]: occurrences of [w] in [s], scanning left to right and
    jumping over each occurrence found; [skip] characters of the last
    occurrence are still to be passed.  For the empty [w] this is
    [len(s) + 1], as in Python. *)
Fixpoint count_from (w s : string) (skip : nat) : nat :=
  match s with
  | EmptyString =>
      match skip with
      | O => if prefix w EmptyString then 1 else 0
      | S _ => 0
      end
  | String _ s' =>
      match skip with
      | S k => count_from w s' k
      | O => if prefix w s
             then S (count_from w s' (String.length w - 1))
             else count_from w s' 0
      end
  end.

Definition count (s w : string) : nat := count_from w s 0.

(** [s.replace(old, new)] for a non-empty [old]. *)
Fixpoint replace_from (old new s : string) (skip : nat) : string :=
  match s with
  | EmptyString => EmptyString
  | String c s' =>
      match skip with
      | S k => replace_from old new s' k
      | O => if prefix old s
             then new ++ replace_from old new s' (String.length old - 1)
             else String c (replace_from old new s' 0)
      end
  end.

Definition replace (s old new : string) : string := replace_from old new s 0.

(** [html.escape(s)] with its default [quote=True]. *)
Definition escape_char (c : ascii) : string :=
  match nat_of_ascii c with
  | 38 => "&amp;"
  | 60 => "&lt;"
  | 62 => "&gt;"
  | 34 => "&quot;"
  | 39 => "&#x27;"
  | _ => String c EmptyString
  end.

Fixpoint html_escape (s : string) : string :=
  match s with
  | EmptyString => EmptyString
  | String c s' => escape_char c ++ html_escape s'
  end.

(** A Python [set] of strings, as a duplicate-free list. *)
Fixpoint mem (x : string) (l : list string) : bool :=
  match l with
  | [] => false
  | y :: l' => String.eqb x y || mem x l'
  end.

Definition set_add (x : string) (s : list string) : list string :=
  if mem x s then s else s ++ [x].

(** [sorted(l)] on strings (code-point order). *)
Fixpoint insert_sorted (x : string) (l : list string) : list string :=
  match l with
  | [] => [x]
  | y :: l' => if String.leb x y then x :: l else y :: insert_sorted x l'
  end.

Fixpoint sorted (l : list string) : list string :=
  match l with
  | [] => []
  | x :: l' => insert_sorted x (sorted l')
  end.

End PyStr.


(** ** Python dictionaries with string keys, in insertion order *)

Module PyDict.

Fixpoint get {V : Type} (k : string) (d : list (string * V)) : option V :=
  match d with
  | [] => None
  | (k', v) :: d' => if String.eqb k k' then Some v else get k d'
  end.

(** [d[k] = v]: an existing key keeps its place, a new key goes last. *)
Fixpoint set {V : Type} (k : string) (v : V) (d : list (string * V)) : list (string * V) :=
  match d with
  | [] => [(k, v)]
  | (k', v') :: d' => if String.eqb k k' then (k, v) :: d' else (k', v') :: set k v d'
  end.

Definition keys {V : Type} (d : list (string * V)) : list string := map fst d.

Definition values {V : Type} (d : list (string * V)) : list V := map snd d.

End PyDict.

(** ** pandas values *)

Module Pandas.

Inductive cell : Type :=
| NaN
| Val (s : string).

(** [pd.isna(c)] *)
Definition isna (c : cell) : bool :=
  match c with NaN => true | Val _ => false end.

(** [str(c)]: a missing value prints as [nan]. *)
Definition py_str (c : cell) : string :=
  match c with NaN => "nan" | Val s => s end.

(** One cell of [ser.fillna(<empty>).astype(str)], which is also
    [<empty> if pd.isna(c) else str(c)]. *)
Definition fillna_str (c : cell) : string :=
  match c with NaN => EmptyString | Val s => s end.

(** A loaded table: its column names in order, the names of the columns of
    dtype [object] ([df.select_dtypes(include=['object']).columns]), and its
    rows, each a list of cells aligned with [columns].  The index is the
    default one (row [i] has label [i]); column names are distinct. *)
Record DataFrame : Type := {
  columns : list string;
  object_columns : list string;
  rows : list (list cell)
}.

Fixpoint column_index (c : string) (cols : list string) : option nat :=
  match cols with
  | [] => None
  | c' :: cols' =>
      if String.eqb c c' then Some O
      else option_map S (column_index c cols')
  end.

(** [row[c]] *)
Definition cell_of (df : DataFrame) (row : list cell) (c : string) : cell :=
  match column_index c (columns df) with
  | Some i => nth i row NaN
  | None => NaN
  end.

(** [df[c]] *)
Definition column (df : DataFrame) (c : string) : list cell :=
  map (fun row => cell_of df row c) (rows df).

(** A row of a working frame: its index label, its cells, and its value in
    the working column [__hits__]. *)
Record Row : Type := {
  label : nat;
  cells : list cell;
  hits : Z
}.

(** A frame derived from the loaded table; [has_hits] says whether the
    column [__hits__] is among its columns. *)
Record Frame : Type := {
  has_hits : bool;
  frows : list Row
}.

(** [frame.drop(columns=['__hits__'], errors='ignore')] *)
Definition drop_hits (f : Frame) : Frame :=
  {| has_hits := false;
     frows := map (fun r => {| label := label r; cells := cells r; hits := 0 |}) (frows f) |}.

(** The type of [sort_values(by, ascending=...)] with pandas' default
    [kind='quicksort']: the rows ordered by one integer key.  The library
    fixes the order of rows with equal keys only for its stable kinds, so
    the sort is a parameter of the model, constrained by [sort_contract]. *)
Definition SortValues : Type :=
  forall A : Type, (A -> Z) -> bool -> list A -> list A.

Definition key_ordered {A : Type} (key : A -> Z) (ascending : bool) (x y : A) : Prop :=
  if ascending then (key x <= key y)%Z else (key y <= key x)%Z.

Definition sort_contract (sv : SortValues) : Prop :=
  forall (A : Type) (key : A -> Z) (ascending : bool) (l : list A),
    Permutation l (sv A key ascending l) /\
    StronglySorted (key_ordered key ascending) (sv A key ascending l).

(** A stable sort on an integer key (the behaviour of [kind='stable'],
    of [Series.nlargest] with [keep='first'], and one sort that meets
    [sort_contract]). *)
Fixpoint stable_insert {A : Type} (key : A -> Z) (ascending : bool) (x : A) (l : list A) : list A :=
  match l with
  | [] => [x]
  | y :: l' =>
      if (if ascending then key x <=? key y else key y <=? key x)%Z
      then x :: l
      else y :: stable_insert key ascending x l'
  end.

Fixpoint stable_sort_go {A : Type} (key : A -> Z) (ascending : bool) (l : list A) : list A :=
  match l with
  | [] => []
  | x :: l' => stable_insert key ascending x (stable_sort_go key ascending l')
  end.

Definition stable_sort : SortValues :=
  fun A key ascending l => stable_sort_go key ascending l.

(** [ser.nlargest(n)] ([keep='first']) on labelled values: the [n] largest
    in descending order, equal values in their order of appearance. *)
Definition nlargest {A : Type} (key : A -> Z) (n : nat) (l : list A) : list A :=
  firstn n (stable_sort A key false l).

End Pandas.

(** ** Column resolution *)

Module Resolver.
Import Pandas.

Definition TITLE_COL_CANDIDATES : list string :=
  ["title"; "document title"; "article title"].

Definition ABSTRACT_COL_CANDIDATES : list string :=
  ["abstract"; "description"].

Definition KEYWORDS_COL_CANDIDATES : list string :=
  ["author keywords"; "index keywords"; "keywords"].

Definition nonempty (s : string) : bool :=
  match s with EmptyString => false | String _ _ => true end.

(** [{c.lower(): c for c in cols}] *)
Definition lower_map (cols : list string) : list (string * string) :=
  fold_left (fun d c => PyDict.set (PyStr.lower c) c d) cols [].

Fixpoint first_some {A B : Type} (f : A -> option B) (l : list A) : option B :=
  match l with
  | [] => None
  | x :: l' => match f x with Some y => Some y | None => first_some f l' end
  end.

(** [_get_col] over its candidates: a case-insensitive exact match, candidates in
    order, then the first column that contains a candidate. *)
Definition _get_col (df : option DataFrame) (cands : list string) : option string :=
  match df with
  | None => None
  | Some d =>
      let low := lower_map (columns d) in
      match first_some
              (fun c => if nonempty c then PyDict.get (PyStr.lower c) low else None)
              cands with
      | Some c => Some c
      | None =>
          find (fun c =>
                  existsb (fun cand =>
                             nonempty cand &&
                             PyStr.contains (PyStr.lower cand) (PyStr.lower c))
                          cands)
               (columns d)
      end
  end.

(** [_guess_text_columns(df)] *)
Definition _guess_text_columns (df : DataFrame) : list string :=
  let lower_map := lower_map (columns df) in
  let picked :=
    flat_map (fun k => match PyDict.get k lower_map with
                       | Some c => [c]
                       | None => []
                       end)
             (TITLE_COL_CANDIDATES ++ ABSTRACT_COL_CANDIDATES ++ KEYWORDS_COL_CANDIDATES) in
  match picked with
  | [] => object_columns df
  | _ => picked
  end.

End Resolver.

(** ** Keyword filter *)

Module Filter.
Import Pandas.

(** The filter settings: the raw keyword text, the case flag, the cutoff
    and the chosen columns. *)
Record FilterCfg : Type := {
  cfg_raw : string;
  cfg_case : bool;
  cfg_cutoff : Z;
  cfg_cols : list string
}.

Definition parse_token (acc : list (string * string) * list string) (token : string)
  : list (string * string) * list string :=
  let (mapping, words) := acc in
  let token := PyStr.strip token in
  if Resolver.nonempty token then
    match PyStr.split_once ":" token with
    | Some (k, c) =>
        (PyDict.set (PyStr.strip k) (PyStr.strip c) mapping, words ++ [PyStr.strip k])
    | None =>
        (PyDict.set token "#c00000" mapping, words ++ [token])
    end
  else acc.

(** [_parse_keyword_mapping(raw)]: the keyword-to-colour dictionary and the
    list of keywords as typed (repeats kept). *)
Definition _parse_keyword_mapping (raw : string) : list (string * string) * list string :=
  if Resolver.nonempty raw
  then fold_left parse_token (PyStr.split "," raw) ([], [])
  else ([], []).

(** [count_hits_cell(cell)], the closure of [apply_filter_from_cfg]. *)
Definition count_hits_cell (case : bool) (words : list string) (c : cell) : Z :=
  if isna c then 0%Z
  else
    let s := py_str c in
    fold_right Z.add 0%Z
      (map (fun w => Z.of_nat (if case then PyStr.count s w
                               else PyStr.count (PyStr.lower s) (PyStr.lower w)))
           words).

(** The target columns of a filter pass. *)
Definition target_columns (df : DataFrame) (cfg : FilterCfg) : list string :=
  match filter (fun c => PyStr.mem c (columns df)) (cfg_cols cfg) with
  | [] => Resolver._guess_text_columns df
  | cs => cs
  end.

(** One entry of [df[target_cols].applymap(count_hits_cell).sum(axis=1)]. *)
Definition row_hits (df : DataFrame) (case : bool) (words target_cols : list string)
           (row : list cell) : Z :=
  fold_right Z.add 0%Z
    (map (fun c => count_hits_cell case words (cell_of df row c)) target_cols).

Definition hit_counts (df : DataFrame) (case : bool) (words target_cols : list string) : list Z :=
  match words, target_cols with
  | _ :: _, _ :: _ => map (row_hits df case words target_cols) (rows df)
  | _, _ => map (fun _ => 0%Z) (rows df)
  end.

(** [df] with the working column [__hits__] set. *)
Definition with_hits (df : DataFrame) (hs : list Z) : Frame :=
  {| has_hits := true;
     frows := map (fun p => {| label := fst (fst p); cells := snd (fst p); hits := snd p |})
                  (combine (combine (seq 0 (length (rows df))) (rows df)) hs) |}.

(** [kept], before the working column is dropped. *)
Definition kept_frame (sv : SortValues) (df : DataFrame) (cfg : FilterCfg)
           (sort_checked : bool) : Frame :=
  let words := snd (_parse_keyword_mapping (cfg_raw cfg)) in
  let target_cols := target_columns df cfg in
  let scored := with_hits df (hit_counts df (cfg_case cfg) words target_cols) in
  let kept := filter (fun r => (cfg_cutoff cfg <=? hits r)%Z) (frows scored) in
  {| has_hits := true;
     frows := if sort_checked then sv Row hits false kept else kept |}.

(** [apply_filter_from_cfg(cfg)] on a loaded table: the new [filtered_df].
    [sort_checked] is [btn_sort_hits.isChecked()]. *)
Definition apply_filter_from_cfg (sv : SortValues) (df : DataFrame) (cfg : FilterCfg)
           (sort_checked : bool) : Frame :=
  drop_hits (kept_frame sv df cfg sort_checked).

(** [_resort_filtered_by_hits()], run when the sort button is toggled:
    the new [filtered_df]. *)
Definition _resort_filtered_by_hits (sv : SortValues) (filtered_df : option Frame)
           (sort_checked : bool) : option Frame :=
  match filtered_df with
  | None => None
  | Some f =>
      if negb (has_hits f) then Some f
      else
        let desc := sort_checked in
        Some {| has_hits := has_hits f;
                frows := sv Row hits (negb desc) (frows f) |}
  end.

End Filter.

(** ** Highlight renderer *)

Module Highlight.
Import Pandas.

(** [sorted(keys, key=len, reverse=True)]: longest first, equal lengths in
    their original order. *)
Fixpoint insert_by_len (x : string) (l : list string) : list string :=
  match l with
  | [] => [x]
  | y :: l' =>
      if (String.length x <? String.length y)%nat
      then y :: insert_by_len x l'
      else x :: l
  end.

Fixpoint sorted_by_len_desc (l : list string) : list string :=
  match l with
  | [] => []
  | x :: l' => insert_by_len x (sorted_by_len_desc l')
  end.

(** Does the escaped literal [k] match at the head of [s]
    (with [re.IGNORECASE] unless [case])?  On ASCII text, to ignore case
    is to compare the lower-cased strings. *)
Definition key_matches (case : bool) (k s : string) : bool :=
  if case then prefix k s else prefix (PyStr.lower k) (PyStr.lower s).

(** The alternation of the keys in order: the length of the match of the
    first key that matches at the head of [s]. *)
Definition alternation (case : bool) (keys : list string) (s : string) : option nat :=
  option_map String.length (find (fun k => key_matches case k s) keys).

(** The first [n] characters of [s]. *)
Definition take (n : nat) (s : string) : string := substring 0 n s.

(** [re.sub(pattern, repl, s)] for a pattern given by [alt], with a
    replacement callback that threads a state.  The scan goes left to
    right; after a match of [S m] characters the next search starts behind
    it ([skip] counts the characters still to pass); after an empty match
    the next match has to start one character further on. *)
Section ReSub.
Variable St : Type.
Variable alt : string -> option nat.
Variable repl : string -> St -> string * St.

Fixpoint re_sub_from (s : string) (skip : nat) (st : St) {struct s} : string * St :=
  match skip with
  | S k =>
      match s with
      | EmptyString => (EmptyString, st)
      | String _ s' => re_sub_from s' k st
      end
  | O =>
      match alt s with
      | Some n =>
          let (r, st1) := repl (take n s) st in
          match s with
          | EmptyString => (r, st1)
          | String c s' =>
              match n with
              | O => let (rest, st2) := re_sub_from s' 0 st1 in
                     ((r ++ String c rest)%string, st2)
              | S m => let (rest, st2) := re_sub_from s' m st1 in
                       ((r ++ rest)%string, st2)
              end
          end
      | None =>
          match s with
          | EmptyString => (EmptyString, st)
          | String c s' =>
              let (rest, st1) := re_sub_from s' 0 st in
              (String c rest, st1)
          end
      end
  end.

Definition re_sub (s : string) (st : St) : string * St := re_sub_from s 0 st.

End ReSub.

(** The canonical key of a matched word:
    [next((k for k in keys if ...), keys[0])]. *)
Definition canonical_key (case : bool) (keys : list string) (word : string) : string :=
  match find (fun k => if case then String.eqb word k
                       else String.eqb (PyStr.lower word) (PyStr.lower k)) keys with
  | Some k => k
  | None => hd EmptyString keys
  end.

(** [counts[key] += 1] *)
Definition bump (key : string) (counts : list (string * nat)) : list (string * nat) :=
  match PyDict.get key counts with
  | Some n => PyDict.set key (S n) counts
  | None => counts
  end.

(** The callback [repl] of [_highlight_text]. *)
Definition repl (case : bool) (mapping : list (string * string)) (keys : list string)
           (word : string) (counts : list (string * nat)) : string * list (string * nat) :=
  let key := canonical_key case keys word in
  let color := match PyDict.get key mapping with
               | Some c => c
               | None => "#c00000"
               end in
  (("<b><span style='color:" ++ color ++ "'>" ++ PyStr.html_escape word ++ "</span></b>")%string,
   bump key counts).

(** [_highlight_text(text, mapping, case)]: the markup and the count of
    each keyword. *)
Definition _highlight_text (text : string) (mapping : list (string * string)) (case : bool)
  : string * list (string * nat) :=
  match text with
  | EmptyString => (EmptyString, [])
  | _ =>
      let counts := map (fun k => (k, O)) (PyDict.keys mapping) in
      let esc := PyStr.html_escape text in
      match mapping with
      | [] => (esc, counts)
      | _ =>
          let keys := sorted_by_len_desc (PyDict.keys mapping) in
          let (out, counts') :=
            re_sub (list (string * nat)) (alternation case keys)
                   (repl case mapping keys) text counts in
          (PyStr.replace
             (PyStr.replace
                (PyStr.replace
                   (PyStr.replace (PyStr.html_escape out) "&lt;b&gt;" "<b>")
                   "&lt;/b&gt;" "</b>")
                "&lt;span" "<span")
             "span&gt;" "span>",
           counts')
      end
  end.

(** Removal of markup tags: everything from a [<] to the next [>]. *)
Fixpoint strip_tags_from (s : string) (in_tag : bool) : string :=
  match s with
  | EmptyString => EmptyString
  | String c s' =>
      if in_tag then strip_tags_from s' (negb (Ascii.eqb c ">"))
      else if Ascii.eqb c "<" then strip_tags_from s' true
      else String c (strip_tags_from s' false)
  end.

Definition strip_tags (s : string) : string := strip_tags_from s false.

End Highlight.

(** ** Paging of the filtered table *)

Module Paging.

(** Qt's [QSpinBox]: a value kept inside [minimum, maximum]. *)
Record QSpinBox : Type := {
  value : Z;
  minimum : Z;
  maximum : Z
}.

Definition bound (lo v hi : Z) : Z := Z.max lo (Z.min v hi).

(** [spin.setValue(v)] *)
Definition setValue (v : Z) (sb : QSpinBox) : QSpinBox :=
  {| value := bound (minimum sb) v (maximum sb);
     minimum := minimum sb;
     maximum := maximum sb |}.

(** [spin.setMaximum(m)]: the minimum is lowered if it has to be and the
    value is brought into the new range. *)
Definition setMaximum (m : Z) (sb : QSpinBox) : QSpinBox :=
  let lo := Z.min (minimum sb) m in
  {| value := bound lo (value sb) m;
     minimum := lo;
     maximum := m |}.

(** [spin.setRange(lo, hi); spin.setValue(v)] on a fresh spin box. *)
Definition new_spin (lo hi v : Z) : QSpinBox :=
  setValue v {| value := lo; minimum := lo; maximum := hi |}.

Section WithRecords.
Variable A : Type.

(** The part of the window's state that paging reads and writes.
    [model_full] is [None] while the table view has no [PandasModel];
    otherwise it is the model's [_full_df] and [model_page] its [_df]. *)
Record State : Type := {
  filtered_df : option (list A);
  model_full : option (list A);
  model_page : list A;
  page_size : Z;
  page_index : Z;
  page_size_spin : QSpinBox;
  page_index_spin : QSpinBox;
  lbl_pageinfo : Z * Z
}.

(** The state set up by the window's constructor. *)
Definition init : State :=
  {| filtered_df := None;
     model_full := None;
     model_page := [];
     page_size := 50;
     page_index := 0;
     page_size_spin := new_spin 10 1000 50;
     page_index_spin := new_spin 0 999999 0;
     lbl_pageinfo := (1, 1)%Z |}.

Definition len (l : list A) : Z := Z.of_nat (length l).

(** [full.iloc[start:start+length]] for [0 <= start], [0 <= length]. *)
Definition iloc (start length : Z) (full : list A) : list A :=
  firstn (Z.to_nat length) (skipn (Z.to_nat start) full).

(** The number of pages shown for [total] rows and page size [ps]. *)
Definition total_pages (total ps : Z) : Z :=
  Z.max 1 ((total + ps - 1) / ps).

(** [_update_paging_ui()] *)
Definition _update_paging_ui (st : State) : State :=
  let total := match filtered_df st with Some f => len f | None => 0%Z end in
  let ps := Z.max 1 (page_size st) in
  let tot_pages := total_pages total ps in
  let cur := Z.min (Z.max 0 (value (page_index_spin st))) (tot_pages - 1) in
  {| filtered_df := filtered_df st;
     model_full := model_full st;
     model_page := model_page st;
     page_size := page_size st;
     page_index := page_index st;
     page_size_spin := page_size_spin st;
     page_index_spin := setValue cur (setMaximum (Z.max 0 (tot_pages - 1)) (page_index_spin st));
     lbl_pageinfo := ((cur + 1)%Z, tot_pages) |}.

(** [refresh_page()] *)
Definition refresh_page (st : State) : State :=
  match model_full st with
  | None => st
  | Some m_full =>
      let total := match filtered_df st with
                   | Some f => len f
                   | None => len (model_page st)
                   end in
      let page_size' := value (page_size_spin st) in
      let page_index' := Z.max 0 (value (page_index_spin st)) in
      let start := (page_index' * page_size')%Z in
      let reset := (total <=? start)%Z && (0 <? total)%Z in
      let page_index'' := if reset then 0%Z else page_index' in
      let spin := if reset then setValue 0 (page_index_spin st) else page_index_spin st in
      let start' := if reset then 0%Z else start in
      let full := match filtered_df st with Some f => f | None => m_full end in
      _update_paging_ui
        (_update_paging_ui
           {| filtered_df := filtered_df st;
              model_full := Some full;
              model_page := iloc start' page_size' full;
              page_size := page_size';
              page_index := page_index'';
              page_size_spin := page_size_spin st;
              page_index_spin := spin;
              lbl_pageinfo := lbl_pageinfo st |})
  end.

Definition with_page_index_spin (sb : QSpinBox) (st : State) : State :=
  {| filtered_df := filtered_df st;
     model_full := model_full st;
     model_page := model_page st;
     page_size := page_size st;
     page_index := page_index st;
     page_size_spin := page_size_spin st;
     page_index_spin := sb;
     lbl_pageinfo := lbl_pageinfo st |}.

Definition with_page_size_spin (sb : QSpinBox) (st : State) : State :=
  {| filtered_df := filtered_df st;
     model_full := model_full st;
     model_page := model_page st;
     page_size := page_size st;
     page_index := page_index st;
     page_size_spin := sb;
     page_index_spin := page_index_spin st;
     lbl_pageinfo := lbl_pageinfo st |}.

(** The user types [v] into the page-index (page-size) spin box.  No slot
    is connected to the spin boxes, so nothing else changes. *)
Definition type_page_index (v : Z) (st : State) : State :=
  with_page_index_spin (setValue v (page_index_spin st)) st.

Definition type_page_size (v : Z) (st : State) : State :=
  with_page_size_spin (setValue v (page_size_spin st)) st.

(** [first_page()] *)
Definition first_page (st : State) : State :=
  refresh_page (with_page_index_spin (setValue 0 (page_index_spin st)) st).

(** [last_page()] *)
Definition last_page (st : State) : State :=
  match filtered_df st with
  | None => st
  | Some f =>
      let ps := Z.max 1 (value (page_size_spin st)) in
      let tot_pages := total_pages (len f) ps in
      refresh_page (with_page_index_spin (setValue (tot_pages - 1) (page_index_spin st)) st)
  end.

(** [next_page()] *)
Definition next_page (st : State) : State :=
  refresh_page
    (with_page_index_spin
       (setValue (value (page_index_spin st) + 1) (page_index_spin st)) st).

(** [prev_page()] *)
Definition prev_page (st : State) : State :=
  if (0 <? value (page_index_spin st))%Z
  then refresh_page
         (with_page_index_spin
            (setValue (value (page_index_spin st) - 1) (page_index_spin st)) st)
  else st.

(** The paging tail of [apply_filter_from_cfg]: the new [filtered_df] is
    stored, shown through a new [PandasModel], and the page is refreshed. *)
Definition install_filtered (kept : list A) (st : State) : State :=
  {| filtered_df := Some kept;
     model_full := Some kept;
     model_page := kept;
     page_size := value (page_size_spin st);
     page_index := value (page_index_spin st);
     page_size_spin := page_size_spin st;
     page_index_spin := page_index_spin st;
     lbl_pageinfo := lbl_pageinfo st |}.

Definition show_filtered (kept : list A) (st : State) : State :=
  refresh_page (install_filtered kept st).

End WithRecords.

Arguments filtered_df {A} _.
Arguments model_full {A} _.
Arguments model_page {A} _.
Arguments page_size {A} _.
Arguments page_index {A} _.
Arguments page_size_spin {A} _.
Arguments page_index_spin {A} _.
Arguments lbl_pageinfo {A} _.
Arguments init {A}.
Arguments len {A} _.
Arguments iloc {A} _ _ _.
Arguments _update_paging_ui {A} _.
Arguments refresh_page {A} _.
Arguments type_page_index {A} _ _.
Arguments type_page_size {A} _ _.
Arguments first_page {A} _.
Arguments last_page {A} _.
Arguments next_page {A} _.
Arguments prev_page {A} _.
Arguments install_filtered {A} _ _.
Arguments show_filtered {A} _ _.

End Paging.

(** ** Affiliation classifiers and their tables *)

Module Affil.
Import Pandas.

(** The segments of an affiliation text:
    [[x.strip() for x in text.split(';') if x.strip()]]. *)
Definition segments (text : string) : list string :=
  filter Resolver.nonempty (map PyStr.strip (PyStr.split ";" text)).

(** [part.split(',')[-1].strip()] *)
Definition last_segment (part : string) : string :=
  PyStr.strip (last (PyStr.split "," part) EmptyString).

(** [_extract_countries_from_affil(text)] *)
Definition _extract_countries_from_affil (text : cell) : string :=
  let text := fillna_str text in
  let parts := segments text in
  let countries :=
    fold_left (fun countries part =>
                 let last_segment := last_segment part in
                 if (3 <=? String.length last_segment)%nat
                 then PyStr.set_add last_segment countries
                 else countries)
              parts [] in
  PyStr.join "; " (PyStr.sorted countries).

(** [set(l)] *)
Definition to_set (l : list string) : list string :=
  fold_left (fun s x => PyStr.set_add x s) l [].

(** [_detect_collab_scope(country_string)] *)
Definition _detect_collab_scope (country_string : string) : string :=
  let countries := segments country_string in
  if (1 <? length (to_set countries))%nat then "International"
  else if (length countries =? 1)%nat then "Domestic"
  else "Unknown".

Definition any_in (keys : list string) (affil : string) : bool :=
  existsb (fun k => PyStr.contains k affil) keys.

(** The class of one lower-cased affiliation segment. *)
Definition segment_type (affil : string) : string :=
  if any_in ["univ"; "college"; "faculty"; "school of"] affil then "Academic"
  else if any_in ["research"; "academy"; "laboratory"; "institute"] affil then "Research"
  else if any_in ["corp"; "co."; "inc"; "ltd"; "tech"; "company"] affil then "Industry"
  else if any_in ["gov"; "ministry"; "bureau"; "department"] affil then "Government"
  else "Unknown".

(** [_classify_institution_types(affil_str)]: a set of type names. *)
Definition _classify_institution_types (affil_str : cell) : list string :=
  let affil_str := fillna_str affil_str in
  let affils := map PyStr.lower (segments affil_str) in
  fold_left (fun types affil => PyStr.set_add (segment_type affil) types) affils [].

(** [a == b] on sets. *)
Definition set_eqb (a b : list string) : bool :=
  forallb (fun x => PyStr.mem x b) a && forallb (fun x => PyStr.mem x a) b.

(** [_categorize_institution_combination(affil_str)] *)
Definition _categorize_institution_combination (affil_str : cell) : string :=
  let types := _classify_institution_types affil_str in
  let types := filter (fun t => negb (String.eqb t "Unknown")) types in
  let unique_affil_count :=
    length (to_set (map PyStr.lower (segments (py_str affil_str)))) in
  if set_eqb types ["Academic"] then
    if (unique_affil_count <=? 1)%nat then "Same Academic/University"
    else "Different Academic"
  else if set_eqb types ["Research"] then "Research only"
  else if set_eqb types ["Industry"] then "Industry only"
  else if set_eqb types ["Government"] then "Government only"
  else if PyStr.mem "Academic" types && PyStr.mem "Research" types
          && (length types =? 2)%nat then "Academic and Research"
  else if PyStr.mem "Academic" types && PyStr.mem "Industry" types
          && (length types =? 2)%nat then "Academic and Industry"
  else if PyStr.mem "Academic" types && PyStr.mem "Government" types
          && (length types =? 2)%nat then "Academic and Government"
  else "Mixed Collaboration".

Definition AFFIL_CANDIDATES : list string :=
  ["affiliations"; "Affiliations"; "Authors with affiliations"; "Author Affiliations"].

(** [ser.value_counts()] before its ordering: each distinct value with the
    number of rows that hold it, in order of first appearance. *)
Definition tally (l : list string) : list (string * nat) :=
  fold_left (fun d x => match PyDict.get x d with
                        | Some n => PyDict.set x (S n) d
                        | None => PyDict.set x 1%nat d
                        end) l [].

(** [ser.value_counts()] *)
Definition value_counts (sv : SortValues) (l : list string) : list (string * nat) :=
  sv (string * nat)%type (fun kv => Z.of_nat (snd kv)) false (tally l).

(** The table drawn by [plot_institution_collab_types]: every category with
    its number of papers; [None] when no table is loaded or no affiliation
    column is found. *)
Definition institution_collab_counts (sv : SortValues) (df : option DataFrame)
  : option (list (string * nat)) :=
  match df with
  | None => None
  | Some d =>
      match Resolver._get_col df AFFIL_CANDIDATES with
      | None => None
      | Some col_aff =>
          let ser_aff := map (fun c => Val (fillna_str c)) (column d col_aff) in
          let cats := map _categorize_institution_combination ser_aff in
          Some (sv (string * nat)%type (fun kv => Z.of_nat (snd kv)) true
                   (value_counts sv cats))
      end
  end.

(** The main country of a record: [x.split(';')[0].strip() if x else 'Unknown']. *)
Definition main_country_of (extracted : string) : string :=
  if Resolver.nonempty extracted
  then PyStr.strip (hd EmptyString (PyStr.split ";" extracted))
  else "Unknown".

(** A pivot table: its column labels, and per index label the values of
    the columns in that order. *)
Record Pivot : Type := {
  pcolumns : list string;
  prows : list (string * list Z)
}.

Definition count_pairs (pairs : list (string * string)) (i c : string) : Z :=
  Z.of_nat (length (filter (fun p => String.eqb (fst p) i && String.eqb (snd p) c) pairs)).

(** [tmp.groupby([a, b]).size().unstack(fill_value=0)]: index and columns
    are the distinct values in sorted order. *)
Definition groupby_size_unstack (pairs : list (string * string)) : Pivot :=
  let index := PyStr.sorted (to_set (map fst pairs)) in
  let cols := PyStr.sorted (to_set (map snd pairs)) in
  {| pcolumns := cols;
     prows := map (fun i => (i, map (count_pairs pairs i) cols)) index |}.

Fixpoint remove_nth {X : Type} (n : nat) (l : list X) : list X :=
  match l, n with
  | [], _ => []
  | _ :: l', O => l'
  | x :: l', S n' => x :: remove_nth n' l'
  end.

(** [p.drop(columns=[col], inplace=True)] for a column of [p]. *)
Definition drop_column (col : string) (p : Pivot) : Pivot :=
  match column_index col (pcolumns p) with
  | None => p
  | Some i =>
      {| pcolumns := remove_nth i (pcolumns p);
         prows := map (fun r => (fst r, remove_nth i (snd r))) (prows p) |}
  end.

(** [p[col] = 0] for a new column. *)
Definition add_zero_column (col : string) (p : Pivot) : Pivot :=
  {| pcolumns := pcolumns p ++ [col];
     prows := map (fun r => (fst r, snd r ++ [0%Z])) (prows p) |}.

Definition wanted (col : string) : bool :=
  String.eqb col "Domestic" || String.eqb col "International".

(** [row.sum()] *)
Definition row_total (r : string * list Z) : Z := fold_right Z.add 0%Z (snd r).

(** The value of column [col] in a row of [p]. *)
Definition pivot_value (p : Pivot) (r : string * list Z) (col : string) : Z :=
  match column_index col (pcolumns p) with
  | Some i => nth i (snd r) 0%Z
  | None => 0%Z
  end.

(** The pairs (main country, scope) of the records. *)
Definition scope_pairs (ser_aff : list cell) : list (string * string) :=
  map (fun c =>
         let extracted := _extract_countries_from_affil c in
         (main_country_of extracted, _detect_collab_scope extracted))
      ser_aff.

(** [_build_collab_scope_table()] *)
Definition _build_collab_scope_table (sv : SortValues) (df : option DataFrame) : option Pivot :=
  match df with
  | None => None
  | Some d =>
      match Resolver._get_col df AFFIL_CANDIDATES with
      | None => None
      | Some col_aff =>
          if negb (PyStr.mem col_aff (columns d)) then None
          else
            let ser_aff := map (fun c => Val (fillna_str c)) (column d col_aff) in
            let scope_count := groupby_size_unstack (scope_pairs ser_aff) in
            let scope_count :=
              fold_left (fun p col => if wanted col then p else drop_column col p)
                        (pcolumns scope_count) scope_count in
            let scope_count :=
              fold_left (fun p needed =>
                           if PyStr.mem needed (pcolumns p) then p
                           else add_zero_column needed p)
                        ["Domestic"; "International"] scope_count in
            match prows scope_count with
            | [] => None
            | _ =>
                let data := nlargest row_total 20 (prows scope_count) in
                Some {| pcolumns := pcolumns scope_count;
                        prows := sv (string * list Z)%type row_total false data |}
            end
      end
  end.

(** [_extract_main_country], the fallback of [_get_country_series]. *)
Definition _extract_main_country (text : cell) : string :=
  let text := fillna_str text in
  match segments text with
  | [] => "Unknown"
  | part0 :: _ =>
      let last_segment := last_segment part0 in
      if Resolver.nonempty last_segment then last_segment else "Unknown"
  end.

(** [_get_country_series()] *)
Definition _get_country_series (df : option DataFrame) : option (list string) :=
  match df with
  | None => None
  | Some d =>
      match Resolver._get_col df ["Country"; "Countries"; "Country/Region"] with
      | Some col_country =>
          Some (map (fun c =>
                       let s := PyStr.strip (fillna_str c) in
                       if PyStr.contains ";" s
                       then PyStr.strip (hd EmptyString (PyStr.split ";" s))
                       else s)
                    (column d col_country))
      | None =>
          match Resolver._get_col df AFFIL_CANDIDATES with
          | None => None
          | Some col_aff =>
              Some (map (fun c => _extract_main_country (Val (fillna_str c)))
                        (column d col_aff))
          end
      end
  end.

(** The country-aggregation table of [_plot_docs_by_country_top20] before
    its cut to 20 rows: [ser.str.strip().replace(<empty>, NA).dropna().value_counts()]. *)
Definition country_counts (sv : SortValues) (df : option DataFrame)
  : option (list (string * nat)) :=
  match _get_country_series df with
  | None => None
  | Some ser =>
      Some (value_counts sv (filter Resolver.nonempty (map PyStr.strip ser)))
  end.

(** A country's number of documents in the country-aggregation table
    (0 when the country is not in it). *)
Definition country_total (sv : SortValues) (df : option DataFrame) (country : string) : Z :=
  match country_counts sv df with
  | None => 0%Z
  | Some counts =>
      match PyDict.get country counts with
      | Some n => Z.of_nat n
      | None => 0%Z
      end
  end.

End Affil.

(** ** The specification's own notions, and the data of its examples *)

Module Spec.
Import Pandas.

(** The occurrences of one keyword in one cell: a missing cell has none. *)
Definition occurrences (case : bool) (c : cell) (w : string) : Z :=
  match c with
  | NaN => 0%Z
  | Val s => Z.of_nat (if case then PyStr.count s w
                       else PyStr.count (PyStr.lower s) (PyStr.lower w))
  end.

Definition sumZ (l : list Z) : Z := fold_right Z.add 0%Z l.

(** The hit count of a record: the sum over the target columns and over the
    configured keywords of the occurrences of the keyword in the column. *)
Definition hitCount (df : DataFrame) (case : bool) (words target_cols : list string)
           (row : list cell) : Z :=
  sumZ (map (fun c => sumZ (map (occurrences case (cell_of df row c)) words)) target_cols).

(** The record of a filtered table that stands for row [i] of the dataset. *)
Definition record (i : nat) (row : list cell) : Row :=
  {| label := i; cells := row; hits := 0 |}.

(** The same settings with another cutoff. *)
Definition with_cutoff (c : Z) (cfg : Filter.FilterCfg) : Filter.FilterCfg :=
  {| Filter.cfg_raw := Filter.cfg_raw cfg;
     Filter.cfg_case := Filter.cfg_case cfg;
     Filter.cfg_cutoff := c;
     Filter.cfg_cols := Filter.cfg_cols cfg |}.

(** The plausible country tokens of an affiliation text: the trailing
    comma-delimited token of each segment, trimmed, when it has at least
    three characters. *)
Definition plausible_tokens (text : string) : list string :=
  filter (fun t => (3 <=? String.length t)%nat)
         (map Affil.last_segment (Affil.segments text)).

(** The number of records with a given main country and scope. *)
Definition records_with (ser_aff : list cell) (country scope : string) : Z :=
  Affil.count_pairs (Affil.scope_pairs ser_aff) country scope.

(** The order of [sorted] on strings. *)
Definition str_le (a b : string) : Prop := String.leb a b = true.

(** The pivot table that holds, for the index labels [index] and the
    column labels [cols], the number of pairs of each combination. *)
Definition pivot_of (pairs : list (string * string)) (index cols : list string) : Affil.Pivot :=
  {| Affil.pcolumns := cols;
     Affil.prows := map (fun i => (i, map (Affil.count_pairs pairs i) cols)) index |}.

(** The affiliation column as [_build_collab_scope_table] reads it. *)
Definition affiliation_series (d : DataFrame) (col_aff : string) : list cell :=
  map (fun c => Val (fillna_str c)) (column d col_aff).

(** A dataset of three records: two countries, one country, no
    affiliation. *)
Definition collab_dataset : DataFrame :=
  {| columns := ["Affiliations"];
     object_columns := ["Affiliations"];
     rows := [[Val "Univ A, USA; Univ B, Japan"]; [Val "Univ C, Japan"]; [NaN]] |}.

(** The affiliation text of the specification's example. *)
Definition example_affiliation : cell :=
  Val "Dept. X, Tokyo University, Japan; Acme Corp, USA".

(** A table with one column of affiliations. *)
Definition affiliations_table (texts : list cell) : DataFrame :=
  {| columns := ["Affiliations"];
     object_columns := ["Affiliations"];
     rows := map (fun c => [c]) texts |}.

(** A table with one column of abstracts. *)
Definition abstracts_table (texts : list cell) : DataFrame :=
  {| columns := ["Abstract"];
     object_columns := ["Abstract"];
     rows := map (fun c => [c]) texts |}.

Definition cfg_of (raw : string) (cutoff : Z) : Filter.FilterCfg :=
  {| Filter.cfg_raw := raw;
     Filter.cfg_case := false;
     Filter.cfg_cutoff := cutoff;
     Filter.cfg_cols := [] |}.

(** A window in which 5 was typed as page index before a filter pass
    that keeps 120 records (page size 50), before the page is refreshed. *)
Definition paging_example : Paging.State unit :=
  Paging.install_filtered (repeat tt 120) (Paging.type_page_index 5 Paging.init).

(** The dataset and the settings of the specification's filter example. *)
Definition example_dataset : DataFrame :=
  abstracts_table [Val "blockchain for supply chains, a blockchain survey";
                   Val "a study of soil"].

Definition example_cfg : Filter.FilterCfg :=
  cfg_of "recovery:#d00000, blockchain" 1.

End Spec.

(** ** The table model shown in the views *)

Module Model.
Import Pandas.

(** [PandasModel.set_keywords_with_colors(mapping)]: the keywords kept for
    colouring, [{k: v for k, v in mapping.items() if k}]. *)
Definition set_keywords_with_colors (mapping : list (string * string))
  : list (string * string) :=
  filter (fun kv => Resolver.nonempty (fst kv)) mapping.

(** [PandasModel.data(index, DisplayRole)] for a cell. *)
Definition display (value : cell) : string := fillna_str value.

(** [PandasModel.data(index, ForegroundRole)] for a cell of column
    [colname]: the colour of the first keyword that occurs in the cell,
    case folded; [None] stands for the empty [QVariant]. *)
Definition foreground (keywords_colors : list (string * string))
           (target_cols : list string) (colname : string) (value : cell)
  : option string :=
  match keywords_colors with
  | [] => None
  | _ =>
      if match target_cols with [] => false | _ => negb (PyStr.mem colname target_cols) end
      then None
      else
        let text := fillna_str value in
        option_map snd
          (find (fun kv => PyStr.contains (PyStr.lower (fst kv)) (PyStr.lower text))
                keywords_colors)
  end.

End Model.

(** ** More helpers of the window *)

Module Helpers.
Import Pandas.

(** [s.replace(a, b)] for one-character [a] and [b]. *)
Fixpoint replace_char (a b : ascii) (s : string) : string :=
  match s with
  | EmptyString => EmptyString
  | String c s' => String (if Ascii.eqb c a then b else c) (replace_char a b s')
  end.

(** [_split_semicolon(s)] (the later of its two definitions, which is the
    one in force): the non-blank trimmed pieces between bars, commas and
    semicolons. *)
Definition _split_semicolon (s : string) : list string :=
  filter Resolver.nonempty
         (map PyStr.strip
              (PyStr.split ";" (replace_char "," ";" (replace_char "|" ";" s)))).

(** [_build_keyword_color_map()] (the later of its two definitions, which
    is the one in force) for the raw keyword text of the filter settings
    and the keywords of the last filter pass ([None] before the first
    pass): the colour of each trimmed, lower-cased keyword, and those
    keywords. *)
Definition _build_keyword_color_map (raw : string) (last_filter_words : option (list string))
  : list (string * string) * list string :=
  let (mapping, words) := Filter._parse_keyword_mapping raw in
  let words := match words, last_filter_words with
               | [], Some l => l
               | _, _ => words
               end in
  let color_map :=
    fold_left (fun color_map w =>
                 let lw := PyStr.lower (PyStr.strip w) in
                 if Resolver.nonempty lw
                 then PyDict.set lw
                                 (match PyDict.get w mapping with
                                  | Some color => color
                                  | None => "#1f77b4"
                                  end)
                                 color_map
                 else color_map)
              words [] in
  (color_map, PyDict.keys color_map).

(** [out.get(k, 0)] *)
Definition get0 (k : string) (d : list (string * Z)) : Z :=
  match PyDict.get k d with Some v => v | None => 0%Z end.

(** [_join_counts] of its dictionaries: the counts of several dictionaries added up
    key by key. *)
Definition _join_counts (dicts : list (list (string * Z))) : list (string * Z) :=
  fold_left (fun out d =>
               fold_left (fun out kv => PyDict.set (fst kv) (get0 (fst kv) out + snd kv)%Z out)
                         d out)
            dicts [].

End Helpers.

(** ** The detail view of the filtered table *)

Module Detail.
Import Pandas.

(** A word character of Python's [re] in ASCII text: a letter, a digit or
    the underscore. *)
Definition is_word_char (c : ascii) : bool :=
  PyStr.char_in_range 97 122 c || PyStr.char_in_range 65 90 c ||
  PyStr.char_in_range 48 57 c || Ascii.eqb c "_".

Definition word_at (c : option ascii) : bool :=
  match c with
  | Some c => is_word_char c
  | None => false
  end.

(** The word boundary [\b] at a position, from the character before it
    and the character after it ([None] outside the text). *)
Definition boundary (before after : option ascii) : bool :=
  xorb (word_at before) (word_at after).

Definition head (s : string) : option ascii :=
  match s with
  | EmptyString => None
  | String c _ => Some c
  end.

(** [s[n:]] *)
Fixpoint drop (n : nat) (s : string) : string :=
  match n, s with
  | O, _ => s
  | S n', String _ s' => drop n' s'
  | S _, EmptyString => EmptyString
  end.

(** [s[a:b]] *)
Definition slice (a b : nat) (s : string) : string :=
  Highlight.take (b - a) (drop a s).

(** The character before position [n] of [s], where [prev] is the
    character before [s]. *)
Fixpoint char_before (prev : option ascii) (n : nat) (s : string) : option ascii :=
  match n, s with
  | O, _ => prev
  | S n', String c s' => char_before (Some c) n' s'
  | S _, EmptyString => prev
  end.

(** The pattern [\b(k1|...|kn)\b] of escaped literals tried at the head of
    [s], where [prev] is the character before [s]: the length of the
    match of the first key that matches between two word boundaries.
    With [must_advance] an empty match is refused. *)
Definition word_pattern (ignorecase : bool) (keys : list string)
           (must_advance : bool) (prev : option ascii) (s : string) : option nat :=
  if boundary prev (head s)
  then option_map String.length
         (find (fun k =>
                  negb (must_advance && (String.length k =? 0)%nat) &&
                  Highlight.key_matches (negb ignorecase) k s &&
                  boundary (char_before prev (String.length k) s)
                           (head (drop (String.length k) s)))
               keys)
  else None.

(** [patt.finditer(s)] and [re.findall(patt, s)]: the spans [(start, end)]
    of the matches, found left to right without overlap.  [pos] is the
    position of [s] in the whole text, [prev] the character before it and
    [skip] the number of characters of the last match still to pass.
    After an empty match the search goes on at the same position for a
    match that is not empty, and then one character further on. *)
Section Finditer.
Variable patt : bool -> option ascii -> string -> option nat.

Fixpoint finditer_from (prev : option ascii) (s : string) (pos skip : nat) {struct s}
  : list (nat * nat) :=
  match s with
  | EmptyString =>
      match skip with
      | O => match patt false prev s with
             | Some O => [(pos, pos)]
             | _ => []
             end
      | S _ => []
      end
  | String c s' =>
      match skip with
      | S k => finditer_from (Some c) s' (S pos) k
      | O =>
          match patt false prev s with
          | Some (S m) => (pos, pos + S m) :: finditer_from (Some c) s' (S pos) m
          | Some O =>
              (pos, pos) ::
              match patt true prev s with
              | Some (S m) => (pos, pos + S m) :: finditer_from (Some c) s' (S pos) m
              | _ => finditer_from (Some c) s' (S pos) 0
              end
          | None => finditer_from (Some c) s' (S pos) 0
          end
      end
  end.

Definition finditer (s : string) : list (nat * nat) := finditer_from None s 0 0.

End Finditer.

(** The callback [repl] of [_highlight_keywords_html], on the matched
    word. *)
Definition repl (kw_color_map : list (string * string)) (bold : bool) (w : string) : string :=
  let color := match PyDict.get (PyStr.lower w) kw_color_map with
               | Some c => c
               | None => "#1f77b4"
               end in
  let fw := if bold then "bold" else "normal" in
  "<span style='color:" ++ color ++ "; font-weight:" ++ fw ++ "'>"
    ++ PyStr.html_escape w ++ "</span>".

(** [_highlight_keywords_html(text, kw_color_map, bold)] (the later of its
    two definitions, which is the one in force): the text between the
    matches escaped, each match replaced by [repl]. *)
Definition _highlight_keywords_html (text : cell) (kw_color_map : list (string * string))
           (bold : bool) : string :=
  let s := fillna_str text in
  match kw_color_map with
  | [] => PyStr.html_escape s
  | _ =>
      let patt := word_pattern true (PyDict.keys kw_color_map) in
      let (out, last) :=
        fold_left (fun (acc : list string * nat) (mm : nat * nat) =>
                     let (out, last) := acc in
                     (out ++ [PyStr.html_escape (slice last (fst mm) s);
                              repl kw_color_map bold (slice (fst mm) (snd mm) s)],
                      snd mm))
                  (finditer patt s) ([], O) in
      PyStr.join EmptyString (out ++ [PyStr.html_escape (drop last s)])
  end.

(** [_count_occ_in_text(text, words_lower)] (the later of its two
    definitions): for each word the number of its matches between word
    boundaries in the lower-cased text. *)
Definition _count_occ_in_text (text : cell) (words_lower : list string) : list (string * Z) :=
  let s := fillna_str text in
  let lower := PyStr.lower s in
  let out := fold_left (fun out w => PyDict.set w 0%Z out) words_lower [] in
  fold_left (fun out w =>
               PyDict.set w
                 (Helpers.get0 w out
                  + Z.of_nat (length (finditer (word_pattern false [w]) lower)))%Z
                 out)
            words_lower out.

(** The columns that [_on_filtered_row_selected] highlights and counts. *)
Definition title_col (df : DataFrame) : option string :=
  Resolver._get_col (Some df) ["Title"; "Document Title"; "Article Title"].

Definition _abstract_col (df : DataFrame) : option string :=
  Resolver._get_col (Some df) ["Abstract"; "Description"].

Definition _author_kw_col (df : DataFrame) : option string :=
  Resolver._get_col (Some df) ["Author Keywords"; "Author_Keywords"; "Keywords"].

(** [series.get(c, <empty>)] on a record of the table. *)
Definition series_get (df : DataFrame) (row : list cell) (c : option string) : cell :=
  match c with
  | Some c => if PyStr.mem c (columns df) then cell_of df row c else Val EmptyString
  | None => Val EmptyString
  end.

Definition is_col (col : string) (c : option string) : bool :=
  match c with
  | Some c => String.eqb col c
  | None => false
  end.

(** [_on_filtered_row_selected], the markup [hv] of each column of the
    selected record, in the order of the columns: the title, abstract and
    author-keywords columns highlighted, the others escaped. *)
Definition selected_row_markup (df : DataFrame) (raw : string)
           (last_filter_words : option (list string)) (row : list cell) : list string :=
  let (color_map, words_lower) := Helpers._build_keyword_color_map raw last_filter_words in
  let title_c := title_col df in
  let abs_c := _abstract_col df in
  let ak_c := _author_kw_col df in
  map (fun col =>
         let val := cell_of df row col in
         if is_col col title_c || is_col col abs_c || is_col col ak_c
         then _highlight_keywords_html val color_map true
         else PyStr.html_escape (fillna_str val))
      (columns df).

(** The three fields of the selected record that are counted. *)
Definition selected_row_fields (df : DataFrame) (row : list cell) : list cell :=
  [series_get df row (title_col df);
   series_get df row (_abstract_col df);
   series_get df row (_author_kw_col df)].

(** [_on_filtered_row_selected], the counts [occ] shown for the selected
    record: per keyword, its matches in the title, the abstract and the
    author keywords. *)
Definition selected_row_counts (df : DataFrame) (raw : string)
           (last_filter_words : option (list string)) (row : list cell) : list (string * Z) :=
  let (color_map, words_lower) := Helpers._build_keyword_color_map raw last_filter_words in
  Helpers._join_counts
    (map (fun text => _count_occ_in_text text words_lower) (selected_row_fields df row)).

End Detail.

(** ** Notions used to state when the detail view and the filter agree *)

Module DetailSpec.
Import Pandas.

(** The text holds ASCII characters only. *)
Definition is_ascii (s : string) : bool :=
  forallb (fun c => (nat_of_ascii c <? 128)%nat) (list_ascii_of_string s).

(** Every occurrence of [w] in [s] stands as a whole word: there is a word
    boundary before it and behind it ([prev] is the character before
    [s]). *)
Fixpoint whole_words_from (w : string) (prev : option ascii) (s : string) : bool :=
  (if prefix w s
   then Detail.boundary prev (Detail.head s) &&
        Detail.boundary (Detail.char_before prev (String.length w) s)
                        (Detail.head (Detail.drop (String.length w) s))
   else true) &&
  match s with
  | EmptyString => true
  | String c s' => whole_words_from w (Some c) s'
  end.

Definition whole_words (w s : string) : bool := whole_words_from w None s.

(** The keyword [w] occurs in [s] in its own case only: wherever it
    occurs when case is ignored, it stands as written. *)
Fixpoint same_case (w s : string) : bool :=
  (if prefix (PyStr.lower w) (PyStr.lower s) then prefix w s else true) &&
  match s with
  | EmptyString => true
  | String _ s' => same_case w s'
  end.

(** Spans that follow one another from position [lo] to position [hi]. *)
Fixpoint spans_ordered (lo hi : nat) (spans : list (nat * nat)) : Prop :=
  match spans with
  | [] => lo <= hi
  | mm :: rest => lo <= fst mm /\ fst mm <= snd mm /\ spans_ordered (snd mm) hi rest
  end.

(** The markup of [s] from position [last] on, for given spans of
    matches: escaped text and replaced matches in turn. *)
Fixpoint rebuild (kw_color_map : list (string * string)) (bold : bool) (s : string)
         (last : nat) (spans : list (nat * nat)) : string :=
  match spans with
  | [] => PyStr.html_escape (Detail.drop last s)
  | mm :: rest =>
      PyStr.html_escape (Detail.slice last (fst mm) s)
      ++ Detail.repl kw_color_map bold (Detail.slice (fst mm) (snd mm) s)
      ++ rebuild kw_color_map bold s (snd mm) rest
  end.

(** The columns the detail view reads, those it could resolve. *)
Definition detail_columns (df : DataFrame) : list string :=
  flat_map (fun c => match c with Some c => [c] | None => [] end)
           [Detail.title_col df; Detail._abstract_col df; Detail._author_kw_col df].

(** The total of a dictionary of counts. *)
Definition total (counts : list (string * Z)) : Z := Spec.sumZ (map snd counts).

(** The total of the counts the detail view shows for a record of the
    table that a filter pass with the settings [cfg] has left: the
    settings are the current ones, and [_last_filter_words] holds the
    keywords of the pass. *)
Definition shown_total (df : DataFrame) (cfg : Filter.FilterCfg) (row : list cell) : Z :=
  total (Detail.selected_row_counts
           df (Filter.cfg_raw cfg)
           (Some (snd (Filter._parse_keyword_mapping (Filter.cfg_raw cfg)))) row).

(** The hit count of the record in that pass. *)
Definition hit_count (df : DataFrame) (cfg : Filter.FilterCfg) (row : list cell) : Z :=
  Spec.hitCount df (Filter.cfg_case cfg)
                (snd (Filter._parse_keyword_mapping (Filter.cfg_raw cfg)))
                (Filter.target_columns df cfg) row.

(** A table with a title, an abstract and author keywords. *)
Definition papers (rs : list (list cell)) : DataFrame :=
  {| columns := ["Title"; "Abstract"; "Author Keywords"];
     object_columns := ["Title"; "Abstract"; "Author Keywords"];
     rows := rs |}.

Definition settings (raw : string) (case : bool) (cols : list string) : Filter.FilterCfg :=
  {| Filter.cfg_raw := raw;
     Filter.cfg_case := case;
     Filter.cfg_cutoff := 1;
     Filter.cfg_cols := cols |}.

(** A record for the keywords of the specification's filter example. *)
Definition example_record : list cell :=
  [Val "Blockchain recovery";
   Val "blockchain for supply chains, a blockchain survey";
   NaN].

End DetailSpec.

(** ** Invariants read off the code *)

Module Invariants.

(** A paging state as [refresh_page] leaves it for the filtered table
    [f]: the table is installed in the model, the page size is at least 1,
    and the page-index spin box ranges over the pages and holds one. *)
Definition settled {A : Type} (st : Paging.State A) (f : list A) : Prop :=
  Paging.filtered_df st = Some f /\
  Paging.model_full st = Some f /\
  (1 <= Paging.value (Paging.page_size_spin st))%Z /\
  Paging.minimum (Paging.page_index_spin st) = 0%Z /\
  Paging.maximum (Paging.page_index_spin st)
  = (Paging.total_pages (Paging.len f) (Paging.value (Paging.page_size_spin st)) - 1)%Z /\
  (0 <= Paging.value (Paging.page_index_spin st)
   <= Paging.maximum (Paging.page_index_spin st))%Z.

(** The page index shown. *)
Definition shown_index {A : Type} (st : Paging.State A) : Z :=
  Paging.value (Paging.page_index_spin st).

(** The pages of a table, in order. *)
Definition all_pages {A : Type} (ps : Z) (f : list A) : list (list A) :=
  map (fun i => Paging.iloc (Z.of_nat i * ps) ps f)
      (seq 0 (Z.to_nat (Paging.total_pages (Paging.len f) ps))).

End Invariants.

(** * Facts *)

Import Pandas.

(** ** The example affiliation *)

(** C8: for the affiliation text of the specification's example the type
    set is Academic and Industry, the category is [Academic and Industry],
    the extracted countries are [Japan; USA] and the scope is
    [International]. *)
Theorem C8_example_affiliation :
  Affil._classify_institution_types Spec.example_affiliation = ["Academic"; "Industry"] /\
  Affil._categorize_institution_combination Spec.example_affiliation = "Academic and Industry" /\
  Affil._extract_countries_from_affil Spec.example_affiliation = "Japan; USA" /\
  Affil._detect_collab_scope (Affil._extract_countries_from_affil Spec.example_affiliation)
    = "International".
Proof.
  repeat split; vm_compute; reflexivity.
Qed.

(** ** Sets and sorting of strings *)

Lemma mem_In (x : string) (l : list string) :
  PyStr.mem x l = true <-> In x l.
Proof.
  induction l as [|y l IH]; simpl.
  - split; [discriminate | tauto].
  - rewrite orb_true_iff, IH, String.eqb_eq. split; intros [H|H]; auto.
Qed.

Lemma mem_false_not_In (x : string) (l : list string) :
  PyStr.mem x l = false <-> ~ In x l.
Proof.
  rewrite <- mem_In. destruct (PyStr.mem x l); split; intros; congruence.
Qed.

Lemma set_add_In (x y : string) (s : list string) :
  In y (PyStr.set_add x s) <-> y = x \/ In y s.
Proof.
  unfold PyStr.set_add. destruct (PyStr.mem x s) eqn:E.
  - apply mem_In in E. split; [auto | intros [->|H]; auto].
  - rewrite in_app_iff; simpl. split; intros H; intuition auto.
Qed.

Lemma set_add_NoDup (x : string) (s : list string) :
  NoDup s -> NoDup (PyStr.set_add x s).
Proof.
  intros H. unfold PyStr.set_add. destruct (PyStr.mem x s) eqn:E; auto.
  apply mem_false_not_In in E.
  apply NoDup_rev in H. rewrite <- (rev_involutive (s ++ [x])).
  apply NoDup_rev. rewrite rev_app_distr; simpl.
  constructor; auto. now rewrite <- in_rev.
Qed.

(** A loop that adds to a set the images that pass a test. *)
Lemma fold_set_add_spec (f : string -> string) (test : string -> bool)
      (parts acc : list string) :
  let out := fold_left (fun s p => if test (f p) then PyStr.set_add (f p) s else s)
                       parts acc in
  (NoDup acc -> NoDup out) /\
  (forall t, In t out <-> In t acc \/ In t (filter test (map f parts))).
Proof.
  revert acc. induction parts as [|p parts IH]; intros acc; simpl.
  - split; [auto | intros t; tauto].
  - destruct (IH (if test (f p) then PyStr.set_add (f p) acc else acc)) as [IH1 IH2].
    split.
    + intros H. apply IH1. destruct (test (f p)); auto using set_add_NoDup.
    + intros t. rewrite IH2. destruct (test (f p)) eqn:E; simpl.
      * rewrite set_add_In. intuition auto.
      * tauto.
Qed.

Lemma to_set_spec (l : list string) :
  NoDup (Affil.to_set l) /\ (forall t, In t (Affil.to_set l) <-> In t l).
Proof.
  unfold Affil.to_set.
  destruct (fold_set_add_spec (fun x => x) (fun _ => true) l []) as [H1 H2].
  simpl in H1, H2. split.
  - apply H1. constructor.
  - intros t. rewrite H2. rewrite map_id.
    assert (E : filter (fun _ : string => true) l = l).
    { clear. induction l; simpl; congruence. }
    rewrite E. simpl. tauto.
Qed.

Lemma insert_sorted_perm (x : string) (l : list string) :
  Permutation (x :: l) (PyStr.insert_sorted x l).
Proof.
  induction l as [|y l IH]; simpl; auto.
  destruct (String.leb x y); auto.
  rewrite perm_swap. now constructor.
Qed.

Lemma sorted_perm (l : list string) : Permutation l (PyStr.sorted l).
Proof.
  induction l as [|x l IH]; simpl; auto.
  rewrite <- insert_sorted_perm. now constructor.
Qed.

Lemma insert_sorted_Sorted (x : string) (l : list string) :
  Sorted Spec.str_le l -> Sorted Spec.str_le (PyStr.insert_sorted x l).
Proof.
  induction l as [|y l IH]; intros H; simpl.
  - repeat constructor.
  - destruct (String.leb x y) eqn:E.
    + constructor; auto.
    + inversion H as [|? ? Hs Hh]; subst.
      constructor; auto.
      destruct l as [|z l]; simpl.
      * constructor. destruct (String.leb_total x y) as [T|T]; [congruence | exact T].
      * destruct (String.leb x z); constructor.
        -- destruct (String.leb_total x y) as [T|T]; [congruence | exact T].
        -- now inversion Hh.
Qed.

Lemma sorted_Sorted (l : list string) : Sorted Spec.str_le (PyStr.sorted l).
Proof.
  induction l as [|x l IH]; simpl; [constructor | now apply insert_sorted_Sorted].
Qed.

Lemma sorted_In (l : list string) (t : string) : In t (PyStr.sorted l) <-> In t l.
Proof.
  split; apply Permutation_in; [symmetry |]; apply sorted_perm.
Qed.

Lemma sorted_NoDup (l : list string) : NoDup l -> NoDup (PyStr.sorted l).
Proof.
  intros H. eapply Permutation_NoDup; [apply sorted_perm | exact H].
Qed.

(** ** Country extraction *)

(** C7, as the code has it: the countries are the plausible tokens (the
    trimmed trailing comma-delimited token, of three characters or more, of
    each non-blank segment between semicolons), each once, in sorted order,
    joined with a semicolon and a blank; when there is none the result is
    the empty string, which the callers turn into [Unknown]. *)
Theorem C7_country_extraction (text : string) :
  exists countries : list string,
    Affil._extract_countries_from_affil (Val text) = PyStr.join "; " countries /\
    (forall t, In t countries <-> In t (Spec.plausible_tokens text)) /\
    NoDup countries /\
    Sorted Spec.str_le countries /\
    (Spec.plausible_tokens text = [] ->
       Affil._extract_countries_from_affil (Val text) = EmptyString /\
       Affil.main_country_of (Affil._extract_countries_from_affil (Val text)) = "Unknown" /\
       Affil._detect_collab_scope (Affil._extract_countries_from_affil (Val text)) = "Unknown").
Proof.
  unfold Affil._extract_countries_from_affil; simpl fillna_str.
  pose proof (fold_set_add_spec Affil.last_segment
                (fun t => (3 <=? String.length t)%nat) (Affil.segments text) []) as H.
  cbv zeta in H. destruct H as [Hnd Hin].
  change (filter _ (map Affil.last_segment (Affil.segments text)))
    with (Spec.plausible_tokens text) in Hin.
  set (cs := fold_left _ (Affil.segments text) []) in *.
  exists (PyStr.sorted cs). split; [reflexivity|].
  split; [|split; [|split]].
  - intros t. rewrite sorted_In, Hin. simpl. tauto.
  - apply sorted_NoDup, Hnd. constructor.
  - apply sorted_Sorted.
  - intros E. rewrite E in Hin.
    assert (cs = []) as ->.
    { destruct cs as [|c cs']; auto. exfalso.
      destruct (Hin c) as [H _]. destruct H as [[]|[]]. now left. }
    repeat split; reflexivity.
Qed.

(** C7 as stated fails: a text with no plausible token gives the empty
    string, not [Unknown]. *)
Lemma C7_counterexample :
  Spec.plausible_tokens "Univ A, UK" = [] /\
  Affil._extract_countries_from_affil (Val "Univ A, UK") = EmptyString /\
  Affil._extract_countries_from_affil (Val "Univ A, UK") <> "Unknown".
Proof.
  repeat split; try (vm_compute; reflexivity).
  vm_compute. discriminate.
Qed.

(** ** Sorting by an integer key *)

Lemma stable_insert_perm {A : Type} (key : A -> Z) (asc : bool) (x : A) (l : list A) :
  Permutation (x :: l) (stable_insert key asc x l).
Proof.
  induction l as [|y l IH]; simpl; auto.
  destruct (if asc then (key x <=? key y)%Z else (key y <=? key x)%Z); auto.
  rewrite perm_swap. now constructor.
Qed.

Lemma stable_sort_go_perm {A : Type} (key : A -> Z) (asc : bool) (l : list A) :
  Permutation l (stable_sort_go key asc l).
Proof.
  induction l as [|x l IH]; simpl; auto.
  rewrite <- stable_insert_perm. now constructor.
Qed.

Lemma key_ordered_trans {A : Type} (key : A -> Z) (asc : bool) (x y z : A) :
  key_ordered key asc x y -> key_ordered key asc y z -> key_ordered key asc x z.
Proof. unfold key_ordered; destruct asc; lia. Qed.

Lemma key_ordered_total {A : Type} (key : A -> Z) (asc : bool) (x y : A) :
  (if asc then (key x <=? key y)%Z else (key y <=? key x)%Z) = false ->
  key_ordered key asc y x.
Proof. unfold key_ordered; destruct asc; intros H; apply Z.leb_gt in H; lia. Qed.

Lemma stable_insert_sorted {A : Type} (key : A -> Z) (asc : bool) (x : A) (l : list A) :
  StronglySorted (key_ordered key asc) l ->
  StronglySorted (key_ordered key asc) (stable_insert key asc x l).
Proof.
  induction l as [|y l IH]; intros H; simpl.
  - repeat constructor.
  - inversion H as [|? ? Hs Hall]; subst.
    destruct (if asc then (key x <=? key y)%Z else (key y <=? key x)%Z) eqn:E.
    + constructor; auto. constructor.
      * unfold key_ordered. destruct asc; apply Z.leb_le in E; exact E.
      * eapply Forall_impl; [|exact Hall]. intros z Hz.
        eapply key_ordered_trans; [|exact Hz].
        unfold key_ordered. destruct asc; apply Z.leb_le in E; exact E.
    + constructor; auto.
      apply (Permutation_Forall (stable_insert_perm key asc x l)).
      constructor; auto. now apply key_ordered_total.
Qed.

Lemma stable_sort_contract : sort_contract stable_sort.
Proof.
  intros A key asc l. unfold stable_sort. split.
  - apply stable_sort_go_perm.
  - induction l as [|x l IH]; simpl; [constructor | now apply stable_insert_sorted].
Qed.

Section SortFacts.
Variable sv : SortValues.
Hypothesis Hsv : sort_contract sv.

Lemma sv_In {A : Type} (key : A -> Z) (asc : bool) (l : list A) (x : A) :
  In x (sv A key asc l) <-> In x l.
Proof.
  destruct (Hsv A key asc l) as [P _].
  split; apply Permutation_in; [symmetry|]; exact P.
Qed.

Lemma sv_nil {A : Type} (key : A -> Z) (asc : bool) : sv A key asc [] = [].
Proof.
  destruct (Hsv A key asc []) as [P _]. now apply Permutation_nil in P.
Qed.

Lemma sv_singleton {A : Type} (key : A -> Z) (asc : bool) (x : A) :
  sv A key asc [x] = [x].
Proof.
  destruct (Hsv A key asc [x]) as [P _]. now apply Permutation_length_1_inv in P.
Qed.

Lemma sv_length {A : Type} (key : A -> Z) (asc : bool) (l : list A) :
  length (sv A key asc l) = length l.
Proof.
  destruct (Hsv A key asc l) as [P _]. symmetry. now apply Permutation_length.
Qed.

End SortFacts.

(** ** Institution types of a record without affiliation *)

(** C10, at the failing input: a missing or empty affiliation text gives
    the empty type set without an error, but the record is then put in the
    category [Mixed Collaboration] and counted in the table. *)
Theorem C10_empty_affiliation_counted_as_mixed (sv : SortValues) :
  sort_contract sv ->
  Affil._classify_institution_types NaN = [] /\
  Affil._classify_institution_types (Val EmptyString) = [] /\
  Affil._categorize_institution_combination (Val EmptyString) = "Mixed Collaboration" /\
  Affil.institution_collab_counts sv (Some (Spec.affiliations_table [NaN]))
    = Some [("Mixed Collaboration", 1%nat)].
Proof.
  intros Hsv. repeat split; try (vm_compute; reflexivity).
  unfold Affil.institution_collab_counts, Affil.value_counts.
  replace (Resolver._get_col (Some (Spec.affiliations_table [NaN])) Affil.AFFIL_CANDIDATES)
    with (Some "Affiliations") by (vm_compute; reflexivity).
  replace (Affil.tally _) with [("Mixed Collaboration", 1%nat)] by (vm_compute; reflexivity).
  now rewrite !(sv_singleton sv Hsv).
Qed.

Lemma C10_witness :
  Affil.institution_collab_counts stable_sort (Some (Spec.affiliations_table [NaN]))
    = Some [("Mixed Collaboration", 1%nat)].
Proof.
  apply (C10_empty_affiliation_counted_as_mixed stable_sort stable_sort_contract).
Defined.

(** ** Paging *)

Lemma total_pages_spec (total ps : Z) :
  (1 <= ps)%Z -> (0 <= total)%Z ->
  (1 <= Paging.total_pages total ps)%Z /\
  (total = 0 -> Paging.total_pages total ps = 1)%Z /\
  (0 < total ->
   (Paging.total_pages total ps - 1) * ps < total <= Paging.total_pages total ps * ps)%Z.
Proof.
  intros Hps Ht. unfold Paging.total_pages.
  pose proof (Z.div_mod (total + ps - 1) ps ltac:(lia)) as E.
  pose proof (Z.mod_pos_bound (total + ps - 1) ps ltac:(lia)) as B.
  set (q := ((total + ps - 1) / ps)%Z) in *.
  set (r := ((total + ps - 1) mod ps)%Z) in *.
  split; [lia|]. split.
  - intros ->. assert (q = 0)%Z by nia. lia.
  - intros Hpos. assert (1 <= q)%Z by nia.
    rewrite Z.max_r by lia. nia.
Qed.

Lemma index_within_pages (total ps r : Z) :
  (1 <= ps)%Z -> (0 < total)%Z -> (0 <= r)%Z -> (r * ps < total)%Z ->
  (r <= Paging.total_pages total ps - 1)%Z.
Proof.
  intros Hps Ht Hr Hlt.
  destruct (total_pages_spec total ps Hps ltac:(lia)) as (H1 & _ & H3).
  specialize (H3 Ht). nia.
Qed.

Lemma spin_after_update (sb : Paging.QSpinBox) (tp : Z) :
  Paging.minimum sb = 0%Z -> (1 <= tp)%Z ->
  Paging.setValue (Z.min (Z.max 0 (Paging.value sb)) (tp - 1))
                  (Paging.setMaximum (Z.max 0 (tp - 1)) sb)
  = {| Paging.value := Z.min (Z.max 0 (Paging.value sb)) (tp - 1);
       Paging.minimum := 0;
       Paging.maximum := tp - 1 |}.
Proof.
  intros Hmin Htp. unfold Paging.setValue, Paging.setMaximum, Paging.bound.
  cbn [Paging.value Paging.minimum Paging.maximum]. rewrite Hmin.
  generalize (Paging.value sb). intros v. f_equal; lia.
Qed.

(** What [_update_paging_ui] leaves behind. *)
Lemma update_paging_ui_result {A : Type} (st : Paging.State A) (f : list A) :
  Paging.filtered_df st = Some f ->
  Paging.minimum (Paging.page_index_spin st) = 0%Z ->
  (1 <= Paging.page_size st)%Z ->
  Paging._update_paging_ui st
  = {| Paging.filtered_df := Some f;
       Paging.model_full := Paging.model_full st;
       Paging.model_page := Paging.model_page st;
       Paging.page_size := Paging.page_size st;
       Paging.page_index := Paging.page_index st;
       Paging.page_size_spin := Paging.page_size_spin st;
       Paging.page_index_spin :=
         {| Paging.value :=
              Z.min (Z.max 0 (Paging.value (Paging.page_index_spin st)))
                    (Paging.total_pages (Paging.len f) (Paging.page_size st) - 1);
            Paging.minimum := 0;
            Paging.maximum := Paging.total_pages (Paging.len f) (Paging.page_size st) - 1 |};
       Paging.lbl_pageinfo :=
         ((Z.min (Z.max 0 (Paging.value (Paging.page_index_spin st)))
                 (Paging.total_pages (Paging.len f) (Paging.page_size st) - 1) + 1)%Z,
          Paging.total_pages (Paging.len f) (Paging.page_size st)) |}.
Proof.
  intros Hf Hmin Hps. unfold Paging._update_paging_ui. rewrite Hf.
  rewrite (Z.max_r 1 (Paging.page_size st)) by exact Hps.
  assert (Htot : (0 <= Paging.len f)%Z) by (unfold Paging.len; lia).
  destruct (total_pages_spec (Paging.len f) (Paging.page_size st) Hps Htot) as (P1 & _).
  now rewrite (spin_after_update _ _ Hmin P1).
Qed.

(** The page index that [refresh_page] settles on. *)
Lemma settled_index (total ps pages v : Z) :
  (0 <= total)%Z -> (1 <= pages)%Z ->
  (total = 0 -> pages = 1)%Z ->
  (Z.max 0 v * ps < total -> Z.max 0 v <= pages - 1)%Z ->
  Z.min (Z.max 0
           (Z.min (Z.max 0 (if (total <=? Z.max 0 v * ps)%Z && (0 <? total)%Z
                            then 0%Z else v))
                  (pages - 1)))
        (pages - 1)
  = (if (Z.max 0 v * ps <? total)%Z then Z.max 0 v else 0%Z).
Proof.
  intros Ht Hp H0 Hin.
  remember (Z.max 0 v) as r eqn:Hr.
  remember (r * ps)%Z as q eqn:Hq. clear Hq.
  destruct (Z.leb_spec total q) as [L|L];
    destruct (Z.ltb_spec q total) as [L'|L']; try lia;
    destruct (Z.ltb_spec 0 total) as [T|T]; cbn [andb]; lia.
Qed.

(** C4, as the code has it: after [refresh_page] the page index is within
    0 and the number of pages minus one, and it is 0 when there is no
    record; the number of pages is the ceiling of total over page size, at
    least 1; a requested index whose page starts at or after the last
    record is reset to 0 (it is not moved to the last page); from then on
    the spin box keeps what is typed into it within the pages. *)
Theorem C4_page_index_after_refresh {A : Type} (st : Paging.State A) (f m : list A) :
  Paging.filtered_df st = Some f ->
  Paging.model_full st = Some m ->
  (1 <= Paging.value (Paging.page_size_spin st))%Z ->
  Paging.minimum (Paging.page_index_spin st) = 0%Z ->
  let total := Paging.len f in
  let ps := Paging.value (Paging.page_size_spin st) in
  let requested := Z.max 0 (Paging.value (Paging.page_index_spin st)) in
  let pages := Paging.total_pages total ps in
  let st' := Paging.refresh_page st in
  let index := Paging.value (Paging.page_index_spin st') in
  (0 <= index <= pages - 1)%Z /\
  (total = 0 -> index = 0)%Z /\
  (0 < total -> Paging.page_index st' = index)%Z /\
  index = (if (requested * ps <? total)%Z then requested else 0%Z) /\
  (1 <= pages)%Z /\
  (0 < total -> (pages - 1) * ps < total <= pages * ps)%Z /\
  Paging.lbl_pageinfo st' = ((index + 1)%Z, pages) /\
  Paging.model_page st' = Paging.iloc (index * ps) ps f /\
  (forall v, Paging.value (Paging.page_index_spin (Paging.type_page_index v st'))
             = Paging.bound 0 v (pages - 1)).
Proof.
  intros Hf Hm Hps Hmin total ps requested pages st' index.
  assert (Htot : (0 <= total)%Z) by (unfold total, Paging.len; lia).
  destruct (total_pages_spec total ps Hps Htot) as (P1 & P2 & P3).
  fold pages in P1, P2, P3.
  assert (Hr : (0 <= requested)%Z) by (unfold requested; lia).
  assert (Hin : (requested * ps < total -> requested <= pages - 1)%Z).
  { intros L. assert (T : (0 < total)%Z) by nia.
    exact (index_within_pages total ps requested Hps T Hr L). }
  set (reset := (total <=? requested * ps)%Z && (0 <? total)%Z).
  set (v := Paging.value (Paging.page_index_spin st)) in *.
  (* the state handed to [_update_paging_ui] *)
  set (spin1 := if reset then Paging.setValue 0 (Paging.page_index_spin st)
                else Paging.page_index_spin st).
  assert (Hspin1 : Paging.minimum spin1 = 0%Z /\
                   Paging.value spin1 = (if reset then 0%Z else v)).
  { unfold spin1. destruct reset; cbn; rewrite ?Hmin; split; auto.
    unfold Paging.bound. generalize (Paging.maximum (Paging.page_index_spin st)).
    intros mx. clear. lia. }
  destruct Hspin1 as [Hmin1 Hval1].
  assert (E : st' =
    {| Paging.filtered_df := Some f;
       Paging.model_full := Some f;
       Paging.model_page := Paging.iloc (if reset then 0%Z else (requested * ps)%Z) ps f;
       Paging.page_size := ps;
       Paging.page_index := if reset then 0%Z else requested;
       Paging.page_size_spin := Paging.page_size_spin st;
       Paging.page_index_spin :=
         {| Paging.value :=
              Z.min (Z.max 0 (Z.min (Z.max 0 (if reset then 0%Z else v)) (pages - 1)))
                    (pages - 1);
            Paging.minimum := 0;
            Paging.maximum := pages - 1 |};
       Paging.lbl_pageinfo :=
         ((Z.min (Z.max 0 (Z.min (Z.max 0 (if reset then 0%Z else v)) (pages - 1)))
                 (pages - 1) + 1)%Z, pages) |}).
  { unfold st', Paging.refresh_page. rewrite Hm, Hf.
    fold total ps v requested reset spin1.
    match goal with
    | |- Paging._update_paging_ui (Paging._update_paging_ui ?s1) = _ =>
        rewrite (update_paging_ui_result s1 f eq_refl Hmin1 Hps)
    end.
    cbn [Paging.model_full Paging.model_page Paging.page_size Paging.page_index
         Paging.page_size_spin Paging.page_index_spin].
    match goal with
    | |- Paging._update_paging_ui ?s2 = _ =>
        rewrite (update_paging_ui_result s2 f eq_refl eq_refl Hps)
    end.
    cbn [Paging.model_full Paging.model_page Paging.page_size Paging.page_index
         Paging.page_size_spin Paging.page_index_spin Paging.value].
    fold pages. rewrite Hval1. reflexivity. }
  assert (I : index = (if (requested * ps <? total)%Z then requested else 0%Z)).
  { unfold index. rewrite E. cbn [Paging.page_index_spin Paging.value].
    exact (settled_index total ps pages v Htot P1 P2 Hin). }
  assert (Hreset : reset = negb (requested * ps <? total)%Z && (0 <? total)%Z).
  { unfold reset. f_equal. clear. generalize (requested * ps)%Z. intros q.
    destruct (Z.leb_spec total q), (Z.ltb_spec q total); simpl; auto; lia. }
  split; [|split; [|split; [|split; [|split; [|split; [|split; [|split]]]]]]]; auto.
  - rewrite I. destruct (requested * ps <? total)%Z eqn:L; [|lia].
    apply Z.ltb_lt in L. specialize (Hin L). lia.
  - intros T. rewrite I.
    destruct (Z.ltb_spec (requested * ps) total) as [L|L]; [nia | reflexivity].
  - intros T. rewrite I, E. cbn [Paging.page_index]. rewrite Hreset.
    destruct (requested * ps <? total)%Z; cbn [negb andb]; auto.
    destruct (Z.ltb_spec 0 total); [reflexivity | lia].
  - rewrite (f_equal Paging.lbl_pageinfo E). cbn [Paging.lbl_pageinfo].
    unfold index at 1. rewrite (f_equal Paging.page_index_spin E).
    reflexivity.
  - rewrite (f_equal Paging.model_page E). cbn [Paging.model_page]. rewrite I, Hreset.
    destruct (requested * ps <? total)%Z; cbn [negb andb]; auto.
    destruct (Z.ltb_spec 0 total) as [T|T]; [reflexivity|].
    assert (f = []) as ->.
    { destruct f; auto. unfold total, Paging.len in T. simpl in T. lia. }
    unfold Paging.iloc. now rewrite !skipn_nil, !firstn_nil.
  - intros v0. unfold Paging.type_page_index, Paging.with_page_index_spin, Paging.setValue.
    cbn [Paging.page_index_spin Paging.value].
    rewrite (f_equal Paging.page_index_spin E). reflexivity.
Qed.

Lemma C4_witness :
  Paging.filtered_df Spec.paging_example = Some (repeat tt 120) /\
  (1 <= Paging.value (Paging.page_size_spin Spec.paging_example))%Z /\
  (0 <= Paging.value (Paging.page_index_spin (Paging.refresh_page Spec.paging_example))
     <= Paging.total_pages 120 50 - 1)%Z.
Proof.
  assert (H : (1 <= Paging.value (Paging.page_size_spin Spec.paging_example))%Z)
    by (vm_compute; discriminate).
  split; [reflexivity|]. split; [exact H|].
  exact (proj1 (C4_page_index_after_refresh Spec.paging_example
                  (repeat tt 120) (repeat tt 120) eq_refl eq_refl H eq_refl)).
Defined.

(** C4 as stated fails: with 120 records and page size 50 there are 3
    pages, and a page index of 5 standing in the spin box when the result
    set is installed becomes 0, where clamping would give 2. *)
Lemma C4_counterexample :
  let st := Paging.show_filtered (repeat tt 120) (Paging.type_page_index 5 Paging.init) in
  Paging.total_pages 120 50 = 3%Z /\
  Paging.value (Paging.page_index_spin (Paging.type_page_index 5 (@Paging.init unit))) = 5%Z /\
  Paging.bound 0 5 (Paging.total_pages 120 50 - 1) = 2%Z /\
  Paging.value (Paging.page_index_spin st) = 0%Z /\
  Paging.page_index st = 0%Z /\
  Paging.value (Paging.page_index_spin st) <> 2%Z.
Proof.
  repeat split; try (vm_compute; reflexivity).
  vm_compute. discriminate.
Qed.

(** ** The keyword filter *)

Lemma sumZ_zeros {X : Type} (l : list X) : Spec.sumZ (map (fun _ => 0%Z) l) = 0%Z.
Proof. induction l; simpl; auto. Qed.

Lemma count_hits_cell_occurrences (case : bool) (words : list string) (c : cell) :
  Filter.count_hits_cell case words c = Spec.sumZ (map (Spec.occurrences case c) words).
Proof.
  unfold Filter.count_hits_cell. destruct c as [|s]; simpl.
  - symmetry. apply sumZ_zeros.
  - reflexivity.
Qed.

Lemma row_hits_hitCount (df : DataFrame) (case : bool) (words tcols : list string)
      (row : list cell) :
  Filter.row_hits df case words tcols row = Spec.hitCount df case words tcols row.
Proof.
  unfold Filter.row_hits, Spec.hitCount, Spec.sumZ. f_equal.
  apply map_ext. intros c. apply count_hits_cell_occurrences.
Qed.

(** The working column holds, row by row, the hit count of the row. *)
Lemma hit_counts_hitCount (df : DataFrame) (case : bool) (words tcols : list string) :
  Filter.hit_counts df case words tcols
  = map (Spec.hitCount df case words tcols) (rows df).
Proof.
  unfold Filter.hit_counts.
  destruct words as [|w ws].
  - apply map_ext. intros row. unfold Spec.hitCount. simpl. symmetry. apply sumZ_zeros.
  - destruct tcols as [|c cs].
    + apply map_ext. intros row. reflexivity.
    + apply map_ext. intros row. apply row_hits_hitCount.
Qed.

Lemma labelled_rows_In (h : list cell -> Z) (l : list (list cell)) (s : nat) (r : Row) :
  In r (map (fun p => {| label := fst (fst p); cells := snd (fst p); hits := snd p |})
            (combine (combine (seq s (length l)) l) (map h l)))
  <-> exists i row, nth_error l i = Some row /\
                    r = {| label := s + i; cells := row; hits := h row |}.
Proof.
  revert s. induction l as [|x l IH]; intros s; simpl.
  - split; [tauto|]. intros (i & row & H & _). destruct i; discriminate.
  - rewrite IH. split.
    + intros [H|(i & row & H1 & H2)].
      * exists 0%nat, x. split; auto. now rewrite Nat.add_0_r.
      * exists (S i), row. split; auto. now rewrite Nat.add_succ_r.
    + intros (i & row & H1 & H2). destruct i as [|i]; simpl in H1.
      * left. injection H1 as ->. now rewrite Nat.add_0_r in H2.
      * right. exists i, row. split; auto. now rewrite Nat.add_succ_r in H2.
Qed.

Section FilterFacts.
Variable sv : SortValues.
Hypothesis Hsv : sort_contract sv.

(** The rows kept by a filter pass, before the working column is dropped. *)
Lemma kept_frame_In (df : DataFrame) (cfg : Filter.FilterCfg) (b : bool) (r : Row) :
  let words := snd (Filter._parse_keyword_mapping (Filter.cfg_raw cfg)) in
  let tcols := Filter.target_columns df cfg in
  let h := Spec.hitCount df (Filter.cfg_case cfg) words tcols in
  In r (frows (Filter.kept_frame sv df cfg b)) <->
  exists i row, nth_error (rows df) i = Some row /\
                r = {| label := i; cells := row; hits := h row |} /\
                (Filter.cfg_cutoff cfg <= h row)%Z.
Proof.
  intros words tcols h. unfold Filter.kept_frame. cbn [frows].
  fold words tcols. rewrite hit_counts_hitCount. fold h.
  assert (E : In r (filter (fun r0 => (Filter.cfg_cutoff cfg <=? hits r0)%Z)
                           (frows (Filter.with_hits df (map h (rows df)))))
              <-> exists i row, nth_error (rows df) i = Some row /\
                                r = {| label := i; cells := row; hits := h row |} /\
                                (Filter.cfg_cutoff cfg <= h row)%Z).
  { rewrite filter_In. unfold Filter.with_hits. cbn [frows].
    rewrite (labelled_rows_In h (rows df) 0 r). split.
    - intros [(i & row & H1 & H2) H3]. exists i, row. subst r. cbn in H3.
      apply Z.leb_le in H3. auto.
    - intros (i & row & H1 & H2 & H3). split.
      + exists i, row. auto.
      + subst r. cbn. now apply Z.leb_le. }
  destruct b; [rewrite (sv_In sv Hsv)|]; exact E.
Qed.

(** The records of the filtered table are the dataset's rows whose hit
    count reaches the cutoff. *)
Lemma filtered_In (df : DataFrame) (cfg : Filter.FilterCfg) (b : bool) (r : Row) :
  let words := snd (Filter._parse_keyword_mapping (Filter.cfg_raw cfg)) in
  let tcols := Filter.target_columns df cfg in
  let h := Spec.hitCount df (Filter.cfg_case cfg) words tcols in
  In r (frows (Filter.apply_filter_from_cfg sv df cfg b)) <->
  exists i row, nth_error (rows df) i = Some row /\
                r = Spec.record i row /\
                (Filter.cfg_cutoff cfg <= h row)%Z.
Proof.
  intros words tcols h. unfold Filter.apply_filter_from_cfg, drop_hits. cbn [frows].
  rewrite in_map_iff. split.
  - intros (r0 & E & H). apply kept_frame_In in H.
    destruct H as (i & row & H1 & H2 & H3). exists i, row. subst r0 r. auto.
  - intros (i & row & H1 & H2 & H3).
    exists {| label := i; cells := row; hits := h row |}. split.
    + subst r. reflexivity.
    + apply kept_frame_In. exists i, row. auto.
Qed.

Lemma filtered_empty (df : DataFrame) (cfg : Filter.FilterCfg) (b : bool) :
  rows df = [] -> frows (Filter.apply_filter_from_cfg sv df cfg b) = [].
Proof.
  intros E. unfold Filter.apply_filter_from_cfg, drop_hits, Filter.kept_frame,
              Filter.with_hits. cbn [frows]. rewrite E. simpl.
  destruct b; [rewrite (sv_nil sv Hsv)|]; reflexivity.
Qed.

End FilterFacts.

(** C1: every record of the filtered table is a row of the dataset whose
    hit count (the sum over the target columns and the keywords of the
    occurrences, case folded unless the case flag is set, none in a missing
    cell) is at least the cutoff; a row of the dataset is in the filtered
    table exactly when its hit count reaches the cutoff; an empty dataset
    gives an empty table. *)
Theorem C1_filter_keeps_rows_reaching_cutoff
        (sv : SortValues) (df : DataFrame) (cfg : Filter.FilterCfg) (sort_checked : bool) :
  sort_contract sv ->
  (1 <= Filter.cfg_cutoff cfg)%Z ->
  let words := snd (Filter._parse_keyword_mapping (Filter.cfg_raw cfg)) in
  let tcols := Filter.target_columns df cfg in
  let hitCount := Spec.hitCount df (Filter.cfg_case cfg) words tcols in
  let result := frows (Filter.apply_filter_from_cfg sv df cfg sort_checked) in
  (forall r, In r result ->
             nth_error (rows df) (label r) = Some (cells r) /\
             (Filter.cfg_cutoff cfg <= hitCount (cells r))%Z) /\
  (forall i row, nth_error (rows df) i = Some row ->
                 (In (Spec.record i row) result <-> (Filter.cfg_cutoff cfg <= hitCount row)%Z)) /\
  (forall i row, nth_error (rows df) i = Some row ->
                 (hitCount row < Filter.cfg_cutoff cfg)%Z -> ~ In (Spec.record i row) result) /\
  (rows df = [] -> result = []) /\
  (forall ws, Filter.count_hits_cell (Filter.cfg_case cfg) ws NaN = 0%Z).
Proof.
  intros Hsv Hc words tcols hitCount result.
  assert (Hiff : forall i row, nth_error (rows df) i = Some row ->
                 (In (Spec.record i row) result <-> (Filter.cfg_cutoff cfg <= hitCount row)%Z)).
  { intros i row Hrow. unfold result. rewrite (filtered_In sv Hsv). split.
    - intros (j & row' & H1 & H2 & H3). injection H2 as _ <-. exact H3.
    - intros H. exists i, row. auto. }
  split; [|split; [|split; [|split]]].
  - intros r Hr. apply (filtered_In sv Hsv) in Hr.
    destruct Hr as (i & row & H1 & H2 & H3). subst r. simpl. auto.
  - exact Hiff.
  - intros i row Hrow Hlt Hin. apply (Hiff i row Hrow) in Hin. lia.
  - apply (filtered_empty sv Hsv).
  - reflexivity.
Qed.

Lemma C1_witness :
  In (Spec.record 0 [Val "blockchain for supply chains, a blockchain survey"])
     (frows (Filter.apply_filter_from_cfg stable_sort Spec.example_dataset Spec.example_cfg true))
  /\ ~ In (Spec.record 1 [Val "a study of soil"])
          (frows (Filter.apply_filter_from_cfg stable_sort Spec.example_dataset
                    Spec.example_cfg true)).
Proof.
  assert (Hc : (1 <= Filter.cfg_cutoff Spec.example_cfg)%Z) by (vm_compute; discriminate).
  destruct (C1_filter_keeps_rows_reaching_cutoff stable_sort Spec.example_dataset
              Spec.example_cfg true stable_sort_contract Hc) as (_ & Hiff & Hout & _).
  split.
  - apply (Hiff 0%nat); [reflexivity | vm_compute; discriminate].
  - apply (Hout 1%nat); [reflexivity | vm_compute; reflexivity].
Defined.

(** C5: with the dataset, the keywords, the case flag and the columns
    fixed, every record of the filtered table for a cutoff is a record of
    the filtered table for any lower cutoff. *)
Theorem C5_raising_cutoff_shrinks
        (sv : SortValues) (df : DataFrame) (cfg : Filter.FilterCfg)
        (c1 c2 : Z) (sort_checked : bool) (r : Row) :
  sort_contract sv ->
  (c1 <= c2)%Z ->
  In r (frows (Filter.apply_filter_from_cfg sv df (Spec.with_cutoff c2 cfg) sort_checked)) ->
  In r (frows (Filter.apply_filter_from_cfg sv df (Spec.with_cutoff c1 cfg) sort_checked)).
Proof.
  intros Hsv Hle Hin.
  apply (filtered_In sv Hsv) in Hin. apply (filtered_In sv Hsv).
  destruct Hin as (i & row & H1 & H2 & H3). exists i, row.
  split; [exact H1|]. split; [exact H2|].
  unfold Spec.with_cutoff in *. cbn [Filter.cfg_cutoff Filter.cfg_raw Filter.cfg_case] in *.
  unfold Filter.target_columns in *. cbn [Filter.cfg_cols] in *. lia.
Qed.

Lemma C5_witness :
  In (Spec.record 0 [Val "blockchain for supply chains, a blockchain survey"])
     (frows (Filter.apply_filter_from_cfg stable_sort Spec.example_dataset
               (Spec.with_cutoff 1 Spec.example_cfg) true)).
Proof.
  apply (C5_raising_cutoff_shrinks stable_sort Spec.example_dataset Spec.example_cfg 1 2 true
           (Spec.record 0 [Val "blockchain for supply chains, a blockchain survey"])
           stable_sort_contract).
  - lia.
  - vm_compute. left. reflexivity.
Defined.

(** C6, at the failing input: [_resort_filtered_by_hits] never sorts, since
    the filtered table it looks at has lost its working column; a table
    filtered with the sort button off stays in dataset order, hit counts 1
    and 2, when the button is switched on. *)
Theorem C6_toggle_does_not_resort (sv : SortValues) :
  (forall df cfg b b',
      Filter._resort_filtered_by_hits sv (Some (Filter.apply_filter_from_cfg sv df cfg b)) b'
      = Some (Filter.apply_filter_from_cfg sv df cfg b)) /\
  (let df := Spec.abstracts_table [Val "x"; Val "x x"] in
   let cfg := Spec.cfg_of "x" 1 in
   let filtered := Filter.apply_filter_from_cfg sv df cfg false in
   Filter._resort_filtered_by_hits sv (Some filtered) true = Some filtered /\
   map label (frows filtered) = [0; 1]%nat /\
   map (fun r => Spec.hitCount df false ["x"] ["Abstract"] (cells r)) (frows filtered)
     = [1; 2]%Z).
Proof.
  split.
  - intros df cfg b b'. reflexivity.
  - repeat split; vm_compute; reflexivity.
Qed.

(** ** The highlight renderer *)

(** Called with a keyword, [_highlight_text] un-escapes every escaped
    [b] and [span] bracket of its output, also those that stood in the
    text: tags written in the text come out as tags, and the closing
    bracket of the opening [span] of a match stays escaped.  The window
    makes no such call: the only caller, [_update_details_for_row], takes
    the mapping from an attribute that is never set, and nothing calls
    it. *)
Lemma highlight_text_with_keyword :
  let mapping := [("k", "#c00000")] in
  fst (Highlight._highlight_text "<b>x</b>" mapping false) = "<b>x</b>" /\
  PyStr.html_escape "<b>x</b>" = "&lt;b&gt;x&lt;/b&gt;" /\
  Highlight.strip_tags (fst (Highlight._highlight_text "<b>x</b>" mapping false)) = "x" /\
  fst (Highlight._highlight_text "<b>x</b>" [] false) = "&lt;b&gt;x&lt;/b&gt;" /\
  fst (Highlight._highlight_text "ok" [("ok", "red")] false)
    = "<b><span style=&#x27;color:red&#x27;&gt;ok&lt;/span></b>" /\
  Highlight.strip_tags (fst (Highlight._highlight_text "ok" [("ok", "red")] false))
    = EmptyString.
Proof.
  repeat split; vm_compute; reflexivity.
Qed.

Lemma lower_length (s : string) : String.length (PyStr.lower s) = String.length s.
Proof. induction s; simpl; congruence. Qed.

Lemma prefix_nonempty_empty (w : string) :
  w <> EmptyString -> prefix w EmptyString = false.
Proof. destruct w; [congruence | reflexivity]. Qed.

Lemma lower_nonempty (w : string) : w <> EmptyString -> PyStr.lower w <> EmptyString.
Proof. destruct w; [congruence | discriminate]. Qed.

(** ** The collaboration-scope table *)

Lemma remove_nth_map {X Y : Type} (g : X -> Y) (n : nat) (l : list X) :
  Affil.remove_nth n (map g l) = map g (Affil.remove_nth n l).
Proof.
  revert n. induction l as [|x l IH]; intros [|n]; simpl; auto. now rewrite IH.
Qed.

(** Dropping the column at the place [column_index] finds removes the
    label from a duplicate-free list of labels. *)
Lemma remove_nth_column_index (col : string) (cols : list string) (i : nat) :
  NoDup cols -> column_index col cols = Some i ->
  Affil.remove_nth i cols = filter (fun c => negb (String.eqb c col)) cols.
Proof.
  revert i. induction cols as [|c cols IH]; intros i Hnd H; simpl in *.
  - discriminate.
  - inversion Hnd as [|? ? Hnotin Hnd']; subst.
    destruct (String.eqb col c) eqn:E.
    + apply String.eqb_eq in E. subst c. injection H as <-. simpl.
      rewrite String.eqb_refl. simpl.
      symmetry. rewrite <- (filter_ext_in (fun _ => true)).
      * clear. induction cols; simpl; congruence.
      * intros a Ha. destruct (String.eqb a col) eqn:E; auto.
        apply String.eqb_eq in E. subst a. contradiction.
    + destruct (column_index col cols) as [j|] eqn:J; [|discriminate].
      injection H as <-. simpl.
      rewrite String.eqb_sym, E. simpl. f_equal. now apply IH.
Qed.

Lemma column_index_None (col : string) (cols : list string) :
  column_index col cols = None -> ~ In col cols.
Proof.
  induction cols as [|c cols IH]; simpl; [tauto|].
  destruct (String.eqb col c) eqn:E; [discriminate|].
  destruct (column_index col cols); [discriminate|].
  intros _ [H|H].
  - subst. now rewrite String.eqb_refl in E.
  - now apply IH.
Qed.

Lemma filter_all {X : Type} (g : X -> bool) (l : list X) :
  (forall x, In x l -> g x = true) -> filter g l = l.
Proof.
  induction l as [|x l IH]; intros H; simpl; auto.
  rewrite (H x (or_introl eq_refl)). f_equal. apply IH. intros y Hy. apply H. now right.
Qed.

Lemma filter_filter {X : Type} (g h : X -> bool) (l : list X) :
  filter g (filter h l) = filter (fun x => h x && g x) l.
Proof.
  induction l as [|x l IH]; simpl; auto.
  destruct (h x); simpl; [destruct (g x)|]; now rewrite IH.
Qed.

Lemma count_pairs_absent (pairs : list (string * string)) (i c : string) :
  ~ In c (map snd pairs) -> Affil.count_pairs pairs i c = 0%Z.
Proof.
  intros H. unfold Affil.count_pairs.
  replace (filter _ pairs) with (@nil (string * string)); [reflexivity|].
  symmetry. induction pairs as [|p pairs IH]; simpl in *; auto.
  destruct (String.eqb (snd p) c) eqn:E.
  - apply String.eqb_eq in E. tauto.
  - rewrite andb_false_r. apply IH. tauto.
Qed.

Section PivotFacts.
Variable pairs : list (string * string).
Variable index : list string.

Lemma drop_column_pivot (col : string) (cols : list string) :
  NoDup cols ->
  Affil.drop_column col (Spec.pivot_of pairs index cols)
  = Spec.pivot_of pairs index (filter (fun c => negb (String.eqb c col)) cols).
Proof.
  intros Hnd. unfold Affil.drop_column, Spec.pivot_of. cbn [Affil.pcolumns Affil.prows].
  destruct (column_index col cols) as [i|] eqn:E.
  - rewrite <- (remove_nth_column_index col cols i Hnd E). f_equal.
    rewrite map_map. apply map_ext. intros a. cbn [fst snd].
    now rewrite remove_nth_map.
  - apply column_index_None in E.
    rewrite filter_all; auto.
    intros c Hc. destruct (String.eqb c col) eqn:Q; auto.
    apply String.eqb_eq in Q. subst. contradiction.
Qed.

(** The loop that drops the columns other than Domestic and International
    keeps exactly those two, where present. *)
Lemma drop_loop_pivot (l cols : list string) :
  NoDup cols ->
  fold_left (fun p col => if Affil.wanted col then p else Affil.drop_column col p)
            l (Spec.pivot_of pairs index cols)
  = Spec.pivot_of pairs index
      (filter (fun c => Affil.wanted c || negb (PyStr.mem c l)) cols).
Proof.
  revert cols. induction l as [|col l IH]; intros cols Hnd; simpl.
  - rewrite filter_all; auto. intros x _. apply orb_true_r.
  - destruct (Affil.wanted col) eqn:W.
    + rewrite (IH cols Hnd). f_equal. apply filter_ext. intros c.
      destruct (String.eqb c col) eqn:E; simpl; auto.
      apply String.eqb_eq in E. subst. now rewrite W.
    + rewrite (drop_column_pivot col cols Hnd).
      rewrite IH by (apply NoDup_filter; exact Hnd).
      f_equal. rewrite filter_filter. apply filter_ext. intros c.
      destruct (String.eqb c col) eqn:E; simpl.
      * apply String.eqb_eq in E. subst. now rewrite W.
      * reflexivity.
Qed.

Lemma add_zero_column_pivot (col : string) (cols : list string) :
  ~ In col (map snd pairs) ->
  Affil.add_zero_column col (Spec.pivot_of pairs index cols)
  = Spec.pivot_of pairs index (cols ++ [col]).
Proof.
  intros H. unfold Affil.add_zero_column, Spec.pivot_of. cbn [Affil.pcolumns Affil.prows].
  f_equal. rewrite map_map. apply map_ext. intros i. cbn [fst snd].
  rewrite map_app. simpl. now rewrite (count_pairs_absent pairs i col H).
Qed.

End PivotFacts.

Lemma two_labels (a b : string) (l : list string) :
  NoDup l -> (forall c, In c l -> c = a \/ c = b) ->
  l = [] \/ l = [a] \/ l = [b] \/ l = [a; b] \/ l = [b; a].
Proof.
  intros Hnd H.
  destruct l as [|x [|y [|z l]]].
  - auto.
  - destruct (H x (or_introl eq_refl)) as [->| ->]; auto.
  - inversion Hnd as [|? ? Hx _]; subst.
    destruct (H x (or_introl eq_refl)) as [->| ->];
      destruct (H y (or_intror (or_introl eq_refl))) as [->| ->]; auto 6;
      exfalso; apply Hx; now left.
  - exfalso.
    inversion Hnd as [|? ? Hx Hnd']; subst.
    inversion Hnd' as [|? ? Hy _]; subst.
    destruct (H x (or_introl eq_refl)) as [->| ->];
      destruct (H y (or_intror (or_introl eq_refl))) as [->| ->];
      destruct (H z (or_intror (or_intror (or_introl eq_refl)))) as [->| ->];
      try (apply Hx; simpl; now auto); try (apply Hy; simpl; now auto).
Qed.

Lemma wanted_cases (c : string) :
  Affil.wanted c = true -> c = "Domestic" \/ c = "International".
Proof.
  unfold Affil.wanted. intros H. apply orb_true_iff in H.
  destruct H as [H|H]; apply String.eqb_eq in H; auto.
Qed.

(** The table after the two loops over its columns: the counts of the
    pairs under the two columns Domestic and International. *)
Lemma scope_table_shape (pairs : list (string * string)) :
  let p0 := Affil.groupby_size_unstack pairs in
  let p1 := fold_left (fun p col => if Affil.wanted col then p else Affil.drop_column col p)
                      (Affil.pcolumns p0) p0 in
  let p2 := fold_left (fun p needed =>
                         if PyStr.mem needed (Affil.pcolumns p) then p
                         else Affil.add_zero_column needed p)
                      ["Domestic"; "International"] p1 in
  exists cols,
    p2 = Spec.pivot_of pairs (PyStr.sorted (Affil.to_set (map fst pairs))) cols /\
    (cols = ["Domestic"; "International"] \/ cols = ["International"; "Domestic"]).
Proof.
  intros p0 p1 p2.
  set (index := PyStr.sorted (Affil.to_set (map fst pairs))).
  set (cols0 := PyStr.sorted (Affil.to_set (map snd pairs))).
  assert (Hnd0 : NoDup cols0).
  { apply sorted_NoDup. apply to_set_spec. }
  assert (Hin0 : forall c, In c cols0 <-> In c (map snd pairs)).
  { intros c. unfold cols0. rewrite sorted_In. apply to_set_spec. }
  assert (E0 : p0 = Spec.pivot_of pairs index cols0) by reflexivity.
  assert (E1 : p1 = Spec.pivot_of pairs index (filter Affil.wanted cols0)).
  { unfold p1. rewrite E0. cbn [Spec.pivot_of Affil.pcolumns].
    fold (Spec.pivot_of pairs index cols0).
    rewrite (drop_loop_pivot pairs index cols0 cols0 Hnd0). f_equal.
    apply filter_ext_in. intros c Hc. apply mem_In in Hc. rewrite Hc.
    simpl. apply orb_false_r. }
  set (cols1 := filter Affil.wanted cols0) in *.
  assert (Habs : forall c, Affil.wanted c = true -> ~ In c cols1 -> ~ In c (map snd pairs)).
  { intros c W H Hc. apply H. unfold cols1. apply filter_In. split; auto. now apply Hin0. }
  assert (Hshape : cols1 = [] \/ cols1 = ["Domestic"] \/ cols1 = ["International"] \/
                   cols1 = ["Domestic"; "International"] \/
                   cols1 = ["International"; "Domestic"]).
  { apply two_labels.
    - apply NoDup_filter. exact Hnd0.
    - intros c Hc. apply filter_In in Hc. apply wanted_cases. tauto. }
  assert (AD : ~ In "Domestic" cols1 ->
               forall cols, Affil.add_zero_column "Domestic" (Spec.pivot_of pairs index cols)
                            = Spec.pivot_of pairs index (cols ++ ["Domestic"])).
  { intros H cols. apply add_zero_column_pivot. now apply Habs. }
  assert (AI : ~ In "International" cols1 ->
               forall cols, Affil.add_zero_column "International" (Spec.pivot_of pairs index cols)
                            = Spec.pivot_of pairs index (cols ++ ["International"])).
  { intros H cols. apply add_zero_column_pivot. now apply Habs. }
  unfold p2. rewrite E1. clearbody cols1. clear E1 p1 p2 Habs.
  destruct Hshape as [->|[->|[->|[->| ->]]]]; cbn [fold_left].
  - exists ["Domestic"; "International"]. split; [|auto].
    cbn [Spec.pivot_of Affil.pcolumns PyStr.mem].
    fold (Spec.pivot_of pairs index []).
    rewrite AD by (simpl; tauto).
    cbn [Spec.pivot_of Affil.pcolumns app].
    fold (Spec.pivot_of pairs index ["Domestic"]).
    replace (PyStr.mem "International" ["Domestic"]) with false by reflexivity.
    rewrite AI by (simpl; tauto). reflexivity.
  - exists ["Domestic"; "International"]. split; [|auto].
    cbn [Spec.pivot_of Affil.pcolumns].
    fold (Spec.pivot_of pairs index ["Domestic"]).
    replace (PyStr.mem "Domestic" ["Domestic"]) with true by reflexivity.
    replace (PyStr.mem "International" ["Domestic"]) with false by reflexivity.
    rewrite AI; [reflexivity|].
    simpl. intros [H|[]]. discriminate.
  - exists ["International"; "Domestic"]. split; [|auto].
    cbn [Spec.pivot_of Affil.pcolumns].
    fold (Spec.pivot_of pairs index ["International"]).
    replace (PyStr.mem "Domestic" ["International"]) with false by reflexivity.
    rewrite AD by (simpl; intros [H|[]]; discriminate).
    cbn [Spec.pivot_of Affil.pcolumns app].
    replace (PyStr.mem "International" ["International"; "Domestic"]) with true by reflexivity.
    reflexivity.
  - exists ["Domestic"; "International"]. split; [|auto].
    cbn [Spec.pivot_of Affil.pcolumns].
    replace (PyStr.mem "Domestic" ["Domestic"; "International"]) with true by reflexivity.
    replace (PyStr.mem "International" ["Domestic"; "International"]) with true by reflexivity.
    reflexivity.
  - exists ["International"; "Domestic"]. split; [|auto].
    cbn [Spec.pivot_of Affil.pcolumns].
    replace (PyStr.mem "Domestic" ["International"; "Domestic"]) with true by reflexivity.
    replace (PyStr.mem "International" ["International"; "Domestic"]) with true by reflexivity.
    reflexivity.
Qed.

Lemma sorted_firstn_skipn {X : Type} (R : X -> X -> Prop) (n : nat) (l : list X) :
  StronglySorted R l ->
  forall x y, In x (firstn n l) -> In y (skipn n l) -> R x y.
Proof.
  revert l. induction n as [|n IH]; intros l Hs x y Hx Hy.
  - simpl in Hx. contradiction.
  - destruct l as [|a l]; simpl in *; [contradiction|].
    inversion Hs as [|? ? Hs' Hall]; subst.
    destruct Hx as [->|Hx].
    + rewrite Forall_forall in Hall. apply Hall.
      rewrite <- (firstn_skipn n l). apply in_or_app. now right.
    + now apply (IH l).
Qed.

Lemma in_firstn {X : Type} (n : nat) (l : list X) (x : X) :
  In x (firstn n l) -> In x l.
Proof.
  intros H. rewrite <- (firstn_skipn n l). apply in_or_app. now left.
Qed.

Lemma NoDup_firstn {X : Type} (n : nat) (l : list X) : NoDup l -> NoDup (firstn n l).
Proof.
  revert l. induction n as [|n IH]; intros l H; simpl; [constructor|].
  destruct l as [|x l]; [constructor|].
  inversion H as [|? ? Hx Hl]; subst. constructor; auto.
  intros Hin. apply Hx. now apply in_firstn in Hin.
Qed.

Lemma pivot_row_total (pairs : list (string * string)) (i : string) (cols : list string) :
  cols = ["Domestic"; "International"] \/ cols = ["International"; "Domestic"] ->
  Affil.row_total (i, map (Affil.count_pairs pairs i) cols)
  = (Affil.count_pairs pairs i "Domestic" + Affil.count_pairs pairs i "International")%Z.
Proof.
  intros [->| ->]; unfold Affil.row_total; simpl; lia.
Qed.

(** C9, as the code has it: the table has the two columns Domestic and
    International and no other; it lists at most 20 main countries, each
    once, in descending order of Domestic plus International, and no main
    country left out has a larger total than a listed one; for a listed
    country the two values are the numbers of records with that main
    country and that scope.  (The main country is the first of the sorted
    extracted countries, so the total need not be the country's count in
    the country-aggregation table.) *)
Theorem C9_collab_scope_table
        (sv : SortValues) (d : DataFrame) (col_aff : string) (p : Affil.Pivot) :
  sort_contract sv ->
  Resolver._get_col (Some d) Affil.AFFIL_CANDIDATES = Some col_aff ->
  Affil._build_collab_scope_table sv (Some d) = Some p ->
  let ser := Spec.affiliation_series d col_aff in
  let total c := (Spec.records_with ser c "Domestic"
                  + Spec.records_with ser c "International")%Z in
  Permutation ["Domestic"; "International"] (Affil.pcolumns p) /\
  (length (Affil.prows p) <= 20)%nat /\
  NoDup (map fst (Affil.prows p)) /\
  StronglySorted (fun a b => (Affil.row_total b <= Affil.row_total a)%Z) (Affil.prows p) /\
  (forall r, In r (Affil.prows p) ->
     In (fst r) (map fst (Affil.scope_pairs ser)) /\
     Affil.pivot_value p r "Domestic" = Spec.records_with ser (fst r) "Domestic" /\
     Affil.pivot_value p r "International" = Spec.records_with ser (fst r) "International" /\
     Affil.row_total r = total (fst r)) /\
  (forall r c, In r (Affil.prows p) ->
     In c (map fst (Affil.scope_pairs ser)) ->
     ~ In c (map fst (Affil.prows p)) ->
     (total c <= Affil.row_total r)%Z).
Proof.
  intros Hsv Hcol H ser total.
  unfold Affil._build_collab_scope_table in H. rewrite Hcol in H.
  destruct (negb (PyStr.mem col_aff (columns d))); [discriminate|].
  fold (Spec.affiliation_series d col_aff) in H. fold ser in H.
  set (pairs := Affil.scope_pairs ser) in *.
  destruct (scope_table_shape pairs) as (cols & E & Hc).
  cbv zeta in E. rewrite E in H. clear E.
  cbn [Spec.pivot_of Affil.prows Affil.pcolumns] in H.
  set (index := PyStr.sorted (Affil.to_set (map fst pairs))) in *.
  set (mk := fun i : string => (i, map (Affil.count_pairs pairs i) cols)) in *.
  set (full := map mk index) in *.
  set (ranked := stable_sort (string * list Z)%type Affil.row_total false full).
  assert (Hp : p = {| Affil.pcolumns := cols;
                      Affil.prows := sv (string * list Z)%type Affil.row_total false
                                        (firstn 20 ranked) |}).
  { destruct full; [discriminate|]. injection H as <-. reflexivity. }
  clear H. subst p. cbn [Affil.pcolumns Affil.prows].
  (* the index and its rows *)
  assert (Hindex : forall c, In c index <-> In c (map fst pairs)).
  { intros c. unfold index. rewrite sorted_In. apply to_set_spec. }
  assert (Hnd : NoDup index).
  { apply sorted_NoDup. apply to_set_spec. }
  assert (Hfst : map fst full = index).
  { unfold full. rewrite map_map. apply map_id. }
  destruct (stable_sort_contract _ Affil.row_total false full) as [Pr Sr].
  fold ranked in Pr, Sr.
  assert (Hlisted : forall r, In r (sv _ Affil.row_total false (firstn 20 ranked)) ->
                              In r (firstn 20 ranked) /\ exists i, In i index /\ r = mk i).
  { intros r Hr. apply (sv_In sv Hsv) in Hr. split; auto.
    apply in_firstn in Hr. apply (Permutation_in _ (Permutation_sym Pr)) in Hr.
    unfold full in Hr. apply in_map_iff in Hr. destruct Hr as (i & <- & Hi). eauto. }
  assert (Hcount : forall i, Affil.row_total (mk i) = total i).
  { intros i. unfold mk. now rewrite (pivot_row_total pairs i cols Hc). }
  split; [|split; [|split; [|split; [|split]]]].
  - destruct Hc as [->| ->]; [reflexivity | apply perm_swap].
  - rewrite (sv_length sv Hsv). apply firstn_le_length.
  - destruct (Hsv _ Affil.row_total false (firstn 20 ranked)) as [P _].
    apply (Permutation_NoDup (Permutation_map fst P)).
    rewrite <- firstn_map. apply NoDup_firstn.
    apply (Permutation_NoDup (Permutation_map fst Pr)). now rewrite Hfst.
  - destruct (Hsv _ Affil.row_total false (firstn 20 ranked)) as [_ S]. exact S.
  - intros r Hr. destruct (Hlisted r Hr) as (_ & i & Hi & ->).
    split; [apply Hindex; exact Hi|].
    split; [|split; [|apply Hcount]].
    + unfold Affil.pivot_value, mk. cbn [Affil.pcolumns snd fst].
      destruct Hc as [->| ->]; reflexivity.
    + unfold Affil.pivot_value, mk. cbn [Affil.pcolumns snd fst].
      destruct Hc as [->| ->]; reflexivity.
  - intros r c Hr Hcin Hout.
    destruct (Hlisted r Hr) as (Hr1 & _).
    assert (Hfull : In (mk c) ranked).
    { apply (Permutation_in _ Pr). unfold full. apply in_map. now apply Hindex. }
    rewrite <- (firstn_skipn 20 ranked) in Hfull. apply in_app_or in Hfull.
    destruct Hfull as [Hf|Hs].
    + exfalso. apply Hout. apply in_map_iff. exists (mk c). split; [reflexivity|].
      now apply (sv_In sv Hsv).
    + pose proof (sorted_firstn_skipn _ 20 ranked Sr r (mk c) Hr1 Hs) as O.
      unfold key_ordered in O. now rewrite <- (Hcount c).
Qed.

Lemma C9_witness :
  Affil._build_collab_scope_table stable_sort (Some Spec.collab_dataset)
  = Some {| Affil.pcolumns := ["Domestic"; "International"];
            Affil.prows := [("Japan", [1; 1]%Z); ("Unknown", [0; 0]%Z)] |} /\
  Affil.row_total ("Japan", [1; 1]%Z)
  = (Spec.records_with (Spec.affiliation_series Spec.collab_dataset "Affiliations")
       "Japan" "Domestic"
     + Spec.records_with (Spec.affiliation_series Spec.collab_dataset "Affiliations")
         "Japan" "International")%Z.
Proof.
  assert (E : Affil._build_collab_scope_table stable_sort (Some Spec.collab_dataset)
              = Some {| Affil.pcolumns := ["Domestic"; "International"];
                        Affil.prows := [("Japan", [1; 1]%Z); ("Unknown", [0; 0]%Z)] |})
    by (vm_compute; reflexivity).
  split; [exact E|].
  destruct (C9_collab_scope_table stable_sort Spec.collab_dataset "Affiliations" _
              stable_sort_contract eq_refl E) as (_ & _ & _ & _ & Hrow & _).
  apply (Hrow ("Japan", [1; 1]%Z)). simpl. now left.
Defined.

(** C9 as stated fails: Japan is listed with Domestic 1 and International
    1, and has one document in the country-aggregation table, where the
    record of two countries is counted for USA. *)
Lemma C9_counterexample :
  Affil._build_collab_scope_table stable_sort (Some Spec.collab_dataset)
  = Some {| Affil.pcolumns := ["Domestic"; "International"];
            Affil.prows := [("Japan", [1; 1]%Z); ("Unknown", [0; 0]%Z)] |} /\
  Affil.country_counts stable_sort (Some Spec.collab_dataset)
  = Some [("USA", 1%nat); ("Japan", 1%nat); ("Unknown", 1%nat)] /\
  Affil.country_total stable_sort (Some Spec.collab_dataset) "Japan" = 1%Z /\
  (1 + 1 <> Affil.country_total stable_sort (Some Spec.collab_dataset) "Japan")%Z.
Proof.
  repeat split; try (vm_compute; reflexivity).
  vm_compute. discriminate.
Qed.

(** * Further facts about the code *)

(** ** Order and size of the filtered table *)

Lemma occurrences_nonneg (case : bool) (c : cell) (w : string) :
  (0 <= Spec.occurrences case c w)%Z.
Proof. destruct c; simpl; lia. Qed.

Lemma sumZ_nonneg (l : list Z) : (forall z, In z l -> (0 <= z)%Z) -> (0 <= Spec.sumZ l)%Z.
Proof.
  induction l as [|z l IH]; intros H; simpl; [lia|].
  assert (0 <= z)%Z by (apply H; now left).
  assert (0 <= Spec.sumZ l)%Z by (apply IH; intros; apply H; now right).
  unfold Spec.sumZ in *. lia.
Qed.

Lemma hitCount_nonneg (df : DataFrame) (case : bool) (words tcols : list string)
      (row : list cell) :
  (0 <= Spec.hitCount df case words tcols row)%Z.
Proof.
  unfold Spec.hitCount. apply sumZ_nonneg. intros z Hz.
  apply in_map_iff in Hz. destruct Hz as (c & <- & _).
  apply sumZ_nonneg. intros z Hz. apply in_map_iff in Hz.
  destruct Hz as (w & <- & _). apply occurrences_nonneg.
Qed.

Lemma with_hits_labels (df : DataFrame) (h : list cell -> Z) :
  map label (frows (Filter.with_hits df (map h (rows df)))) = seq 0 (length (rows df)).
Proof.
  unfold Filter.with_hits. cbn [frows]. generalize 0%nat.
  induction (rows df) as [|x l IH]; intros s; simpl; [reflexivity|].
  now rewrite IH.
Qed.

Lemma with_hits_length (df : DataFrame) (h : list cell -> Z) :
  length (frows (Filter.with_hits df (map h (rows df)))) = length (rows df).
Proof.
  rewrite <- (length_map label), with_hits_labels. apply length_seq.
Qed.

Lemma with_hits_row (df : DataFrame) (h : list cell -> Z) (r : Row) :
  In r (frows (Filter.with_hits df (map h (rows df)))) -> hits r = h (cells r).
Proof.
  unfold Filter.with_hits. cbn [frows]. intros H.
  apply (labelled_rows_In h (rows df) 0 r) in H.
  destruct H as (i & row & _ & ->). reflexivity.
Qed.

Lemma sorted_lt_filter_map {X : Type} (f : X -> nat) (g : X -> bool) (l : list X) :
  StronglySorted lt (map f l) -> StronglySorted lt (map f (filter g l)).
Proof.
  induction l as [|x l IH]; simpl; intros H; [constructor|].
  inversion H as [|? ? Hs Hall]; subst.
  destruct (g x); simpl; auto.
  constructor; auto.
  rewrite Forall_forall in *. intros n Hn. apply Hall.
  apply in_map_iff in Hn. destruct Hn as (y & <- & Hy).
  apply in_map. apply filter_In in Hy. tauto.
Qed.

Lemma seq_sorted (s n : nat) : StronglySorted lt (seq s n).
Proof.
  revert s. induction n as [|n IH]; intros s; simpl; constructor; auto.
  apply Forall_forall. intros x Hx. apply in_seq in Hx. lia.
Qed.

Lemma sorted_map_In {X Y : Type} (R : X -> X -> Prop) (R' : Y -> Y -> Prop)
      (f : X -> Y) (l : list X) :
  (forall x y, In x l -> In y l -> R x y -> R' (f x) (f y)) ->
  StronglySorted R l -> StronglySorted R' (map f l).
Proof.
  induction l as [|x l IH]; intros H Hs; simpl; [constructor|].
  inversion Hs as [|? ? Hs' Hall]; subst.
  constructor.
  - apply IH; auto. intros a b Ha Hb. apply H; now right.
  - rewrite Forall_forall in *. intros y Hy.
    apply in_map_iff in Hy. destruct Hy as (z & <- & Hz).
    apply H; [now left | now right | now apply Hall].
Qed.

(** A filter pass run with the sort button on leaves the filtered table
    in descending order of hit count. *)
Theorem filter_pass_sorted_descending
        (sv : SortValues) (df : DataFrame) (cfg : Filter.FilterCfg) :
  sort_contract sv ->
  let words := snd (Filter._parse_keyword_mapping (Filter.cfg_raw cfg)) in
  let tcols := Filter.target_columns df cfg in
  let hitCount := Spec.hitCount df (Filter.cfg_case cfg) words tcols in
  StronglySorted (fun a b => (hitCount (cells b) <= hitCount (cells a))%Z)
                 (frows (Filter.apply_filter_from_cfg sv df cfg true)).
Proof.
  intros Hsv words tcols hitCount.
  unfold Filter.apply_filter_from_cfg, drop_hits, Filter.kept_frame. cbn [frows].
  fold words tcols. rewrite hit_counts_hitCount. fold hitCount.
  set (kept := filter _ _).
  destruct (Hsv Row hits false kept) as [P S].
  apply (sorted_map_In (key_ordered hits false)); [|exact S].
  intros x y Hx Hy O. cbn [cells]. unfold key_ordered in O.
  assert (Hh : forall r, In r (sv Row hits false kept) -> hits r = hitCount (cells r)).
  { intros r Hr. apply (sv_In sv Hsv) in Hr. unfold kept in Hr.
    apply filter_In in Hr. destruct Hr as [Hr _]. now apply with_hits_row in Hr. }
  now rewrite <- (Hh x Hx), <- (Hh y Hy).
Qed.

Lemma filter_pass_sorted_descending_witness :
  map cells (frows (Filter.apply_filter_from_cfg stable_sort
                      (Spec.abstracts_table [Val "x"; Val "x x"]) (Spec.cfg_of "x" 1) true))
  = [[Val "x x"]; [Val "x"]] /\
  StronglySorted
    (fun a b => (Spec.hitCount (Spec.abstracts_table [Val "x"; Val "x x"]) false
                   (snd (Filter._parse_keyword_mapping "x"))
                   (Filter.target_columns (Spec.abstracts_table [Val "x"; Val "x x"])
                      (Spec.cfg_of "x" 1)) (cells b)
                 <= Spec.hitCount (Spec.abstracts_table [Val "x"; Val "x x"]) false
                      (snd (Filter._parse_keyword_mapping "x"))
                      (Filter.target_columns (Spec.abstracts_table [Val "x"; Val "x x"])
                         (Spec.cfg_of "x" 1)) (cells a))%Z)
    (frows (Filter.apply_filter_from_cfg stable_sort
              (Spec.abstracts_table [Val "x"; Val "x x"]) (Spec.cfg_of "x" 1) true)).
Proof.
  split; [vm_compute; reflexivity|].
  exact (filter_pass_sorted_descending stable_sort
           (Spec.abstracts_table [Val "x"; Val "x x"]) (Spec.cfg_of "x" 1)
           stable_sort_contract).
Defined.

Lemma unsorted_pass_labels (sv : SortValues) (df : DataFrame) (cfg : Filter.FilterCfg) :
  StronglySorted lt (map label (frows (Filter.apply_filter_from_cfg sv df cfg false))).
Proof.
  unfold Filter.apply_filter_from_cfg, drop_hits, Filter.kept_frame. cbn [frows].
  rewrite hit_counts_hitCount. rewrite map_map. cbn [label].
  apply sorted_lt_filter_map. rewrite with_hits_labels. apply seq_sorted.
Qed.

(** A filter pass run with the sort button off keeps the dataset order:
    the index labels of the filtered table increase strictly, and each
    record shown is the row of the dataset with its label. *)
Theorem filter_pass_keeps_dataset_order
        (sv : SortValues) (df : DataFrame) (cfg : Filter.FilterCfg) :
  StronglySorted lt (map label (frows (Filter.apply_filter_from_cfg sv df cfg false))) /\
  (forall r, In r (frows (Filter.apply_filter_from_cfg sv df cfg false)) ->
             nth_error (rows df) (label r) = Some (cells r)).
Proof.
  split; [apply unsorted_pass_labels|].
  intros r. unfold Filter.apply_filter_from_cfg, drop_hits, Filter.kept_frame. cbn [frows].
  rewrite hit_counts_hitCount, in_map_iff. intros (r0 & <- & Hr0).
  apply filter_In in Hr0. destruct Hr0 as [Hr0 _]. unfold Filter.with_hits in Hr0.
  cbn [frows] in Hr0. apply labelled_rows_In in Hr0.
  destruct Hr0 as (i & row & Hrow & ->). exact Hrow.
Qed.

(** Whatever the sort button says, no row of the dataset is shown twice
    and the filtered table is never longer than the dataset. *)
Theorem filtered_rows_distinct
        (sv : SortValues) (df : DataFrame) (cfg : Filter.FilterCfg) (b : bool) :
  sort_contract sv ->
  NoDup (map label (frows (Filter.apply_filter_from_cfg sv df cfg b))) /\
  (length (frows (Filter.apply_filter_from_cfg sv df cfg b)) <= length (rows df))%nat.
Proof.
  intros Hsv.
  assert (Hnd : NoDup (map label (frows (Filter.apply_filter_from_cfg sv df cfg false)))).
  { pose proof (unsorted_pass_labels sv df cfg) as S.
    revert S. generalize (map label (frows (Filter.apply_filter_from_cfg sv df cfg false))).
    intros l S. induction S as [|x l S IH Hall]; constructor; auto.
    intros Hin. rewrite Forall_forall in Hall. specialize (Hall x Hin). lia. }
  assert (Hlen : (length (frows (Filter.apply_filter_from_cfg sv df cfg false))
                  <= length (rows df))%nat).
  { unfold Filter.apply_filter_from_cfg, drop_hits, Filter.kept_frame. cbn [frows].
    rewrite hit_counts_hitCount, length_map.
    etransitivity; [apply filter_length_le|]. now rewrite with_hits_length. }
  destruct b; [|split; assumption].
  assert (P : Permutation (frows (Filter.apply_filter_from_cfg sv df cfg false))
                          (frows (Filter.apply_filter_from_cfg sv df cfg true))).
  { unfold Filter.apply_filter_from_cfg, drop_hits, Filter.kept_frame. cbn [frows].
    apply Permutation_map. apply Hsv. }
  split.
  - apply (Permutation_NoDup (Permutation_map label P)). exact Hnd.
  - rewrite <- (Permutation_length P). exact Hlen.
Qed.

Lemma filtered_rows_distinct_witness :
  NoDup (map label (frows (Filter.apply_filter_from_cfg stable_sort Spec.example_dataset
                             Spec.example_cfg true))).
Proof.
  apply (filtered_rows_distinct stable_sort Spec.example_dataset Spec.example_cfg true
           stable_sort_contract).
Defined.

(** With a cutoff of 0 or less the filter keeps every row of the
    dataset. *)
Theorem nonpositive_cutoff_keeps_all
        (sv : SortValues) (df : DataFrame) (cfg : Filter.FilterCfg) (b : bool) :
  sort_contract sv ->
  (Filter.cfg_cutoff cfg <= 0)%Z ->
  length (frows (Filter.apply_filter_from_cfg sv df cfg b)) = length (rows df) /\
  (forall i row, nth_error (rows df) i = Some row ->
                 In (Spec.record i row) (frows (Filter.apply_filter_from_cfg sv df cfg b))).
Proof.
  intros Hsv Hc. split.
  - unfold Filter.apply_filter_from_cfg, drop_hits, Filter.kept_frame. cbn [frows].
    rewrite hit_counts_hitCount, length_map.
    set (h := Spec.hitCount df _ _ _).
    assert (E : filter (fun r => (Filter.cfg_cutoff cfg <=? hits r)%Z)
                       (frows (Filter.with_hits df (map h (rows df))))
                = frows (Filter.with_hits df (map h (rows df)))).
    { apply filter_all. intros r Hr. apply Z.leb_le.
      rewrite (with_hits_row df h r Hr). pose proof (hitCount_nonneg df
        (Filter.cfg_case cfg) (snd (Filter._parse_keyword_mapping (Filter.cfg_raw cfg)))
        (Filter.target_columns df cfg) (cells r)). fold h in H. lia. }
    rewrite E. destruct b; [rewrite (sv_length sv Hsv)|]; apply with_hits_length.
  - intros i row Hrow. apply (filtered_In sv Hsv). exists i, row.
    split; [exact Hrow|]. split; [reflexivity|].
    pose proof (hitCount_nonneg df (Filter.cfg_case cfg)
                  (snd (Filter._parse_keyword_mapping (Filter.cfg_raw cfg)))
                  (Filter.target_columns df cfg) row). lia.
Qed.

Lemma nonpositive_cutoff_keeps_all_witness :
  length (frows (Filter.apply_filter_from_cfg stable_sort Spec.example_dataset
                   (Spec.with_cutoff 0 Spec.example_cfg) true))
  = length (rows Spec.example_dataset).
Proof.
  assert (H : (Filter.cfg_cutoff (Spec.with_cutoff 0 Spec.example_cfg) <= 0)%Z)
    by (simpl; lia).
  exact (proj1 (nonpositive_cutoff_keeps_all stable_sort Spec.example_dataset
                  (Spec.with_cutoff 0 Spec.example_cfg) true stable_sort_contract H)).
Defined.

(** When the keyword text yields no keyword, every hit count is 0 and a
    cutoff of 1 or more leaves the filtered table empty. *)
Theorem no_keywords_no_rows
        (sv : SortValues) (df : DataFrame) (cfg : Filter.FilterCfg) (b : bool) :
  sort_contract sv ->
  snd (Filter._parse_keyword_mapping (Filter.cfg_raw cfg)) = [] ->
  (1 <= Filter.cfg_cutoff cfg)%Z ->
  frows (Filter.apply_filter_from_cfg sv df cfg b) = [].
Proof.
  intros Hsv Hw Hc.
  destruct (frows (Filter.apply_filter_from_cfg sv df cfg b)) as [|r l] eqn:E; [reflexivity|].
  exfalso.
  assert (Hin : In r (frows (Filter.apply_filter_from_cfg sv df cfg b))).
  { rewrite E. now left. }
  apply (filtered_In sv Hsv) in Hin. destruct Hin as (i & row & _ & _ & H).
  rewrite Hw in H. unfold Spec.hitCount in H. simpl in H.
  rewrite sumZ_zeros in H. lia.
Qed.

Lemma no_keywords_no_rows_witness :
  frows (Filter.apply_filter_from_cfg stable_sort Spec.example_dataset
           (Spec.cfg_of " , ," 1) false) = [].
Proof.
  apply (no_keywords_no_rows stable_sort Spec.example_dataset (Spec.cfg_of " , ," 1) false
           stable_sort_contract).
  - reflexivity.
  - simpl. lia.
Defined.

(** ** Pages *)

Lemma chunks_cover {X : Type} (n k : nat) (f : list X) :
  (length f <= k * n)%nat ->
  concat (map (fun i => firstn n (skipn (i * n) f)) (seq 0 k)) = f.
Proof.
  revert f. induction k as [|k IH]; intros f H.
  - simpl in *. destruct f; [reflexivity | simpl in H; lia].
  - cbn [seq map concat]. rewrite <- seq_shift, map_map.
    rewrite (map_ext _ (fun i => firstn n (skipn (i * n) (skipn n f)))).
    + rewrite IH.
      * simpl. apply firstn_skipn.
      * rewrite length_skipn. simpl in H. lia.
    + intros i. f_equal. rewrite skipn_skipn. f_equal. simpl. lia.
Qed.

(** The pages of [PandasModel.page], taken for the page indices 0 to the
    number of pages minus one, put end to end, are the filtered table: no
    record is lost and none is shown twice. *)
Theorem pages_cover_table {A : Type} (ps : Z) (f : list A) :
  (1 <= ps)%Z ->
  concat (Invariants.all_pages ps f) = f.
Proof.
  intros Hps. unfold Invariants.all_pages, Paging.iloc.
  assert (Htot : (0 <= Paging.len f)%Z) by (unfold Paging.len; lia).
  destruct (total_pages_spec (Paging.len f) ps Hps Htot) as (P1 & P2 & P3).
  set (k := Z.to_nat (Paging.total_pages (Paging.len f) ps)).
  rewrite (map_ext _ (fun i => firstn (Z.to_nat ps) (skipn (i * Z.to_nat ps) f))).
  - apply chunks_cover.
    destruct (Z.eq_dec (Paging.len f) 0) as [E|E].
    + unfold Paging.len in E. lia.
    + assert (T : (0 < Paging.len f)%Z) by lia. specialize (P3 T).
      unfold k, Paging.len in *.
      apply Nat2Z.inj_le. rewrite Nat2Z.inj_mul, !Z2Nat.id by lia. lia.
  - intros i. do 2 f_equal. rewrite Z2Nat.inj_mul by lia. now rewrite Nat2Z.id.
Qed.

Lemma pages_cover_table_witness :
  concat (Invariants.all_pages 2 [1; 2; 3; 4; 5]%nat) = [1; 2; 3; 4; 5]%nat /\
  Invariants.all_pages 2 [1; 2; 3; 4; 5]%nat = [[1; 2]; [3; 4]; [5]]%nat.
Proof.
  split; [|reflexivity].
  apply (pages_cover_table 2 [1; 2; 3; 4; 5]%nat). lia.
Defined.

(** [refresh_page] spelled out. *)
Lemma refresh_page_result {A : Type} (st : Paging.State A) (f m : list A) :
  Paging.filtered_df st = Some f ->
  Paging.model_full st = Some m ->
  (1 <= Paging.value (Paging.page_size_spin st))%Z ->
  Paging.minimum (Paging.page_index_spin st) = 0%Z ->
  let total := Paging.len f in
  let ps := Paging.value (Paging.page_size_spin st) in
  let requested := Z.max 0 (Paging.value (Paging.page_index_spin st)) in
  let pages := Paging.total_pages total ps in
  let inside := (requested * ps <? total)%Z in
  let index := if inside then requested else 0%Z in
  Paging.refresh_page st
  = {| Paging.filtered_df := Some f;
       Paging.model_full := Some f;
       Paging.model_page := Paging.iloc (index * ps) ps f;
       Paging.page_size := ps;
       Paging.page_index := if inside || (total <=? 0)%Z then requested else 0%Z;
       Paging.page_size_spin := Paging.page_size_spin st;
       Paging.page_index_spin :=
         {| Paging.value := index; Paging.minimum := 0; Paging.maximum := pages - 1 |};
       Paging.lbl_pageinfo := ((index + 1)%Z, pages) |}.
Proof.
  intros Hf Hm Hps Hmin total ps requested pages inside index.
  assert (Htot : (0 <= total)%Z) by (unfold total, Paging.len; lia).
  destruct (total_pages_spec total ps Hps Htot) as (P1 & P2 & P3).
  fold pages in P1, P2, P3.
  assert (Hr : (0 <= requested)%Z) by (unfold requested; lia).
  assert (Hin : (requested * ps < total -> requested <= pages - 1)%Z).
  { intros L. assert (T : (0 < total)%Z) by nia.
    exact (index_within_pages total ps requested Hps T Hr L). }
  set (v := Paging.value (Paging.page_index_spin st)) in *.
  set (reset := (total <=? requested * ps)%Z && (0 <? total)%Z).
  set (spin1 := if reset then Paging.setValue 0 (Paging.page_index_spin st)
                else Paging.page_index_spin st).
  assert (Hspin1 : Paging.minimum spin1 = 0%Z /\
                   Paging.value spin1 = (if reset then 0%Z else v)).
  { unfold spin1. destruct reset; cbn; rewrite ?Hmin; split; auto.
    unfold Paging.bound. generalize (Paging.maximum (Paging.page_index_spin st)).
    intros mx. clear. lia. }
  destruct Hspin1 as [Hmin1 Hval1].
  assert (Hreset : reset = negb inside && (0 <? total)%Z).
  { unfold reset, inside. f_equal. clear. generalize (requested * ps)%Z. intros q.
    destruct (Z.leb_spec total q), (Z.ltb_spec q total); simpl; auto; lia. }
  assert (I : Z.min (Z.max 0 (Z.min (Z.max 0 (if reset then 0%Z else v)) (pages - 1)))
                    (pages - 1) = index).
  { exact (settled_index total ps pages v Htot P1 P2 Hin). }
  unfold Paging.refresh_page. rewrite Hm, Hf.
  fold total ps v requested reset spin1.
  match goal with
  | |- Paging._update_paging_ui (Paging._update_paging_ui ?s1) = _ =>
      rewrite (update_paging_ui_result s1 f eq_refl Hmin1 Hps)
  end.
  cbn [Paging.model_full Paging.model_page Paging.page_size Paging.page_index
       Paging.page_size_spin Paging.page_index_spin].
  match goal with
  | |- Paging._update_paging_ui ?s2 = _ =>
      rewrite (update_paging_ui_result s2 f eq_refl eq_refl Hps)
  end.
  cbn [Paging.model_full Paging.model_page Paging.page_size Paging.page_index
       Paging.page_size_spin Paging.page_index_spin Paging.value].
  rewrite Hval1. change (Paging.total_pages (Paging.len f) ps) with pages. rewrite I.
  assert (Hpage : Paging.iloc (if reset then 0%Z else (requested * ps)%Z) ps f
                  = Paging.iloc (index * ps) ps f).
  { unfold index. rewrite Hreset. destruct inside; cbn [negb andb]; auto.
    destruct (Z.ltb_spec 0 total) as [T|T]; [reflexivity|].
    assert (f = []) as ->.
    { destruct f; auto. unfold total, Paging.len in T. simpl in T. lia. }
    unfold Paging.iloc. now rewrite !skipn_nil, !firstn_nil. }
  assert (Hattr : (if reset then 0%Z else requested)
                  = (if inside || (total <=? 0)%Z then requested else 0%Z)).
  { rewrite Hreset. destruct inside; cbn [negb andb orb]; auto.
    destruct (Z.ltb_spec 0 total), (Z.leb_spec total 0); auto; lia. }
  now rewrite Hpage, Hattr.
Qed.

Lemma index_in_range_kept (total ps v : Z) :
  (1 <= ps)%Z -> (0 <= total)%Z ->
  (0 <= v <= Paging.total_pages total ps - 1)%Z ->
  (if (Z.max 0 v * ps <? total)%Z then Z.max 0 v else 0%Z) = v /\
  ((0 < total)%Z -> (Z.max 0 v * ps <? total)%Z = true).
Proof.
  intros Hps Ht Hv.
  destruct (total_pages_spec total ps Hps Ht) as (P1 & P2 & P3).
  rewrite (Z.max_r 0 v) by lia.
  destruct (Z.ltb_spec (v * ps) total) as [L|L].
  - split; auto.
  - destruct (Z.eq_dec total 0) as [E|E].
    + specialize (P2 E). split; [lia | intros; lia].
    + assert (T : (0 < total)%Z) by lia. specialize (P3 T). nia.
Qed.

Section Navigation.
Variable A : Type.
Variable st : Paging.State A.
Variable f : list A.
Hypothesis Hst : Invariants.settled st f.

Let ps := Paging.value (Paging.page_size_spin st).
Let pages := Paging.total_pages (Paging.len f) ps.

(** Setting the page-index spin box to [t] and refreshing, as the
    navigation buttons do. *)
Lemma goto_page (t : Z) :
  let st' := Paging.refresh_page
               (Paging.with_page_index_spin A
                  (Paging.setValue t (Paging.page_index_spin st)) st) in
  Invariants.shown_index st' = Paging.bound 0 t (pages - 1) /\
  Paging.model_page st' = Paging.iloc (Invariants.shown_index st' * ps) ps f /\
  Invariants.settled st' f.
Proof.
  destruct Hst as (Hf & Hm & Hps & Hmin & Hmax & Hv).
  fold ps in Hps, Hmax. fold pages in Hmax.
  assert (Htot : (0 <= Paging.len f)%Z) by (unfold Paging.len; lia).
  destruct (total_pages_spec (Paging.len f) ps Hps Htot) as (P1 & _).
  fold pages in P1.
  set (st1 := Paging.with_page_index_spin A
                (Paging.setValue t (Paging.page_index_spin st)) st).
  assert (V1 : Paging.value (Paging.page_index_spin st1) = Paging.bound 0 t (pages - 1)).
  { unfold st1, Paging.with_page_index_spin, Paging.setValue.
    cbn [Paging.page_index_spin Paging.value]. now rewrite Hmin, Hmax. }
  assert (B : (0 <= Paging.bound 0 t (pages - 1) <= pages - 1)%Z).
  { unfold Paging.bound. lia. }
  destruct (index_in_range_kept (Paging.len f) ps (Paging.bound 0 t (pages - 1))
              Hps Htot B) as [K _].
  cbv zeta.
  rewrite (refresh_page_result st1 f f Hf Hm Hps Hmin).
  change (Paging.value (Paging.page_size_spin st1)) with ps.
  rewrite V1, K.
  unfold Invariants.shown_index, Invariants.settled.
  cbn [Paging.filtered_df Paging.model_full Paging.page_size_spin Paging.page_index_spin
       Paging.value Paging.minimum Paging.maximum Paging.model_page].
  change (Paging.page_size_spin st1) with (Paging.page_size_spin st).
  fold ps. fold pages. repeat split; auto; lia.
Qed.

End Navigation.

(** From a settled state the navigation buttons move the page index
    without leaving the pages: next goes one page on and stops at the last
    page, prev goes one page back and stops at page 0, first goes to page
    0 and last to the last page; the page shown is the page of the new
    index and the state stays settled. *)
Theorem navigation_stays_within_pages {A : Type} (st : Paging.State A) (f : list A) :
  Invariants.settled st f ->
  let ps := Paging.value (Paging.page_size_spin st) in
  let pages := Paging.total_pages (Paging.len f) ps in
  let v := Invariants.shown_index st in
  (Invariants.shown_index (Paging.next_page st) = Z.min (v + 1) (pages - 1) /\
   Invariants.settled (Paging.next_page st) f) /\
  (Invariants.shown_index (Paging.prev_page st) = Z.max (v - 1) 0 /\
   Invariants.settled (Paging.prev_page st) f) /\
  (Invariants.shown_index (Paging.first_page st) = 0%Z /\
   Invariants.settled (Paging.first_page st) f) /\
  (Invariants.shown_index (Paging.last_page st) = (pages - 1)%Z /\
   Invariants.settled (Paging.last_page st) f) /\
  (forall nav, In nav [Paging.next_page; Paging.prev_page; Paging.first_page;
                       Paging.last_page] ->
     Paging.model_page (nav st)
     = Paging.iloc (Invariants.shown_index (nav st) * ps) ps f \/ nav st = st).
Proof.
  intros Hst ps pages v.
  pose proof Hst as (Hf & Hm & Hps & Hmin & Hmax & Hv).
  fold ps in Hps, Hmax. fold pages in Hmax.
  assert (Htot : (0 <= Paging.len f)%Z) by (unfold Paging.len; lia).
  destruct (total_pages_spec (Paging.len f) ps Hps Htot) as (P1 & _).
  fold pages in P1. unfold Invariants.shown_index in v.
  assert (Hv' : (0 <= v <= pages - 1)%Z) by (unfold v; rewrite <- Hmax; exact Hv).
  assert (Hnext : Paging.next_page st
                  = Paging.refresh_page
                      (Paging.with_page_index_spin A
                         (Paging.setValue (v + 1) (Paging.page_index_spin st)) st))
    by reflexivity.
  assert (Hfirst : Paging.first_page st
                   = Paging.refresh_page
                       (Paging.with_page_index_spin A
                          (Paging.setValue 0 (Paging.page_index_spin st)) st))
    by reflexivity.
  assert (Hlast : Paging.last_page st
                  = Paging.refresh_page
                      (Paging.with_page_index_spin A
                         (Paging.setValue (pages - 1) (Paging.page_index_spin st)) st)).
  { unfold Paging.last_page. rewrite Hf. fold ps. now rewrite (Z.max_r 1 ps) by lia. }
  assert (Hprev : Paging.prev_page st = st /\ v = 0%Z \/
                  (0 < v)%Z /\
                  Paging.prev_page st
                  = Paging.refresh_page
                      (Paging.with_page_index_spin A
                         (Paging.setValue (v - 1) (Paging.page_index_spin st)) st)).
  { unfold Paging.prev_page. fold v. destruct (Z.ltb_spec 0 v); [right | left]; auto.
    split; [reflexivity | lia]. }
  destruct (goto_page A st f Hst (v + 1)) as (N1 & N2 & N3).
  destruct (goto_page A st f Hst 0) as (F1 & F2 & F3).
  destruct (goto_page A st f Hst (pages - 1)) as (L1 & L2 & L3).
  destruct (goto_page A st f Hst (v - 1)) as (R1 & R2 & R3).
  fold ps in N1, N2, F1, F2, L1, L2, R1, R2.
  fold pages in N1, F1, L1, R1.
  rewrite <- Hnext in N1, N2, N3. rewrite <- Hfirst in F1, F2, F3.
  rewrite <- Hlast in L1, L2, L3.
  split; [|split; [|split; [|split]]].
  - split; [|exact N3]. rewrite N1. unfold Paging.bound. lia.
  - destruct Hprev as [[E Z0]|[Pos E]].
    + rewrite E. split; [|exact Hst]. unfold Invariants.shown_index. fold v. lia.
    + rewrite <- E in R1, R3. split; [|exact R3]. rewrite R1. unfold Paging.bound. lia.
  - split; [|exact F3]. rewrite F1. unfold Paging.bound. lia.
  - split; [|exact L3]. rewrite L1. unfold Paging.bound. lia.
  - intros nav [<-|[<-|[<-|[<-|[]]]]]; auto.
    destruct Hprev as [[E _]|[_ E]]; [now right | left]. rewrite E. exact R2.
Qed.

Lemma navigation_stays_within_pages_witness :
  Invariants.shown_index
    (Paging.next_page (Paging.last_page (Paging.refresh_page Spec.paging_example)))
  = 2%Z.
Proof.
  assert (S0 : Invariants.settled (Paging.refresh_page Spec.paging_example) (repeat tt 120)).
  { repeat split; try reflexivity; vm_compute; discriminate. }
  destruct (navigation_stays_within_pages _ _ S0) as (_ & _ & _ & (L1 & L2) & _).
  destruct (navigation_stays_within_pages _ _ L2) as ((N1 & _) & _).
  rewrite N1, L1. reflexivity.
Defined.

(** After [refresh_page] the page shown is the page of the index shown, it
    holds at most page-size records, and it is not empty as long as the
    filtered table has a record. *)
Theorem refresh_shows_a_page {A : Type} (st : Paging.State A) (f m : list A) :
  Paging.filtered_df st = Some f ->
  Paging.model_full st = Some m ->
  (1 <= Paging.value (Paging.page_size_spin st))%Z ->
  Paging.minimum (Paging.page_index_spin st) = 0%Z ->
  let ps := Paging.value (Paging.page_size_spin st) in
  let st' := Paging.refresh_page st in
  Paging.model_page st'
  = nth (Z.to_nat (Invariants.shown_index st')) (Invariants.all_pages ps f) [] /\
  (length (Paging.model_page st') <= Z.to_nat ps)%nat /\
  (f <> [] -> Paging.model_page st' <> []).
Proof.
  intros Hf Hm Hps Hmin ps st'.
  assert (Htot : (0 <= Paging.len f)%Z) by (unfold Paging.len; lia).
  destruct (total_pages_spec (Paging.len f) ps Hps Htot) as (P1 & P2 & P3).
  unfold st'. rewrite (refresh_page_result st f m Hf Hm Hps Hmin).
  fold ps. unfold Invariants.shown_index.
  cbn [Paging.model_page Paging.page_index_spin Paging.value].
  set (requested := Z.max 0 (Paging.value (Paging.page_index_spin st))).
  assert (Hr : (0 <= requested)%Z) by (unfold requested; lia).
  set (index := if (requested * ps <? Paging.len f)%Z then requested else 0%Z).
  assert (Hi : (0 <= index)%Z /\ ((0 < Paging.len f)%Z -> (index * ps < Paging.len f)%Z)).
  { unfold index. destruct (Z.ltb_spec (requested * ps) (Paging.len f)); split; lia. }
  destruct Hi as [Hi0 Hi1].
  split; [|split].
  - destruct (Z.eq_dec (Paging.len f) 0) as [E|E].
    + assert (f = []) as ->.
      { destruct f; auto. unfold Paging.len in E. simpl in E. lia. }
      assert (Hnil : forall a b, Paging.iloc a b (@nil A) = []).
      { intros a b. unfold Paging.iloc. now rewrite skipn_nil, firstn_nil. }
      rewrite Hnil.
      destruct (nth_in_or_default (Z.to_nat index) (Invariants.all_pages ps (@nil A)) [])
        as [Hin|Hd]; [|now rewrite Hd].
      unfold Invariants.all_pages in Hin at 2. apply in_map_iff in Hin.
      destruct Hin as (i & Hi & _). now rewrite <- Hi, Hnil.
    + assert (T : (0 < Paging.len f)%Z) by lia.
      specialize (P3 T). specialize (Hi1 T).
      unfold Invariants.all_pages.
      assert (Hlt : (Z.to_nat index < Z.to_nat (Paging.total_pages (Paging.len f) ps))%nat).
      { apply Z2Nat.inj_lt; try lia. nia. }
      rewrite (nth_indep _ [] (Paging.iloc (Z.of_nat 0 * ps) ps f))
        by (now rewrite length_map, length_seq).
      rewrite (map_nth (fun i => Paging.iloc (Z.of_nat i * ps) ps f)).
      rewrite seq_nth by exact Hlt. simpl. now rewrite Z2Nat.id by lia.
  - unfold Paging.iloc. apply firstn_le_length.
  - intros Hne.
    assert (T : (0 < Paging.len f)%Z).
    { destruct f; [congruence|]. unfold Paging.len. simpl. lia. }
    specialize (Hi1 T). unfold Paging.iloc. intros E.
    apply (f_equal (@length A)) in E. rewrite length_firstn, length_skipn in E.
    simpl in E. unfold Paging.len in Hi1.
    assert (Z.to_nat (index * ps) < length f)%nat by lia.
    assert (1 <= Z.to_nat ps)%nat by lia. lia.
Qed.

Lemma refresh_shows_a_page_witness :
  (length (Paging.model_page (Paging.refresh_page Spec.paging_example)) <= 50)%nat.
Proof.
  assert (H : (1 <= Paging.value (Paging.page_size_spin Spec.paging_example))%Z)
    by (vm_compute; discriminate).
  exact (proj1 (proj2 (refresh_shows_a_page Spec.paging_example
                         (repeat tt 120) (repeat tt 120) eq_refl eq_refl H eq_refl))).
Defined.

(** Refreshing twice is refreshing once, when the filtered table has a
    record. *)
Theorem refresh_page_idempotent {A : Type} (st : Paging.State A) (f m : list A) :
  Paging.filtered_df st = Some f ->
  Paging.model_full st = Some m ->
  (1 <= Paging.value (Paging.page_size_spin st))%Z ->
  Paging.minimum (Paging.page_index_spin st) = 0%Z ->
  f <> [] ->
  Paging.refresh_page (Paging.refresh_page st) = Paging.refresh_page st.
Proof.
  intros Hf Hm Hps Hmin Hne.
  assert (T : (0 < Paging.len f)%Z).
  { destruct f; [congruence|]. unfold Paging.len. simpl. lia. }
  assert (Htot : (0 <= Paging.len f)%Z) by lia.
  rewrite (refresh_page_result st f m Hf Hm Hps Hmin).
  set (ps := Paging.value (Paging.page_size_spin st)) in *.
  set (requested := Z.max 0 (Paging.value (Paging.page_index_spin st))).
  assert (Hr : (0 <= requested)%Z) by (unfold requested; lia).
  set (inside := (requested * ps <? Paging.len f)%Z).
  set (index := if inside then requested else 0%Z).
  assert (Hi : (0 <= index)%Z /\ (index * ps <? Paging.len f)%Z = true).
  { unfold index, inside. destruct (Z.ltb_spec (requested * ps) (Paging.len f)); split;
      try lia; apply Z.ltb_lt; lia. }
  destruct Hi as [Hi0 Hi1].
  match goal with
  | |- Paging.refresh_page ?s = _ =>
      rewrite (refresh_page_result s f f eq_refl eq_refl Hps eq_refl)
  end.
  cbn [Paging.page_size_spin Paging.page_index_spin Paging.value].
  fold ps. rewrite (Z.max_r 0 index) by lia. rewrite Hi1. cbn [orb].
  assert (E : (if inside || (Paging.len f <=? 0)%Z then requested else 0%Z) = index).
  { unfold index. destruct inside; cbn [orb]; auto.
    destruct (Z.leb_spec (Paging.len f) 0); [lia | reflexivity]. }
  now rewrite E.
Qed.

Lemma refresh_page_idempotent_witness :
  Paging.refresh_page (Paging.refresh_page Spec.paging_example)
  = Paging.refresh_page Spec.paging_example.
Proof.
  assert (H : (1 <= Paging.value (Paging.page_size_spin Spec.paging_example))%Z)
    by (vm_compute; discriminate).
  apply (refresh_page_idempotent Spec.paging_example (repeat tt 120) (repeat tt 120)
           eq_refl eq_refl H eq_refl).
  discriminate.
Defined.

(** ** Escaping and colouring *)

Lemma escape_char_checked (c : ascii) :
  forallb (fun x => negb (Ascii.eqb x "<") && negb (Ascii.eqb x ">")
                    && negb (Ascii.eqb x "'") && negb (nat_of_ascii x =? 34)%nat)
          (list_ascii_of_string (PyStr.escape_char c)) = true.
Proof.
  destruct c as [[] [] [] [] [] [] [] []]; vm_compute; reflexivity.
Qed.

Lemma escape_char_safe (c x : ascii) :
  In x (list_ascii_of_string (PyStr.escape_char c)) ->
  x <> "<"%char /\ x <> ">"%char /\ x <> "'"%char /\ nat_of_ascii x <> 34%nat.
Proof.
  intros H. pose proof (escape_char_checked c) as B.
  rewrite forallb_forall in B. specialize (B x H).
  repeat (apply andb_true_iff in B; destruct B as [B ?]).
  repeat split; intros E; subst; try discriminate.
  rewrite E in *. discriminate.
Qed.

Lemma chars_append (a b : string) :
  list_ascii_of_string (a ++ b) = list_ascii_of_string a ++ list_ascii_of_string b.
Proof. induction a; simpl; congruence. Qed.

Lemma html_escape_safe (s : string) (x : ascii) :
  In x (list_ascii_of_string (PyStr.html_escape s)) ->
  x <> "<"%char /\ x <> ">"%char /\ x <> "'"%char /\ nat_of_ascii x <> 34%nat.
Proof.
  induction s as [|c s IH]; simpl; [tauto|].
  rewrite chars_append, in_app_iff. intros [H|H]; eauto using escape_char_safe.
Qed.

Lemma strip_tags_no_bracket (s : string) :
  ~ In "<"%char (list_ascii_of_string s) -> Highlight.strip_tags s = s.
Proof.
  unfold Highlight.strip_tags. induction s as [|c s IH]; simpl; intros H; [reflexivity|].
  destruct (Ascii.eqb c "<") eqn:E.
  - apply Ascii.eqb_eq in E. subst. tauto.
  - f_equal. apply IH. tauto.
Qed.

(** Escaped text holds no angle bracket and no quote, so nothing in it is
    a tag; and with no keyword configured the renderer returns just the
    escaped text, from which stripping tags takes nothing away. *)
Theorem escaped_text_has_no_markup (text : string) (case : bool) :
  (forall x, In x (list_ascii_of_string (PyStr.html_escape text)) ->
             x <> "<"%char /\ x <> ">"%char /\ x <> "'"%char /\ nat_of_ascii x <> 34%nat) /\
  Highlight.strip_tags (PyStr.html_escape text) = PyStr.html_escape text /\
  fst (Highlight._highlight_text text [] case) = PyStr.html_escape text /\
  Highlight.strip_tags (fst (Highlight._highlight_text text [] case))
  = PyStr.html_escape text.
Proof.
  assert (S : Highlight.strip_tags (PyStr.html_escape text) = PyStr.html_escape text).
  { apply strip_tags_no_bracket. intros H. apply html_escape_safe in H. tauto. }
  assert (E : fst (Highlight._highlight_text text [] case) = PyStr.html_escape text).
  { destruct text; reflexivity. }
  split; [apply html_escape_safe|]. split; [exact S|]. split; [exact E|].
  now rewrite E.
Qed.

Lemma dict_set_keys {V : Type} (k : string) (v : V) (d : list (string * V)) :
  PyDict.get k d <> None -> PyDict.keys (PyDict.set k v d) = PyDict.keys d.
Proof.
  unfold PyDict.keys. induction d as [|[k' v'] d IH]; simpl; [congruence|].
  destruct (String.eqb k k') eqn:E; simpl.
  - intros _. apply String.eqb_eq in E. now subst.
  - intros H. now rewrite IH.
Qed.

Lemma bump_keys (key : string) (counts : list (string * nat)) :
  PyDict.keys (Highlight.bump key counts) = PyDict.keys counts.
Proof.
  unfold Highlight.bump. destruct (PyDict.get key counts) eqn:E; [|reflexivity].
  apply dict_set_keys. congruence.
Qed.

(** What the callback keeps true of the state, [re.sub] keeps true. *)
Lemma re_sub_from_invariant {St : Type} (P : St -> Prop)
      (alt : string -> option nat) (rp : string -> St -> string * St) :
  (forall w st, P st -> P (snd (rp w st))) ->
  forall s skip st, P st -> P (snd (Highlight.re_sub_from St alt rp s skip st)).
Proof.
  intros Hrp. induction s as [|c s IH]; intros skip st Hst.
  - destruct skip; simpl; auto.
    destruct (alt EmptyString); simpl; auto.
    specialize (Hrp (Highlight.take n EmptyString) st Hst).
    destruct (rp (Highlight.take n EmptyString) st). exact Hrp.
  - destruct skip as [|k]; cbn [Highlight.re_sub_from]; auto.
    destruct (alt (String c s)) as [n|].
    + specialize (Hrp (Highlight.take n (String c s)) st Hst).
      destruct (rp (Highlight.take n (String c s)) st) as [r st1]. simpl in Hrp.
      destruct n as [|m].
      * specialize (IH 0%nat st1 Hrp).
        destruct (Highlight.re_sub_from St alt rp s 0 st1). exact IH.
      * specialize (IH m st1 Hrp).
        destruct (Highlight.re_sub_from St alt rp s m st1). exact IH.
    + specialize (IH 0%nat st Hst).
      destruct (Highlight.re_sub_from St alt rp s 0 st). exact IH.
Qed.

(** For a non-empty text the renderer reports a count for every
    configured keyword, in the order of the mapping, and for nothing else;
    for the empty text it reports no count at all. *)
Theorem highlight_counts_keys (text : string) (mapping : list (string * string))
        (case : bool) :
  (text <> EmptyString ->
   PyDict.keys (snd (Highlight._highlight_text text mapping case)) = PyDict.keys mapping) /\
  (text = EmptyString ->
   Highlight._highlight_text text mapping case = (EmptyString, [])).
Proof.
  split.
  - intros Hne. destruct text as [|c t]; [congruence|].
    unfold Highlight._highlight_text.
    assert (K0 : PyDict.keys (map (fun k => (k, 0%nat)) (PyDict.keys mapping))
                 = PyDict.keys mapping).
    { unfold PyDict.keys. rewrite map_map. simpl. now rewrite map_id. }
    destruct mapping as [|kv mapping]; [reflexivity|].
    unfold Highlight.re_sub.
    set (keys := Highlight.sorted_by_len_desc (PyDict.keys (kv :: mapping))).
    set (counts := map (fun k => (k, 0%nat)) (PyDict.keys (kv :: mapping))) in *.
    pose proof (re_sub_from_invariant
                  (fun st => PyDict.keys st = PyDict.keys (kv :: mapping))
                  (Highlight.alternation case keys)
                  (Highlight.repl case (kv :: mapping) keys)) as Inv.
    specialize (Inv (fun w st H => eq_trans (bump_keys _ st) H) (String c t) 0%nat counts K0).
    destruct (Highlight.re_sub_from _ _ _ (String c t) 0 counts) as [out counts'].
    exact Inv.
  - intros ->. reflexivity.
Qed.

Lemma highlight_counts_keys_witness :
  PyDict.keys (snd (Highlight._highlight_text "a fault" [("fault", "red"); ("b", "blue")] false))
  = PyDict.keys [("fault", "red"); ("b", "blue")].
Proof.
  apply (proj1 (highlight_counts_keys "a fault" [("fault", "red"); ("b", "blue")] false)).
  discriminate.
Defined.

Lemma count_pos_iff_contains (w s : string) :
  w <> EmptyString ->
  ((0 < PyStr.count s w)%nat <-> PyStr.contains w s = true).
Proof.
  intros Hw. unfold PyStr.count. induction s as [|c s IH].
  - cbn [PyStr.count_from PyStr.contains].
    rewrite (prefix_nonempty_empty w Hw). simpl. split; [lia | discriminate].
  - cbn [PyStr.count_from PyStr.contains].
    destruct (prefix w (String c s)); simpl.
    + split; [reflexivity | lia].
    + exact IH.
Qed.

Lemma sum_of_counts_pos {X : Type} (g : X -> nat) (l : list X) :
  (0 < fold_right Z.add 0 (map (fun x => Z.of_nat (g x)) l))%Z <->
  exists x, In x l /\ (0 < g x)%nat.
Proof.
  induction l as [|x l IH]; simpl.
  - split; [lia | intros (x & [] & _)].
  - split.
    + intros H. destruct (g x) as [|n] eqn:E.
      * simpl in H. apply IH in H. destruct H as (y & Hy & Hg). eauto.
      * exists x. split; [now left | lia].
    + intros (y & [<-|Hy] & Hg).
      * assert (0 <= fold_right Z.add 0 (map (fun x => Z.of_nat (g x)) l))%Z.
        { clear. induction l; simpl; lia. }
        lia.
      * assert (0 < fold_right Z.add 0 (map (fun x => Z.of_nat (g x)) l))%Z
          by (apply IH; eauto).
        lia.
Qed.

(** A cell of a target column is coloured in the table view exactly when
    the case-insensitive hit count of the cell for the colouring keywords
    is positive; the colour is that of a keyword that occurs in the cell. *)
Theorem cell_coloured_iff_hit (mapping : list (string * string))
        (target_cols : list string) (colname : string) (value : cell) :
  target_cols = [] \/ In colname target_cols ->
  let kc := Model.set_keywords_with_colors mapping in
  (Model.foreground kc target_cols colname value <> None <->
   (0 < Filter.count_hits_cell false (PyDict.keys kc) value)%Z) /\
  (forall color, Model.foreground kc target_cols colname value = Some color ->
     exists w, In (w, color) mapping /\ w <> EmptyString /\
               PyStr.contains (PyStr.lower w) (PyStr.lower (Model.display value)) = true).
Proof.
  intros Hcol kc.
  assert (Hkc : forall kv, In kv kc -> In kv mapping /\ fst kv <> EmptyString).
  { intros kv H. apply filter_In in H. destruct H as [H1 H2]. split; auto.
    destruct (fst kv); [discriminate | discriminate]. }
  assert (Hfg : Model.foreground kc target_cols colname value
                = option_map snd
                    (find (fun kv => PyStr.contains (PyStr.lower (fst kv))
                                       (PyStr.lower (fillna_str value))) kc)).
  { unfold Model.foreground.
    assert (T : match target_cols with
                | [] => false
                | _ :: _ => negb (PyStr.mem colname target_cols)
                end = false).
    { destruct Hcol as [->|H]; [reflexivity|].
      destruct target_cols; [reflexivity|]. apply mem_In in H. now rewrite H. }
    rewrite T. destruct kc; reflexivity. }
  rewrite Hfg. split.
  - split.
    + intros H.
      destruct (find _ kc) as [kv|] eqn:F; [|simpl in H; congruence].
      apply find_some in F. destruct F as [Hin Hc].
      destruct (Hkc kv Hin) as [_ Hne].
      unfold Filter.count_hits_cell. destruct value as [|s].
      * exfalso. cbn [fillna_str PyStr.lower PyStr.contains] in Hc.
        rewrite (prefix_nonempty_empty _ (lower_nonempty _ Hne)) in Hc. discriminate.
      * cbn [isna py_str fillna_str] in *. unfold PyDict.keys. rewrite map_map.
        apply (sum_of_counts_pos
                 (fun kv => PyStr.count (PyStr.lower s) (PyStr.lower (fst kv)))).
        exists kv. split; [exact Hin|].
        apply count_pos_iff_contains; auto using lower_nonempty.
    + intros H. unfold Filter.count_hits_cell in H.
      destruct value as [|s]; cbn [isna py_str fillna_str] in *; [lia|].
      unfold PyDict.keys in H. rewrite map_map in H.
      apply (sum_of_counts_pos
               (fun kv => PyStr.count (PyStr.lower s) (PyStr.lower (fst kv)))) in H.
      destruct H as (kv & Hin & Hpos).
      destruct (Hkc kv Hin) as [_ Hne].
      apply count_pos_iff_contains in Hpos; auto using lower_nonempty.
      destruct (find _ kc) as [kv'|] eqn:F; [simpl; congruence|].
      exfalso. apply (find_none _ _ F) in Hin. simpl in Hin. congruence.
  - intros color H.
    destruct (find _ kc) as [[w c]|] eqn:F; [|discriminate].
    simpl in H. injection H as ->. apply find_some in F. destruct F as [Hin Hc].
    destruct (Hkc _ Hin) as [Hm Hne]. exists w. auto.
Qed.

Lemma cell_coloured_iff_hit_witness :
  Model.foreground (Model.set_keywords_with_colors [("Fault", "red")])
                   ["Abstract"] "Abstract" (Val "no fault here") <> None.
Proof.
  apply (proj1 (cell_coloured_iff_hit [("Fault", "red")] ["Abstract"] "Abstract"
                  (Val "no fault here") (or_intror (or_introl eq_refl)))).
  vm_compute. reflexivity.
Defined.

(** ** Trimming and splitting *)

Lemma lstrip_head (s : string) :
  PyStr.lstrip s = EmptyString \/
  exists c t, PyStr.lstrip s = String c t /\ PyStr.is_space c = false.
Proof.
  induction s as [|c s IH]; simpl; [now left|].
  destruct (PyStr.is_space c) eqn:E; [exact IH|]. right. eauto.
Qed.

Lemma rstrip_keeps_head (c : ascii) (t : string) :
  PyStr.is_space c = false -> exists t', PyStr.rstrip (String c t) = String c t'.
Proof.
  intros H. simpl. destruct (PyStr.rstrip t); [rewrite H|]; eauto.
Qed.

Lemma rstrip_cons (c : ascii) (s : string) :
  PyStr.rstrip (String c s)
  = match PyStr.rstrip s with
    | EmptyString => if PyStr.is_space c then EmptyString else String c EmptyString
    | String d r => String c (String d r)
    end.
Proof. simpl. destruct (PyStr.rstrip s); reflexivity. Qed.

Lemma rstrip_idempotent (s : string) : PyStr.rstrip (PyStr.rstrip s) = PyStr.rstrip s.
Proof.
  induction s as [|c s IH]; [reflexivity|].
  rewrite (rstrip_cons c s). destruct (PyStr.rstrip s) as [|d r] eqn:E.
  - destruct (PyStr.is_space c) eqn:Sp; [reflexivity|].
    rewrite rstrip_cons. simpl. now rewrite Sp.
  - rewrite rstrip_cons, IH. reflexivity.
Qed.

(** [strip] is idempotent: a trimmed string has nothing left to trim. *)
Lemma strip_idempotent (s : string) : PyStr.strip (PyStr.strip s) = PyStr.strip s.
Proof.
  unfold PyStr.strip.
  destruct (lstrip_head s) as [E|(c & t & E & Hc)]; rewrite E.
  - reflexivity.
  - destruct (rstrip_keeps_head c t Hc) as [t' E']. rewrite E'.
    cbn [PyStr.lstrip]. rewrite Hc. rewrite <- E'. apply rstrip_idempotent.
Qed.

Lemma lstrip_chars (s : string) (x : ascii) :
  In x (list_ascii_of_string (PyStr.lstrip s)) -> In x (list_ascii_of_string s).
Proof.
  induction s as [|c s IH]; simpl; auto.
  destruct (PyStr.is_space c); simpl; auto.
Qed.

Lemma rstrip_chars (s : string) (x : ascii) :
  In x (list_ascii_of_string (PyStr.rstrip s)) -> In x (list_ascii_of_string s).
Proof.
  induction s as [|c s IH]; simpl; auto.
  destruct (PyStr.rstrip s) as [|d r]; simpl in *.
  - destruct (PyStr.is_space c); simpl; tauto.
  - intros [H|H]; auto.
Qed.

Lemma strip_chars (s : string) (x : ascii) :
  In x (list_ascii_of_string (PyStr.strip s)) -> In x (list_ascii_of_string s).
Proof. unfold PyStr.strip. intros H. now apply lstrip_chars, rstrip_chars. Qed.

Lemma split_nonempty (sep : ascii) (s : string) : PyStr.split sep s <> [].
Proof.
  destruct s as [|c s]; simpl; [discriminate|].
  destruct (Ascii.eqb c sep); [discriminate|].
  destruct (PyStr.split sep s); discriminate.
Qed.

(** A piece of [s.split(sep)] holds only characters of [s], and never the
    separator. *)
Lemma split_chars (sep : ascii) (s p : string) (x : ascii) :
  In p (PyStr.split sep s) -> In x (list_ascii_of_string p) ->
  In x (list_ascii_of_string s) /\ x <> sep.
Proof.
  revert p. induction s as [|c s IH]; intros p Hp Hx; simpl in *.
  - destruct Hp as [<-|[]]. contradiction.
  - destruct (Ascii.eqb c sep) eqn:E.
    + destruct Hp as [<-|Hp]; [contradiction|].
      destruct (IH p Hp Hx). auto.
    + destruct (PyStr.split sep s) as [|h t] eqn:S.
      * destruct Hp as [<-|[]]. destruct Hx as [<-|[]]. split; auto.
        intros ->. now rewrite Ascii.eqb_refl in E.
      * destruct Hp as [<-|Hp].
        -- destruct Hx as [<-|Hx].
           ++ split; auto. intros ->. now rewrite Ascii.eqb_refl in E.
           ++ destruct (IH h (or_introl eq_refl) Hx). auto.
        -- destruct (IH p (or_intror Hp) Hx). auto.
Qed.

Lemma last_In {X : Type} (l : list X) (d : X) : l <> [] -> In (last l d) l.
Proof.
  induction l as [|x l IH]; [congruence|]. intros _.
  destruct l as [|y l]; [now left|]. right. apply IH. discriminate.
Qed.

Lemma split_once_chars (sep : ascii) (s a b : string) (x : ascii) :
  PyStr.split_once sep s = Some (a, b) -> In x (list_ascii_of_string a) ->
  In x (list_ascii_of_string s) /\ x <> sep.
Proof.
  revert a. induction s as [|c s IH]; intros a H Hx; simpl in *; [discriminate|].
  destruct (Ascii.eqb c sep) eqn:E.
  - injection H as <- <-. contradiction.
  - destruct (PyStr.split_once sep s) as [[a' b']|]; [|discriminate].
    injection H as <- <-. destruct Hx as [<-|Hx].
    + split; auto. intros ->. now rewrite Ascii.eqb_refl in E.
    + destruct (IH a' eq_refl Hx). auto.
Qed.

Lemma split_once_None (sep : ascii) (s : string) :
  PyStr.split_once sep s = None -> ~ In sep (list_ascii_of_string s).
Proof.
  induction s as [|c s IH]; simpl; [tauto|].
  destruct (Ascii.eqb c sep) eqn:E; [discriminate|].
  destruct (PyStr.split_once sep s) as [[a b]|]; [discriminate|].
  intros _ [H|H]; [subst; now rewrite Ascii.eqb_refl in E | now apply IH].
Qed.

(** ** Dictionaries *)

Lemma dict_get_set_same {V : Type} (k : string) (v : V) (d : list (string * V)) :
  PyDict.get k (PyDict.set k v d) = Some v.
Proof.
  induction d as [|[k' v'] d IH]; simpl.
  - now rewrite String.eqb_refl.
  - destruct (String.eqb k k') eqn:E; simpl; [now rewrite String.eqb_refl|].
    now rewrite E.
Qed.

Lemma dict_get_set_other {V : Type} (k k' : string) (v : V) (d : list (string * V)) :
  k' <> k -> PyDict.get k' (PyDict.set k v d) = PyDict.get k' d.
Proof.
  intros Hne. induction d as [|[k0 v0] d IH]; simpl.
  - apply String.eqb_neq in Hne. now rewrite Hne.
  - destruct (String.eqb k k0) eqn:E; simpl.
    + apply String.eqb_eq in E. subst k0.
      apply String.eqb_neq in Hne. now rewrite Hne.
    + destruct (String.eqb k' k0); auto.
Qed.

Lemma dict_keys_set_In {V : Type} (k k' : string) (v : V) (d : list (string * V)) :
  In k' (PyDict.keys (PyDict.set k v d)) <-> k' = k \/ In k' (PyDict.keys d).
Proof.
  unfold PyDict.keys. induction d as [|[k0 v0] d IH]; simpl.
  - intuition auto.
  - destruct (String.eqb k k0) eqn:E; simpl.
    + apply String.eqb_eq in E. subst. intuition auto.
    + rewrite IH. intuition auto.
Qed.

Lemma dict_set_NoDup {V : Type} (k : string) (v : V) (d : list (string * V)) :
  NoDup (PyDict.keys d) -> NoDup (PyDict.keys (PyDict.set k v d)).
Proof.
  induction d as [|[k0 v0] d IH]; intros H.
  - simpl. constructor; [tauto | constructor].
  - unfold PyDict.keys in *. simpl in *. inversion H as [|? ? Hn Hd]; subst.
    destruct (String.eqb k k0) eqn:E; simpl.
    + apply String.eqb_eq in E. subst. constructor; auto.
    + constructor; auto. intros Hin.
      apply (dict_keys_set_In k k0 v d) in Hin. destruct Hin as [->|Hin]; auto.
      now rewrite String.eqb_refl in E.
Qed.

Lemma dict_get_In {V : Type} (k : string) (d : list (string * V)) :
  PyDict.get k d <> None <-> In k (PyDict.keys d).
Proof.
  unfold PyDict.keys. induction d as [|[k0 v0] d IH]; simpl.
  - tauto.
  - destruct (String.eqb k k0) eqn:E.
    + apply String.eqb_eq in E. subst. split; [auto | discriminate].
    + rewrite IH. apply String.eqb_neq in E. intuition congruence.
Qed.

(** ** The keyword text *)

Lemma parse_token_inv (acc : list (string * string) * list string) (token : string) :
  ~ In ","%char (list_ascii_of_string token) ->
  (NoDup (PyDict.keys (fst acc)) /\
   (forall k, In k (PyDict.keys (fst acc)) <-> In k (snd acc)) /\
   (forall w, In w (snd acc) ->
      PyStr.strip w = w /\ ~ In ":"%char (list_ascii_of_string w) /\
      ~ In ","%char (list_ascii_of_string w))) ->
  let acc' := Filter.parse_token acc token in
  NoDup (PyDict.keys (fst acc')) /\
  (forall k, In k (PyDict.keys (fst acc')) <-> In k (snd acc')) /\
  (forall w, In w (snd acc') ->
     PyStr.strip w = w /\ ~ In ":"%char (list_ascii_of_string w) /\
     ~ In ","%char (list_ascii_of_string w)).
Proof.
  intros Hcomma (Hnd & Hkeys & Hw). destruct acc as [mapping words]. simpl in *.
  unfold Filter.parse_token.
  destruct (Resolver.nonempty (PyStr.strip token)); [|simpl; auto].
  assert (Hnew : forall w v,
             PyStr.strip w = w -> ~ In ":"%char (list_ascii_of_string w) ->
             ~ In ","%char (list_ascii_of_string w) ->
             NoDup (PyDict.keys (PyDict.set w v mapping)) /\
             (forall k, In k (PyDict.keys (PyDict.set w v mapping)) <-> In k (words ++ [w])) /\
             (forall w0, In w0 (words ++ [w]) ->
                PyStr.strip w0 = w0 /\ ~ In ":"%char (list_ascii_of_string w0) /\
                ~ In ","%char (list_ascii_of_string w0))).
  { intros w v W1 W2 W3. split; [now apply dict_set_NoDup|]. split.
    - intros k. rewrite dict_keys_set_In, in_app_iff, Hkeys. simpl. intuition auto.
    - intros w0 H0. apply in_app_iff in H0. destruct H0 as [H0|[<-|[]]]; auto. }
  destruct (PyStr.split_once ":" (PyStr.strip token)) as [[k c]|] eqn:S; simpl.
  - apply Hnew.
    + apply strip_idempotent.
    + intros H. apply strip_chars in H.
      now destruct (split_once_chars _ _ _ _ _ S H).
    + intros H. apply strip_chars in H.
      destruct (split_once_chars _ _ _ _ _ S H) as [H' _].
      apply strip_chars in H'. contradiction.
  - apply Hnew.
    + apply strip_idempotent.
    + now apply split_once_None.
    + intros H. apply strip_chars in H. contradiction.
Qed.

Lemma parse_keyword_mapping_inv (raw : string) :
  let out := Filter._parse_keyword_mapping raw in
  NoDup (PyDict.keys (fst out)) /\
  (forall k, In k (PyDict.keys (fst out)) <-> In k (snd out)) /\
  (forall w, In w (snd out) ->
     PyStr.strip w = w /\ ~ In ":"%char (list_ascii_of_string w) /\
     ~ In ","%char (list_ascii_of_string w)).
Proof.
  assert (Inv : forall tokens acc,
             (forall t, In t tokens -> ~ In ","%char (list_ascii_of_string t)) ->
             (NoDup (PyDict.keys (fst acc)) /\
              (forall k, In k (PyDict.keys (fst acc)) <-> In k (snd acc)) /\
              (forall w, In w (snd acc) ->
                 PyStr.strip w = w /\ ~ In ":"%char (list_ascii_of_string w) /\
                 ~ In ","%char (list_ascii_of_string w))) ->
             let out := fold_left Filter.parse_token tokens acc in
             NoDup (PyDict.keys (fst out)) /\
             (forall k, In k (PyDict.keys (fst out)) <-> In k (snd out)) /\
             (forall w, In w (snd out) ->
                PyStr.strip w = w /\ ~ In ":"%char (list_ascii_of_string w) /\
                ~ In ","%char (list_ascii_of_string w))).
  { induction tokens as [|t tokens IH]; intros acc Ht Hacc; [exact Hacc|].
    simpl. apply IH.
    - intros t' H'. apply Ht. now right.
    - apply parse_token_inv; auto. apply Ht. now left. }
  unfold Filter._parse_keyword_mapping.
  destruct (Resolver.nonempty raw).
  - apply Inv.
    + intros t Ht Hx. now destruct (split_chars _ _ _ _ Ht Hx).
    + simpl. split; [constructor|]. split; [tauto | intros w []].
  - simpl. split; [constructor|]. split; [tauto | intros w []].
Qed.

(** The parsed keyword text: the keys of the colour mapping are the
    keywords, each once; every keyword has a colour, is trimmed, and
    holds neither a comma nor a colon. *)
Theorem parsed_keywords_wellformed (raw : string) :
  let mapping := fst (Filter._parse_keyword_mapping raw) in
  let words := snd (Filter._parse_keyword_mapping raw) in
  NoDup (PyDict.keys mapping) /\
  (forall k, In k (PyDict.keys mapping) <-> In k words) /\
  (forall w, In w words ->
     PyDict.get w mapping <> None /\
     PyStr.strip w = w /\
     ~ In ":"%char (list_ascii_of_string w) /\
     ~ In ","%char (list_ascii_of_string w)).
Proof.
  cbv zeta. destruct (parse_keyword_mapping_inv raw) as (H1 & H2 & H3).
  split; [exact H1|]. split; [exact H2|].
  intros w Hw. split; [|now apply H3].
  apply dict_get_In. now apply H2.
Qed.

(** ** Column resolution *)

Lemma lower_map_get (cols : list string) (acc : list (string * string)) (k c : string) :
  PyDict.get k (fold_left (fun d c => PyDict.set (PyStr.lower c) c d) cols acc) = Some c ->
  PyDict.get k acc = Some c \/ (In c cols /\ PyStr.lower c = k).
Proof.
  revert acc. induction cols as [|x cols IH]; intros acc H; simpl in *; [now left|].
  destruct (IH _ H) as [H'|[H1 H2]]; [|right; auto].
  destruct (String.eqb_spec k (PyStr.lower x)) as [->|Hne].
  - rewrite dict_get_set_same in H'. injection H' as <-. right. auto.
  - rewrite dict_get_set_other in H' by exact Hne. now left.
Qed.

Lemma lower_map_has (cols : list string) (acc : list (string * string)) (k : string) :
  PyDict.get k acc <> None \/ (exists c, In c cols /\ PyStr.lower c = k) ->
  PyDict.get k (fold_left (fun d c => PyDict.set (PyStr.lower c) c d) cols acc) <> None.
Proof.
  revert acc. induction cols as [|x cols IH]; intros acc H; simpl in *.
  - destruct H as [H|(c & [] & _)]. exact H.
  - apply IH. destruct (String.eqb_spec k (PyStr.lower x)) as [->|Hne].
    + left. rewrite dict_get_set_same. discriminate.
    + rewrite dict_get_set_other by exact Hne.
      destruct H as [H|(c & [<-|Hc] & E)].
      * now left.
      * exfalso. apply Hne. now rewrite E.
      * right. eauto.
Qed.

Lemma first_some_Some {X Y : Type} (g : X -> option Y) (l : list X) (y : Y) :
  Resolver.first_some g l = Some y -> exists x, In x l /\ g x = Some y.
Proof.
  induction l as [|x l IH]; simpl; [discriminate|].
  destruct (g x) eqn:E.
  - intros H. injection H as <-. eauto.
  - intros H. destruct (IH H) as (x' & H1 & H2). eauto.
Qed.

Lemma first_some_None {X Y : Type} (g : X -> option Y) (l : list X) :
  Resolver.first_some g l = None -> forall x, In x l -> g x = None.
Proof.
  induction l as [|x l IH]; simpl; [tauto|].
  destruct (g x) eqn:E; [discriminate|].
  intros H x' [<-|H']; auto.
Qed.

Lemma prefix_refl (s : string) : prefix s s = true.
Proof. induction s as [|c s IH]; simpl; auto. destruct (ascii_dec c c); congruence. Qed.

Lemma contains_refl (s : string) : PyStr.contains s s = true.
Proof. destruct s as [|c s]; [reflexivity|]. cbn [PyStr.contains]. now rewrite prefix_refl. Qed.

(** [_get_col] answers with a column of the table that holds, case
    folded, one of the non-empty candidates; and when some column equals a
    candidate up to case, the answer equals a candidate up to case: an
    exact match is never passed over for a column that merely contains a
    candidate.  Without a table, or for a table without columns, the
    answer is [None]. *)
Theorem get_col_resolves (df : option DataFrame) (cands : list string) :
  (forall c, Resolver._get_col df cands = Some c ->
     exists d cand,
       df = Some d /\ In c (columns d) /\ In cand cands /\ cand <> EmptyString /\
       PyStr.contains (PyStr.lower cand) (PyStr.lower c) = true) /\
  (forall d cand col,
     df = Some d -> In cand cands -> cand <> EmptyString -> In col (columns d) ->
     PyStr.lower col = PyStr.lower cand ->
     exists c cand',
       Resolver._get_col df cands = Some c /\ In c (columns d) /\
       In cand' cands /\ PyStr.lower c = PyStr.lower cand') /\
  (df = None -> Resolver._get_col df cands = None) /\
  (forall d, df = Some d -> columns d = [] -> Resolver._get_col df cands = None).
Proof.
  assert (Hne : forall s, Resolver.nonempty s = true <-> s <> EmptyString).
  { intros [|a s]; simpl; split; congruence. }
  assert (Sound : forall c, Resolver._get_col df cands = Some c ->
     exists d cand,
       df = Some d /\ In c (columns d) /\ In cand cands /\ cand <> EmptyString /\
       PyStr.contains (PyStr.lower cand) (PyStr.lower c) = true).
  { intros c H. destruct df as [d|]; [|discriminate]. unfold Resolver._get_col in H.
    destruct (Resolver.first_some _ cands) as [c'|] eqn:F.
    - injection H as ->. apply first_some_Some in F. destruct F as (cand & Hc & G).
      destruct (Resolver.nonempty cand) eqn:N; [|discriminate].
      apply lower_map_get in G. destruct G as [G|[G1 G2]]; [discriminate|].
      exists d, cand. repeat split; auto.
      + now apply Hne.
      + rewrite G2. apply contains_refl.
    - apply find_some in H. destruct H as [H1 H2].
      apply existsb_exists in H2. destruct H2 as (cand & Hc & H2).
      apply andb_true_iff in H2. destruct H2 as [N C].
      exists d, cand. repeat split; auto. now apply Hne. }
  split; [exact Sound|]. split; [|split].
  - intros d cand col -> Hc Hn Hcol E.
    unfold Resolver._get_col.
    destruct (Resolver.first_some _ cands) as [c'|] eqn:F.
    + apply first_some_Some in F. destruct F as (cand' & Hc' & G).
      destruct (Resolver.nonempty cand'); [|discriminate].
      apply lower_map_get in G. destruct G as [G|[G1 G2]]; [discriminate|].
      exists c', cand'. auto.
    + exfalso. pose proof (first_some_None _ _ F cand Hc) as G. simpl in G.
      apply Hne in Hn. rewrite Hn in G. revert G.
      apply lower_map_has. right. eauto.
  - intros ->. reflexivity.
  - intros d -> E. destruct (Resolver._get_col (Some d) cands) as [c|] eqn:G; auto.
    destruct (Sound c eq_refl) as (d' & cand & Hd & Hin & _).
    injection Hd as <-. rewrite E in Hin. contradiction.
Qed.

(** ** From the country string back to the countries *)

Lemma split_no_sep (sep : ascii) (x : string) :
  ~ In sep (list_ascii_of_string x) -> PyStr.split sep x = [x].
Proof.
  induction x as [|c x IH]; simpl; intros H; [reflexivity|].
  destruct (Ascii.eqb_spec c sep) as [->|Hne]; [tauto|].
  rewrite IH by tauto. reflexivity.
Qed.

Lemma split_app_sep (sep : ascii) (x rest : string) :
  ~ In sep (list_ascii_of_string x) ->
  PyStr.split sep (x ++ String sep rest) = x :: PyStr.split sep rest.
Proof.
  induction x as [|c x IH]; simpl; intros H.
  - now rewrite Ascii.eqb_refl.
  - destruct (Ascii.eqb_spec c sep) as [->|Hne]; [tauto|].
    rewrite IH by tauto. reflexivity.
Qed.

Lemma strip_leading_blank (x : string) :
  PyStr.strip (String " " x) = PyStr.strip x.
Proof. reflexivity. Qed.

Lemma append_assoc (a b c : string) : ((a ++ b) ++ c = a ++ (b ++ c))%string.
Proof. induction a; simpl; congruence. Qed.

Lemma join_cons2 (x y : string) (l : list string) :
  PyStr.join "; " (x :: y :: l)
  = (x ++ String ";" (String " " (PyStr.join "; " (y :: l))))%string.
Proof. reflexivity. Qed.

(** Trimmed, non-empty strings without a semicolon. *)
Lemma segments_blank_join (l : list string) :
  l <> [] ->
  (forall x, In x l -> PyStr.strip x = x /\ x <> EmptyString /\
                       ~ In ";"%char (list_ascii_of_string x)) ->
  Affil.segments (String " " (PyStr.join "; " l)) = l.
Proof.
  induction l as [|x l IH]; [congruence|]. intros _ H.
  destruct (H x (or_introl eq_refl)) as (S & N & C).
  assert (Hx : Resolver.nonempty x = true) by (destruct x; [congruence | reflexivity]).
  destruct l as [|y l].
  - cbn [PyStr.join]. unfold Affil.segments.
    rewrite split_no_sep.
    + cbn [map filter]. rewrite strip_leading_blank, S, Hx. reflexivity.
    + simpl. intros [E|E]; [discriminate | contradiction].
  - rewrite join_cons2. unfold Affil.segments.
    change (String " " (x ++ String ";" (String " " (PyStr.join "; " (y :: l)))))%string
      with (String " " x ++ String ";" (String " " (PyStr.join "; " (y :: l))))%string.
    rewrite split_app_sep.
    + cbn [map filter]. rewrite strip_leading_blank, S, Hx. f_equal.
      apply IH; [discriminate|]. intros z Hz. apply H. now right.
    + simpl. intros [E|E]; [discriminate | contradiction].
Qed.

(** Splitting the joined string gives the strings back. *)
Lemma segments_join (l : list string) :
  (forall x, In x l -> PyStr.strip x = x /\ x <> EmptyString /\
                       ~ In ";"%char (list_ascii_of_string x)) ->
  Affil.segments (PyStr.join "; " l) = l /\
  Affil.main_country_of (PyStr.join "; " l) = hd "Unknown" l.
Proof.
  intros H. destruct l as [|x l]; [split; reflexivity|].
  destruct (H x (or_introl eq_refl)) as (S & N & C).
  assert (Hx : Resolver.nonempty x = true) by (destruct x; [congruence | reflexivity]).
  destruct l as [|y l].
  - cbn [PyStr.join hd]. unfold Affil.segments, Affil.main_country_of.
    rewrite Hx, split_no_sep by exact C. cbn [map filter hd]. now rewrite S, Hx.
  - rewrite join_cons2. unfold Affil.segments, Affil.main_country_of.
    rewrite split_app_sep by exact C. cbn [map filter hd]. rewrite S, Hx.
    split.
    + f_equal. apply (segments_blank_join (y :: l)); [discriminate|].
      intros z Hz. apply H. now right.
    + destruct x; [congruence | reflexivity].
Qed.

Lemma to_set_NoDup_id (l acc : list string) :
  NoDup (acc ++ l) -> fold_left (fun s x => PyStr.set_add x s) l acc = acc ++ l.
Proof.
  revert acc. induction l as [|x l IH]; intros acc H; simpl.
  - now rewrite app_nil_r.
  - assert (Hx : PyStr.mem x acc = false).
    { apply mem_false_not_In. intros Hin. apply NoDup_remove_2 in H.
      apply H. apply in_or_app. now left. }
    unfold PyStr.set_add at 2. rewrite Hx.
    rewrite IH; rewrite <- app_assoc; simpl; auto.
Qed.

Lemma fold_set_add_filter (f : string -> string) (test : string -> bool)
      (parts acc : list string) :
  fold_left (fun s p => if test (f p) then PyStr.set_add (f p) s else s) parts acc
  = fold_left (fun s x => PyStr.set_add x s) (filter test (map f parts)) acc.
Proof.
  revert acc. induction parts as [|p parts IH]; intros acc; simpl; [reflexivity|].
  destruct (test (f p)); simpl; apply IH.
Qed.

Lemma plausible_token_shape (text t : string) :
  In t (Spec.plausible_tokens text) ->
  PyStr.strip t = t /\ t <> EmptyString /\ ~ In ";"%char (list_ascii_of_string t).
Proof.
  unfold Spec.plausible_tokens. intros H. apply filter_In in H. destruct H as [H L].
  apply in_map_iff in H. destruct H as (part & <- & Hp).
  split; [apply strip_idempotent|]. split.
  - intros E. rewrite E in L. discriminate.
  - intros Hx. unfold Affil.last_segment in Hx. apply strip_chars in Hx.
    pose proof (last_In (PyStr.split "," part) EmptyString (split_nonempty _ _)) as Hl.
    destruct (split_chars _ _ _ _ Hl Hx) as [Hx' _].
    unfold Affil.segments in Hp. apply filter_In in Hp. destruct Hp as [Hp _].
    apply in_map_iff in Hp. destruct Hp as (piece & <- & Hpiece).
    apply strip_chars in Hx'.
    destruct (split_chars _ _ _ _ Hpiece Hx') as [_ Hne]. now apply Hne.
Qed.

(** The country string can be read back: its segments are the distinct
    plausible tokens in sorted order, the main country is the first of
    them ([Unknown] when there is none), and the scope is International
    for two or more distinct tokens, Domestic for one and Unknown for
    none. *)
Theorem scope_of_extracted_countries (text : string) :
  let tokens := Affil.to_set (Spec.plausible_tokens text) in
  let extracted := Affil._extract_countries_from_affil (Val text) in
  Affil.segments extracted = PyStr.sorted tokens /\
  Affil.main_country_of extracted = hd "Unknown" (PyStr.sorted tokens) /\
  Affil._detect_collab_scope extracted
  = (if (1 <? length tokens)%nat then "International"
     else if (length tokens =? 1)%nat then "Domestic" else "Unknown").
Proof.
  intros tokens extracted.
  assert (E : extracted = PyStr.join "; " (PyStr.sorted tokens)).
  { unfold extracted, Affil._extract_countries_from_affil, tokens, Affil.to_set,
      Spec.plausible_tokens. cbn [fillna_str].
    now rewrite (fold_set_add_filter Affil.last_segment
                   (fun t => (3 <=? String.length t)%nat)). }
  destruct (to_set_spec (Spec.plausible_tokens text)) as [Hnd Hin]. fold tokens in Hnd, Hin.
  assert (Hshape : forall x, In x (PyStr.sorted tokens) ->
                     PyStr.strip x = x /\ x <> EmptyString /\
                     ~ In ";"%char (list_ascii_of_string x)).
  { intros x Hx. apply (proj1 (sorted_In _ _)) in Hx. apply (proj1 (Hin _)) in Hx.
    now apply (plausible_token_shape text). }
  destruct (segments_join (PyStr.sorted tokens) Hshape) as [S M].
  rewrite E. split; [exact S|]. split; [exact M|].
  unfold Affil._detect_collab_scope. rewrite S.
  assert (Hs : Affil.to_set (PyStr.sorted tokens) = PyStr.sorted tokens).
  { unfold Affil.to_set. rewrite to_set_NoDup_id; [reflexivity|].
    simpl. now apply sorted_NoDup. }
  rewrite Hs.
  assert (Hl : length (PyStr.sorted tokens) = length tokens).
  { symmetry. apply Permutation_length, sorted_perm. }
  now rewrite Hl.
Qed.

(** ** Counting categories *)

Lemma tally_step_get (d : list (string * nat)) (x k : string) :
  PyDict.get k (match PyDict.get x d with
                | Some n => PyDict.set x (S n) d
                | None => PyDict.set x 1%nat d
                end)
  = if String.eqb k x
    then Some (S (match PyDict.get x d with Some n => n | None => 0%nat end))
    else PyDict.get k d.
Proof.
  destruct (String.eqb_spec k x) as [->|Hne].
  - destruct (PyDict.get x d); now rewrite dict_get_set_same.
  - destruct (PyDict.get x d); now rewrite dict_get_set_other.
Qed.

Lemma tally_fold_get (l : list string) (acc : list (string * nat)) (k : string) :
  PyDict.get k (fold_left (fun d x => match PyDict.get x d with
                                      | Some n => PyDict.set x (S n) d
                                      | None => PyDict.set x 1%nat d
                                      end) l acc)
  = match PyDict.get k acc, length (filter (String.eqb k) l) with
    | None, O => None
    | None, S n => Some (S n)
    | Some m, n => Some (m + n)%nat
    end.
Proof.
  revert acc. induction l as [|x l IH]; intros acc; simpl.
  - destruct (PyDict.get k acc); [f_equal; lia | reflexivity].
  - rewrite IH, tally_step_get.
    destruct (String.eqb k x) eqn:E.
    + apply String.eqb_eq in E. subst x. simpl.
      destruct (PyDict.get k acc); f_equal; lia.
    + destruct (PyDict.get k acc); reflexivity.
Qed.

(** Each distinct value is counted under its own key. *)
Lemma tally_get (l : list string) (k : string) :
  PyDict.get k (Affil.tally l)
  = match length (filter (String.eqb k) l) with
    | O => None
    | S n => Some (S n)
    end.
Proof. unfold Affil.tally. now rewrite tally_fold_get. Qed.

Lemma tally_NoDup (l : list string) : NoDup (PyDict.keys (Affil.tally l)).
Proof.
  unfold Affil.tally.
  assert (H : forall acc, NoDup (PyDict.keys acc) ->
            NoDup (PyDict.keys (fold_left (fun d x => match PyDict.get x d with
                                                      | Some n => PyDict.set x (S n) d
                                                      | None => PyDict.set x 1%nat d
                                                      end) l acc))).
  { induction l as [|x l IH]; intros acc Hacc; simpl; auto.
    apply IH. destruct (PyDict.get x acc); now apply dict_set_NoDup. }
  apply H. constructor.
Qed.

Lemma dict_In_get {V : Type} (d : list (string * V)) (k : string) (v : V) :
  NoDup (PyDict.keys d) -> (In (k, v) d <-> PyDict.get k d = Some v).
Proof.
  unfold PyDict.keys. induction d as [|[k0 v0] d IH]; simpl; intros H.
  - split; [tauto | discriminate].
  - inversion H as [|? ? Hn Hd]; subst.
    destruct (String.eqb_spec k k0) as [->|Hne].
    + split.
      * intros [E|E]; [congruence|]. exfalso. apply Hn.
        apply in_map_iff. exists (k0, v). auto.
      * intros E. left. congruence.
    + rewrite <- (IH Hd). split; [intros [E|E]; [congruence | auto] | auto].
Qed.

Lemma sum_values_set (d : list (string * nat)) (k : string) (v : nat) :
  (fold_right Nat.add 0 (PyDict.values (PyDict.set k v d))
   + match PyDict.get k d with Some n => n | None => 0 end
   = fold_right Nat.add 0 (PyDict.values d) + v)%nat.
Proof.
  unfold PyDict.values. induction d as [|[k0 v0] d IH]; simpl; [lia|].
  destruct (String.eqb k k0); simpl; lia.
Qed.

Lemma tally_sum (l : list string) :
  fold_right Nat.add 0%nat (PyDict.values (Affil.tally l)) = length l.
Proof.
  unfold Affil.tally.
  assert (H : forall acc,
            fold_right Nat.add 0%nat
              (PyDict.values (fold_left (fun d x => match PyDict.get x d with
                                                    | Some n => PyDict.set x (S n) d
                                                    | None => PyDict.set x 1%nat d
                                                    end) l acc))
            = (fold_right Nat.add 0 (PyDict.values acc) + length l)%nat).
  { induction l as [|x l IH]; intros acc; simpl; [lia|].
    rewrite IH. pose proof (sum_values_set acc x) as S.
    destruct (PyDict.get x acc) as [n|].
    - specialize (S (Datatypes.S n)). lia.
    - specialize (S 1%nat). lia. }
  now rewrite H.
Qed.

Lemma categorize_range (c : cell) :
  In (Affil._categorize_institution_combination c)
     ["Same Academic/University"; "Different Academic"; "Research only"; "Industry only";
      "Government only"; "Academic and Research"; "Academic and Industry";
      "Academic and Government"; "Mixed Collaboration"].
Proof.
  unfold Affil._categorize_institution_combination.
  repeat match goal with
         | |- context [if ?b then _ else _] => destruct b
         end; simpl; tauto.
Qed.

(** The table of [plot_institution_collab_types] counts every record of
    the dataset exactly once: each category listed is one of the nine
    labels and is listed once, with the number of records of that
    category, which is not 0; the counts add up to the number of records;
    the rows are in ascending order of count. *)
Theorem institution_table_counts_every_record
        (sv : SortValues) (d : DataFrame) (col_aff : string)
        (table : list (string * nat)) :
  sort_contract sv ->
  Resolver._get_col (Some d) Affil.AFFIL_CANDIDATES = Some col_aff ->
  Affil.institution_collab_counts sv (Some d) = Some table ->
  let cats := map Affil._categorize_institution_combination
                  (Spec.affiliation_series d col_aff) in
  NoDup (PyDict.keys table) /\
  (forall cat n, In (cat, n) table <->
                 (0 < n)%nat /\ n = length (filter (String.eqb cat) cats)) /\
  (forall cat n, In (cat, n) table ->
     In cat ["Same Academic/University"; "Different Academic"; "Research only";
             "Industry only"; "Government only"; "Academic and Research";
             "Academic and Industry"; "Academic and Government"; "Mixed Collaboration"]) /\
  fold_right Nat.add 0%nat (PyDict.values table) = length (rows d) /\
  StronglySorted (fun a b => (snd a <= snd b)%nat) table.
Proof.
  intros Hsv Hcol H cats.
  unfold Affil.institution_collab_counts in H. rewrite Hcol in H.
  fold (Spec.affiliation_series d col_aff) in H. fold cats in H.
  injection H as <-. unfold Affil.value_counts.
  set (key := fun kv : string * nat => Z.of_nat (snd kv)).
  destruct (Hsv _ key false (Affil.tally cats)) as [P1 _].
  destruct (Hsv _ key true (sv _ key false (Affil.tally cats))) as [P2 S2].
  assert (P : Permutation (Affil.tally cats)
                          (sv _ key true (sv _ key false (Affil.tally cats)))).
  { etransitivity; eassumption. }
  set (table := sv _ key true (sv _ key false (Affil.tally cats))) in *.
  assert (Hnd : NoDup (PyDict.keys table)).
  { apply (Permutation_NoDup (Permutation_map fst P)). apply tally_NoDup. }
  assert (Hin : forall cat n, In (cat, n) table <->
                 (0 < n)%nat /\ n = length (filter (String.eqb cat) cats)).
  { intros cat n. split.
    - intros Hi. apply (Permutation_in _ (Permutation_sym P)) in Hi.
      apply (dict_In_get _ _ _ (tally_NoDup cats)) in Hi. rewrite tally_get in Hi.
      destruct (length (filter (String.eqb cat) cats)); [discriminate|].
      injection Hi as <-. split; [lia | reflexivity].
    - intros [Hpos ->]. apply (Permutation_in _ P).
      apply (dict_In_get _ _ _ (tally_NoDup cats)). rewrite tally_get.
      destruct (length (filter (String.eqb cat) cats)); [lia | reflexivity]. }
  split; [exact Hnd|]. split; [exact Hin|]. split; [|split].
  - intros cat n Hi. apply Hin in Hi. destruct Hi as [Hpos Hn].
    destruct (filter (String.eqb cat) cats) as [|c0 rest] eqn:F; [simpl in Hn; lia|].
    assert (Hc : In c0 (filter (String.eqb cat) cats)) by (rewrite F; now left).
    apply filter_In in Hc. destruct Hc as [Hc E]. apply String.eqb_eq in E. subst c0.
    unfold cats in Hc. apply in_map_iff in Hc. destruct Hc as (c & <- & _).
    apply categorize_range.
  - assert (E : fold_right Nat.add 0%nat (PyDict.values table)
                = fold_right Nat.add 0%nat (PyDict.values (Affil.tally cats))).
    { unfold PyDict.values. pose proof (Permutation_map snd P) as Q.
      clear -Q. induction Q; simpl; lia. }
    rewrite E, tally_sum. unfold cats, Spec.affiliation_series, column.
    now rewrite !length_map.
  - apply (sorted_map_In (key_ordered key true) (fun a b => (snd a <= snd b)%nat)
             (fun x => x)) in S2.
    + now rewrite map_id in S2.
    + intros x y _ _ O. unfold key_ordered, key in O. lia.
Qed.

Lemma institution_table_counts_every_record_witness :
  fold_right Nat.add 0%nat
    (PyDict.values [("Different Academic", 1%nat); ("Same Academic/University", 1%nat);
       ("Mixed Collaboration", 1%nat)])
  = length (rows Spec.collab_dataset).
Proof.
  assert (E : Affil.institution_collab_counts stable_sort (Some Spec.collab_dataset)
              = Some [("Different Academic", 1%nat); ("Same Academic/University", 1%nat);
       ("Mixed Collaboration", 1%nat)])
    by (vm_compute; reflexivity).
  exact (proj1 (proj2 (proj2 (proj2
           (institution_table_counts_every_record stable_sort Spec.collab_dataset
              "Affiliations" _ stable_sort_contract eq_refl E))))).
Defined.

(** ** More helpers *)

Lemma replace_char_chars (a b : ascii) (s : string) (x : ascii) :
  In x (list_ascii_of_string (Helpers.replace_char a b s)) ->
  x = b \/ (In x (list_ascii_of_string s) /\ x <> a).
Proof.
  induction s as [|c s IH]; simpl; [tauto|].
  intros [H|H].
  - destruct (Ascii.eqb_spec c a) as [->|Hne]; [now left|].
    right. subst. auto.
  - destruct (IH H) as [E|[E1 E2]]; auto.
Qed.

(** Every piece that [_split_semicolon] returns is non-empty and trimmed
    and holds none of the three separators (semicolon, comma, bar). *)
Theorem split_semicolon_pieces (s p : string) :
  In p (Helpers._split_semicolon s) ->
  p <> EmptyString /\
  PyStr.strip p = p /\
  ~ In ";"%char (list_ascii_of_string p) /\
  ~ In ","%char (list_ascii_of_string p) /\
  ~ In "|"%char (list_ascii_of_string p).
Proof.
  unfold Helpers._split_semicolon. intros H. apply filter_In in H. destruct H as [H N].
  apply in_map_iff in H. destruct H as (piece & <- & Hp).
  split; [intros E; rewrite E in N; discriminate|].
  split; [apply strip_idempotent|].
  assert (Hx : forall x, In x (list_ascii_of_string (PyStr.strip piece)) ->
                         x <> ";"%char /\ x <> ","%char /\ x <> "|"%char).
  { intros x Hx. apply strip_chars in Hx.
    destruct (split_chars _ _ _ _ Hp Hx) as [Hx' Hsemi].
    split; [exact Hsemi|].
    apply replace_char_chars in Hx'. destruct Hx' as [E|[Hx' Hcomma]]; [contradiction|].
    split; [exact Hcomma|].
    apply replace_char_chars in Hx'. destruct Hx' as [E|[_ Hbar]]; [contradiction|].
    exact Hbar. }
  repeat split; intros Hin; apply Hx in Hin; tauto.
Qed.

Lemma split_semicolon_pieces_witness :
  Helpers._split_semicolon " a ;b|c , ;d" = ["a"; "b"; "c"; "d"] /\
  PyStr.strip "a" = "a".
Proof.
  split; [reflexivity|].
  apply (split_semicolon_pieces " a ;b|c , ;d" "a"). simpl. now left.
Defined.

(** The columns a filter pass scans: the chosen columns that exist in the
    table, in the order chosen, when there is one; otherwise the columns
    whose lower-cased name is a title, abstract or keywords candidate,
    when there is one; otherwise the columns of dtype object. *)
Theorem target_columns_choice (df : DataFrame) (cfg : Filter.FilterCfg) :
  let chosen := filter (fun c => PyStr.mem c (columns df)) (Filter.cfg_cols cfg) in
  let cands := Resolver.TITLE_COL_CANDIDATES ++ Resolver.ABSTRACT_COL_CANDIDATES
               ++ Resolver.KEYWORDS_COL_CANDIDATES in
  (chosen <> [] -> Filter.target_columns df cfg = chosen) /\
  (forall c, In c chosen -> In c (columns df)) /\
  (chosen = [] -> Filter.target_columns df cfg = Resolver._guess_text_columns df) /\
  (forall c, In c (Resolver._guess_text_columns df) ->
     (In c (columns df) /\ In (PyStr.lower c) cands) \/ In c (object_columns df)) /\
  ((exists col, In col (columns df) /\ In (PyStr.lower col) cands) ->
   forall c, In c (Resolver._guess_text_columns df) ->
             In c (columns df) /\ In (PyStr.lower c) cands).
Proof.
  intros chosen cands.
  pose (picked := flat_map (fun k => match PyDict.get k (Resolver.lower_map (columns df)) with
                                     | Some c => [c]
                                     | None => []
                                     end) cands).
  assert (Hpicked : forall c, In c picked ->
                              In c (columns df) /\ In (PyStr.lower c) cands).
  { intros c Hc. apply in_flat_map in Hc. destruct Hc as (k & Hk & Hc).
    destruct (PyDict.get k (Resolver.lower_map (columns df))) as [c'|] eqn:G; [|contradiction].
    destruct Hc as [<-|[]]. unfold Resolver.lower_map in G.
    apply lower_map_get in G. destruct G as [G|[G1 G2]]; [discriminate|].
    split; [exact G1 | now rewrite G2]. }
  assert (Hguess : Resolver._guess_text_columns df
                   = match picked with [] => object_columns df | _ :: _ => picked end)
    by reflexivity.
  split; [|split; [|split; [|split]]].
  - intros Hne. unfold Filter.target_columns. fold chosen. destruct chosen; congruence.
  - intros c Hc. apply filter_In in Hc. destruct Hc as [_ Hc]. now apply mem_In.
  - intros E. unfold Filter.target_columns. fold chosen. now rewrite E.
  - intros c Hc. rewrite Hguess in Hc.
    destruct picked as [|x l]; [now right|]. left. now apply Hpicked.
  - intros (col & Hcol & Hcand) c Hc. rewrite Hguess in Hc.
    assert (Hne : picked <> []).
    { assert (G : PyDict.get (PyStr.lower col) (Resolver.lower_map (columns df)) <> None).
      { unfold Resolver.lower_map. apply lower_map_has. right. eauto. }
      destruct (PyDict.get (PyStr.lower col) (Resolver.lower_map (columns df)))
        as [c'|] eqn:G'; [|congruence].
      assert (Hin : In c' picked).
      { apply in_flat_map. exists (PyStr.lower col). split; [exact Hcand|].
        rewrite G'. now left. }
      intros E. rewrite E in Hin. contradiction. }
    destruct picked as [|x l]; [congruence|]. now apply Hpicked.
Qed.

Lemma join_inner_get (d out : list (string * Z)) (k : string) :
  Helpers.get0 k
    (fold_left (fun out kv => PyDict.set (fst kv) (Helpers.get0 (fst kv) out + snd kv)%Z out)
               d out)
  = (Helpers.get0 k out
     + Spec.sumZ (map snd (filter (fun kv => String.eqb k (fst kv)) d)))%Z.
Proof.
  revert out. induction d as [|[k' v] d IH]; intros out; simpl; [lia|].
  rewrite IH. unfold Helpers.get0 at 1.
  destruct (String.eqb_spec k k') as [->|Hne].
  - rewrite dict_get_set_same. simpl. lia.
  - rewrite dict_get_set_other by exact Hne. fold (Helpers.get0 k out). lia.
Qed.

Lemma join_inner_keys (d out : list (string * Z)) (k : string) :
  NoDup (PyDict.keys out) ->
  let out' := fold_left (fun out kv =>
                           PyDict.set (fst kv) (Helpers.get0 (fst kv) out + snd kv)%Z out)
                        d out in
  NoDup (PyDict.keys out') /\
  (In k (PyDict.keys out') <-> In k (PyDict.keys out) \/ In k (PyDict.keys d)).
Proof.
  revert out. induction d as [|[k' v] d IH]; intros out Hnd; simpl.
  - split; [exact Hnd | tauto].
  - destruct (IH (PyDict.set k' (Helpers.get0 k' out + v)%Z out)
                 (dict_set_NoDup _ _ _ Hnd)) as [H1 H2].
    split; [exact H1|]. rewrite H2, dict_keys_set_In. unfold PyDict.keys. simpl.
    intuition auto.
Qed.

(** [_join_counts] adds the dictionaries up key by key: the count of a key
    in the result is the sum of its counts in the dictionaries, and the
    keys of the result are the keys of the dictionaries, each once. *)
Theorem join_counts_adds_up (dicts : list (list (string * Z))) (k : string) :
  Helpers.get0 k (Helpers._join_counts dicts)
  = Spec.sumZ (map (fun d => Spec.sumZ (map snd (filter (fun kv => String.eqb k (fst kv)) d)))
                   dicts) /\
  NoDup (PyDict.keys (Helpers._join_counts dicts)) /\
  (In k (PyDict.keys (Helpers._join_counts dicts)) <->
   exists d, In d dicts /\ In k (PyDict.keys d)).
Proof.
  unfold Helpers._join_counts.
  assert (H : forall out,
            NoDup (PyDict.keys out) ->
            let res := fold_left (fun out d =>
                         fold_left (fun out kv =>
                            PyDict.set (fst kv) (Helpers.get0 (fst kv) out + snd kv)%Z out)
                          d out) dicts out in
            Helpers.get0 k res
            = (Helpers.get0 k out
               + Spec.sumZ (map (fun d => Spec.sumZ
                                (map snd (filter (fun kv => String.eqb k (fst kv)) d)))
                                dicts))%Z /\
            NoDup (PyDict.keys res) /\
            (In k (PyDict.keys res) <->
             In k (PyDict.keys out) \/ exists d, In d dicts /\ In k (PyDict.keys d))).
  { induction dicts as [|d dicts IH]; intros out Hnd; simpl.
    - split; [lia|]. split; [exact Hnd|]. split; [auto | intros [H|(d & [] & _)]; exact H].
    - destruct (join_inner_keys d out k Hnd) as [N1 K1].
      destruct (IH _ N1) as (G & N & K).
      split; [rewrite G, join_inner_get; lia|]. split; [exact N|].
      rewrite K, K1. split.
      + intros [[H|H]|(d' & Hd & H)]; eauto.
      + intros [H|(d' & [<-|Hd] & H)]; eauto. }
  destruct (H [] ltac:(constructor)) as (G & N & K).
  split; [exact G|]. split; [exact N|].
  rewrite K. simpl. tauto.
Qed.

Lemma dict_set_In {V : Type} (k k' : string) (v v' : V) (d : list (string * V)) :
  In (k, v) (PyDict.set k' v' d) -> (k = k' /\ v = v') \/ In (k, v) d.
Proof.
  induction d as [|[k0 v0] d IH]; simpl.
  - intros [E|[]]. injection E as <- <-. now left.
  - destruct (String.eqb k' k0) eqn:E; simpl.
    + intros [H|H]; [injection H as <- <-; now left | right; now right].
    + intros [H|H]; [right; now left|]. destruct (IH H); auto.
Qed.

Lemma color_map_fold (mapping : list (string * string)) (all ws : list string)
      (acc : list (string * string)) :
  let colour w := match PyDict.get w mapping with Some c => c | None => "#1f77b4" end in
  let step color_map w :=
    if Resolver.nonempty (PyStr.lower (PyStr.strip w))
    then PyDict.set (PyStr.lower (PyStr.strip w)) (colour w) color_map
    else color_map in
  (forall w, In w ws -> In w all) ->
  NoDup (PyDict.keys acc) ->
  (forall k c, In (k, c) acc ->
     k <> EmptyString /\ exists w, In w all /\ k = PyStr.lower (PyStr.strip w) /\ c = colour w) ->
  NoDup (PyDict.keys (fold_left step ws acc)) /\
  (forall k c, In (k, c) (fold_left step ws acc) ->
     k <> EmptyString /\ exists w, In w all /\ k = PyStr.lower (PyStr.strip w) /\ c = colour w) /\
  (forall k, In k (PyDict.keys acc) -> In k (PyDict.keys (fold_left step ws acc))) /\
  (forall w, In w ws -> PyStr.lower (PyStr.strip w) <> EmptyString ->
             In (PyStr.lower (PyStr.strip w)) (PyDict.keys (fold_left step ws acc))).
Proof.
  intros colour step. revert acc.
  induction ws as [|w ws IH]; intros acc Hall Hnd Hq; simpl.
  - split; [exact Hnd|]. split; [exact Hq|]. split; [auto|]. intros w0 [].
  - assert (Hnd' : NoDup (PyDict.keys (step acc w))).
    { unfold step. destruct (Resolver.nonempty _); auto using dict_set_NoDup. }
    assert (Hq' : forall k c, In (k, c) (step acc w) ->
              k <> EmptyString /\
              exists w0, In w0 all /\ k = PyStr.lower (PyStr.strip w0) /\ c = colour w0).
    { intros k c Hin. unfold step in Hin.
      destruct (Resolver.nonempty (PyStr.lower (PyStr.strip w))) eqn:N; auto.
      apply dict_set_In in Hin. destruct Hin as [[-> ->]|Hin]; auto.
      split.
      - intros E. rewrite E in N. discriminate.
      - exists w. split; [apply Hall; now left | auto]. }
    destruct (IH (step acc w) (fun w0 H => Hall w0 (or_intror H)) Hnd' Hq')
      as (I1 & I2 & I3 & I4).
    split; [exact I1|]. split; [exact I2|]. split.
    + intros k Hk. apply I3. unfold step.
      destruct (Resolver.nonempty _); auto. apply dict_keys_set_In. now right.
    + intros w0 [<-|Hw0] Hne; [|now apply I4].
      apply I3. unfold step.
      destruct (Resolver.nonempty (PyStr.lower (PyStr.strip w))) eqn:N.
      * apply dict_keys_set_In. now left.
      * destruct (PyStr.lower (PyStr.strip w)); [congruence | discriminate].
Qed.

(** [_build_keyword_color_map] for a keyword text that yields keywords:
    the second result is the list of keys of the colour map; the keys are
    distinct and non-empty; every entry is the lower-cased form of a
    parsed keyword with the colour the parsed mapping gives that keyword,
    so the default blue is never used; and every non-empty keyword has
    its lower-cased form among the keys. *)
Theorem keyword_color_map_from_keywords (raw : string) (last : option (list string)) :
  snd (Filter._parse_keyword_mapping raw) <> [] ->
  let mapping := fst (Filter._parse_keyword_mapping raw) in
  let words := snd (Filter._parse_keyword_mapping raw) in
  let color_map := fst (Helpers._build_keyword_color_map raw last) in
  snd (Helpers._build_keyword_color_map raw last) = PyDict.keys color_map /\
  NoDup (PyDict.keys color_map) /\
  (forall k c, In (k, c) color_map ->
     k <> EmptyString /\
     exists w, In w words /\ k = PyStr.lower w /\ PyDict.get w mapping = Some c) /\
  (forall w, In w words -> w <> EmptyString -> In (PyStr.lower w) (PyDict.keys color_map)).
Proof.
  intros Hne mapping words color_map.
  destruct (parse_keyword_mapping_inv raw) as (P1 & P2 & P3).
  fold mapping words in P1, P2, P3.
  assert (E : Helpers._build_keyword_color_map raw last
              = (fold_left (fun cm w =>
                   if Resolver.nonempty (PyStr.lower (PyStr.strip w))
                   then PyDict.set (PyStr.lower (PyStr.strip w))
                          (match PyDict.get w mapping with
                           | Some c => c
                           | None => "#1f77b4"
                           end) cm
                   else cm) words [],
                 PyDict.keys (fold_left (fun cm w =>
                   if Resolver.nonempty (PyStr.lower (PyStr.strip w))
                   then PyDict.set (PyStr.lower (PyStr.strip w))
                          (match PyDict.get w mapping with
                           | Some c => c
                           | None => "#1f77b4"
                           end) cm
                   else cm) words []))).
  { unfold Helpers._build_keyword_color_map, mapping, words.
    destruct (Filter._parse_keyword_mapping raw) as [m ws]. simpl in *.
    destruct ws; [congruence | reflexivity]. }
  unfold color_map. rewrite E. cbn [fst snd].
  destruct (color_map_fold mapping words words [] (fun w H => H) ltac:(constructor)
              ltac:(intros k c [])) as (I1 & I2 & _ & I4).
  split; [reflexivity|]. split; [exact I1|]. split.
  - intros k c Hin. destruct (I2 k c Hin) as (Hk & w & Hw & Ek & Ec).
    split; [exact Hk|]. exists w. destruct (P3 w Hw) as (S & _).
    split; [exact Hw|]. split; [now rewrite <- S|].
    assert (G : PyDict.get w mapping <> None).
    { apply dict_get_In. now apply P2. }
    destruct (PyDict.get w mapping); congruence.
  - intros w Hw Hnew. destruct (P3 w Hw) as (S & _).
    rewrite <- S. apply I4; auto. rewrite S. now apply lower_nonempty.
Qed.

Lemma keyword_color_map_from_keywords_witness :
  Helpers._build_keyword_color_map "Blockchain:red, Edge" None
  = ([("blockchain", "red"); ("edge", "#c00000")], ["blockchain"; "edge"]) /\
  NoDup (PyDict.keys (fst (Helpers._build_keyword_color_map "Blockchain:red, Edge" None))).
Proof.
  split; [reflexivity|].
  assert (Hwords : snd (Filter._parse_keyword_mapping "Blockchain:red, Edge") <> [])
    by (vm_compute; discriminate).
  exact (proj1 (proj2 (keyword_color_map_from_keywords "Blockchain:red, Edge" None Hwords))).
Defined.

(** ** The detail view *)

Lemma append_empty_r (s : string) : (s ++ EmptyString)%string = s.
Proof. induction s; simpl; congruence. Qed.

Lemma html_escape_append (a b : string) :
  PyStr.html_escape (a ++ b) = (PyStr.html_escape a ++ PyStr.html_escape b)%string.
Proof.
  induction a as [|c a IH]; simpl; [reflexivity|].
  now rewrite IH, append_assoc.
Qed.

Lemma take_drop (n : nat) (s : string) : (Highlight.take n s ++ Detail.drop n s)%string = s.
Proof.
  unfold Highlight.take. revert s.
  induction n as [|n IH]; intros [|c s]; simpl; try reflexivity.
  now rewrite IH.
Qed.

Lemma drop_add (a n : nat) (s : string) :
  Detail.drop (a + n) s = Detail.drop n (Detail.drop a s).
Proof.
  revert s. induction a as [|a IH]; intros s; simpl; [reflexivity|].
  destruct s as [|c s]; [now destruct n | apply IH].
Qed.

Lemma slice_drop (a b : nat) (s : string) :
  a <= b -> (Detail.slice a b s ++ Detail.drop b s)%string = Detail.drop a s.
Proof.
  intros H. unfold Detail.slice.
  replace (Detail.drop b s) with (Detail.drop (b - a) (Detail.drop a s)).
  - apply take_drop.
  - rewrite <- drop_add. f_equal. lia.
Qed.

Lemma join_empty_cons (x : string) (l : list string) :
  PyStr.join EmptyString (x :: l) = (x ++ PyStr.join EmptyString l)%string.
Proof.
  destruct l as [|y l]; simpl; [now rewrite append_empty_r | reflexivity].
Qed.

Lemma join_empty_app (l1 l2 : list string) :
  PyStr.join EmptyString (l1 ++ l2)
  = (PyStr.join EmptyString l1 ++ PyStr.join EmptyString l2)%string.
Proof.
  induction l1 as [|x l1 IH]; [reflexivity|].
  rewrite <- app_comm_cons, !join_empty_cons, IH. now rewrite append_assoc.
Qed.

(** The loop of [_highlight_keywords_html] writes the markup of the
    spans. *)
Lemma highlight_loop (cm : list (string * string)) (bold : bool) (s : string)
      (spans : list (nat * nat)) (out : list string) (last : nat) :
  (let (out', last') :=
     fold_left (fun (acc : list string * nat) (mm : nat * nat) =>
                  let (out, last) := acc in
                  (out ++ [PyStr.html_escape (Detail.slice last (fst mm) s);
                           Detail.repl cm bold (Detail.slice (fst mm) (snd mm) s)],
                   snd mm))
               spans (out, last) in
   PyStr.join EmptyString (out' ++ [PyStr.html_escape (Detail.drop last' s)]))
  = (PyStr.join EmptyString out ++ DetailSpec.rebuild cm bold s last spans)%string.
Proof.
  revert out last. induction spans as [|mm spans IH]; intros out last.
  - simpl. rewrite join_empty_app. reflexivity.
  - cbn [fold_left DetailSpec.rebuild]. rewrite IH, join_empty_app.
    rewrite !join_empty_cons. cbn [PyStr.join]. rewrite append_empty_r.
    now rewrite !append_assoc.
Qed.

Lemma strip_tags_text (a b : string) :
  ~ In "<"%char (list_ascii_of_string a) ->
  Highlight.strip_tags_from (a ++ b) false = (a ++ Highlight.strip_tags_from b false)%string.
Proof.
  induction a as [|c a IH]; simpl; intros H; [reflexivity|].
  destruct (Ascii.eqb c "<") eqn:E.
  - apply Ascii.eqb_eq in E. subst. tauto.
  - f_equal. apply IH. tauto.
Qed.

Lemma strip_tags_tag (a b : string) :
  ~ In ">"%char (list_ascii_of_string a) ->
  Highlight.strip_tags_from (a ++ String ">" b) true = Highlight.strip_tags_from b false.
Proof.
  induction a as [|c a IH]; simpl; intros H; [reflexivity|].
  destruct (Ascii.eqb c ">") eqn:E.
  - apply Ascii.eqb_eq in E. subst. tauto.
  - simpl. apply IH. tauto.
Qed.

Lemma strip_tags_escaped (a b : string) :
  Highlight.strip_tags_from (PyStr.html_escape a ++ b) false
  = (PyStr.html_escape a ++ Highlight.strip_tags_from b false)%string.
Proof.
  apply strip_tags_text. intros H. apply html_escape_safe in H. tauto.
Qed.

(** What [repl] writes is one opening tag, the escaped word and one
    closing tag, when the colour holds no closing bracket. *)
Lemma strip_tags_repl (cm : list (string * string)) (bold : bool) (w rest : string) :
  (forall k c, In (k, c) cm -> ~ In ">"%char (list_ascii_of_string c)) ->
  Highlight.strip_tags_from (Detail.repl cm bold w ++ rest) false
  = (PyStr.html_escape w ++ Highlight.strip_tags_from rest false)%string.
Proof.
  intros Hc. unfold Detail.repl.
  set (color := match PyDict.get (PyStr.lower w) cm with
                | Some c => c
                | None => "#1f77b4"
                end).
  assert (Hcolor : ~ In ">"%char (list_ascii_of_string color)).
  { unfold color. destruct (PyDict.get (PyStr.lower w) cm) as [c|] eqn:G.
    - apply (Hc (PyStr.lower w)). clear Hc color.
      induction cm as [|[k0 v0] cm IH]; simpl in *; [discriminate|].
      destruct (String.eqb_spec (PyStr.lower w) k0) as [->|Hne].
      + injection G as ->. now left.
      + right. auto.
    - simpl. intuition discriminate. }
  set (fw := if bold then "bold" else "normal").
  change (("<span style='color:" ++ color ++ "; font-weight:" ++ fw ++ "'>"
             ++ PyStr.html_escape w ++ "</span>") ++ rest)%string
    with (String "<" (("span style='color:" ++ color ++ "; font-weight:" ++ fw ++ "'>"
             ++ PyStr.html_escape w ++ "</span>") ++ rest))%string.
  cbn [Highlight.strip_tags_from Ascii.eqb Bool.eqb].
  replace (((("span style='color:" ++ color ++ "; font-weight:" ++ fw ++ "'>"
             ++ PyStr.html_escape w ++ "</span>") ++ rest))%string)
    with ((("span style='color:" ++ color ++ "; font-weight:" ++ fw ++ "'")
            ++ String ">" (PyStr.html_escape w ++ "</span>" ++ rest))%string).
  2:{ rewrite !append_assoc. reflexivity. }
  rewrite strip_tags_tag.
  - rewrite strip_tags_escaped. reflexivity.
  - rewrite !chars_append, !in_app_iff. unfold fw.
    intros [H|[H|[H|[H|H]]]]; try (now apply Hcolor);
      try (destruct bold); simpl in H; intuition discriminate.
Qed.

Lemma spans_ordered_weaken (lo lo' hi : nat) (spans : list (nat * nat)) :
  lo' <= lo -> DetailSpec.spans_ordered lo hi spans -> DetailSpec.spans_ordered lo' hi spans.
Proof.
  destruct spans as [|mm spans]; simpl; [lia|]. intros H (H1 & H2 & H3).
  repeat split; auto. lia.
Qed.

Lemma prefix_length (a b : string) : prefix a b = true -> String.length a <= String.length b.
Proof.
  revert b. induction a as [|c a IH]; intros b H; simpl; [lia|].
  destruct b as [|d b]; simpl in H; [discriminate|].
  destruct (Ascii.ascii_dec c d); [|discriminate].
  apply IH in H. simpl. lia.
Qed.

Lemma word_pattern_bounded (ignorecase : bool) (keys : list string)
      (must_advance : bool) (prev : option ascii) (s : string) (n : nat) :
  Detail.word_pattern ignorecase keys must_advance prev s = Some n -> n <= String.length s.
Proof.
  unfold Detail.word_pattern. destruct (Detail.boundary prev (Detail.head s)); [|discriminate].
  destruct (find _ keys) as [k|] eqn:F; [|discriminate].
  intros H. injection H as <-. apply find_some in F. destruct F as [_ F].
  apply andb_true_iff in F. destruct F as [F _].
  apply andb_true_iff in F. destruct F as [_ F].
  unfold Highlight.key_matches in F. destruct (negb ignorecase).
  - now apply prefix_length.
  - apply prefix_length in F. now rewrite !lower_length in F.
Qed.

(** The spans of [finditer] follow one another within the text. *)
Lemma finditer_ordered (patt : bool -> option ascii -> string -> option nat) :
  (forall ma prev s n, patt ma prev s = Some n -> n <= String.length s) ->
  forall s prev pos skip,
    skip <= String.length s ->
    DetailSpec.spans_ordered (pos + skip) (pos + String.length s)
                             (Detail.finditer_from patt prev s pos skip).
Proof.
  intros Hb. induction s as [|c s IH]; intros prev pos skip Hs.
  - simpl in *. destruct skip; [|lia].
    destruct (patt false prev EmptyString) as [[|n]|]; simpl; lia.
  - cbn [Detail.finditer_from String.length] in *.
    destruct skip as [|k].
    + assert (Rec0 : DetailSpec.spans_ordered pos (pos + S (String.length s))
                       (Detail.finditer_from patt (Some c) s (S pos) 0)).
      { apply (spans_ordered_weaken (S pos + 0)); [lia|].
        replace (pos + S (String.length s)) with (S pos + String.length s) by lia.
        apply IH. lia. }
      assert (Rec : forall ma m, patt ma prev (String c s) = Some (S m) ->
                DetailSpec.spans_ordered pos (pos + S (String.length s))
                  ((pos, pos + S m) :: Detail.finditer_from patt (Some c) s (S pos) m)).
      { intros ma m E. apply Hb in E. simpl in E. cbn [DetailSpec.spans_ordered fst snd].
        split; [lia|]. split; [lia|].
        replace (pos + S m) with (S pos + m) by lia.
        replace (pos + S (String.length s)) with (S pos + String.length s) by lia.
        apply IH. lia. }
      rewrite Nat.add_0_r.
      destruct (patt false prev (String c s)) as [[|m]|] eqn:E.
      * cbn [DetailSpec.spans_ordered fst snd]. split; [lia|]. split; [lia|].
        destruct (patt true prev (String c s)) as [[|m]|] eqn:E'; eauto.
      * eauto.
      * exact Rec0.
    + replace (pos + S k) with (S pos + k) by lia.
      replace (pos + S (String.length s)) with (S pos + String.length s) by lia.
      apply IH. lia.
Qed.

(** Stripped of its tags, the markup of ordered spans is the escaped
    text. *)
Lemma strip_tags_rebuild (cm : list (string * string)) (bold : bool) (s : string) :
  (forall k c, In (k, c) cm -> ~ In ">"%char (list_ascii_of_string c)) ->
  forall spans last,
    DetailSpec.spans_ordered last (String.length s) spans ->
    Highlight.strip_tags_from (DetailSpec.rebuild cm bold s last spans) false
    = PyStr.html_escape (Detail.drop last s).
Proof.
  intros Hc. induction spans as [|mm spans IH]; intros last H.
  - simpl. apply strip_tags_no_bracket. intros X. apply html_escape_safe in X. tauto.
  - cbn [DetailSpec.rebuild DetailSpec.spans_ordered] in *. destruct H as (H1 & H2 & H3).
    rewrite strip_tags_escaped, strip_tags_repl by exact Hc.
    rewrite IH by exact H3.
    rewrite <- !html_escape_append. f_equal.
    rewrite (slice_drop (fst mm) (snd mm)) by exact H2.
    now apply slice_drop.
Qed.

(** [_highlight_keywords_html] round-trips for every colour map whose
    colours hold no closing bracket. *)
Lemma highlight_keywords_round_trip (text : cell) (cm : list (string * string)) (bold : bool) :
  (forall k c, In (k, c) cm -> ~ In ">"%char (list_ascii_of_string c)) ->
  Highlight.strip_tags (Detail._highlight_keywords_html text cm bold)
  = PyStr.html_escape (fillna_str text).
Proof.
  intros Hc. unfold Detail._highlight_keywords_html, Highlight.strip_tags.
  destruct cm as [|kc cm'] eqn:Ecm.
  - apply strip_tags_no_bracket. intros X. apply html_escape_safe in X. tauto.
  - rewrite <- Ecm in *. rewrite highlight_loop. cbn [PyStr.join]. cbn [append].
    apply strip_tags_rebuild; [exact Hc|].
    apply (finditer_ordered _ (word_pattern_bounded true (PyDict.keys cm))
                            (fillna_str text) None 0 0).
    lia.
Qed.

(** A keyword whose occurrences are whole words is found by the pattern
    between word boundaries wherever [str.count] finds it. *)
Lemma findall_whole_words (w : string) :
  w <> EmptyString ->
  forall s prev pos skip,
    DetailSpec.whole_words_from w prev s = true ->
    length (Detail.finditer_from (Detail.word_pattern false [w]) prev s pos skip)
    = PyStr.count_from w s skip.
Proof.
  intros Hw.
  assert (Hlen : exists m, String.length w = S m).
  { destruct w as [|c w]; [congruence | simpl; eauto]. }
  destruct Hlen as [m Hm].
  assert (Hpat : forall prev s,
            DetailSpec.whole_words_from w prev s = true ->
            Detail.word_pattern false [w] false prev s
            = if prefix w s then Some (S m) else None).
  { intros prev s H. unfold Detail.word_pattern. cbn [find negb andb].
    unfold Highlight.key_matches. rewrite Hm. cbn [Nat.eqb negb andb].
    destruct s as [|c s]; cbn [DetailSpec.whole_words_from] in H;
      apply andb_true_iff in H; destruct H as [H _];
      destruct (prefix w _) eqn:P.
    - now rewrite prefix_nonempty_empty in P.
    - destruct (Detail.boundary prev (Detail.head EmptyString)); reflexivity.
    - rewrite Hm in H. apply andb_true_iff in H. destruct H as [H1 H2].
      rewrite H1, H2. cbn. now rewrite Hm.
    - destruct (Detail.boundary prev (Detail.head (String c s))); reflexivity. }
  induction s as [|c s IH]; intros prev pos skip H.
  - cbn [Detail.finditer_from PyStr.count_from]. destruct skip; [|reflexivity].
    rewrite (Hpat _ _ H), prefix_nonempty_empty by exact Hw. reflexivity.
  - cbn [Detail.finditer_from PyStr.count_from].
    assert (H' : DetailSpec.whole_words_from w (Some c) s = true).
    { cbn [DetailSpec.whole_words_from] in H. apply andb_true_iff in H. tauto. }
    destruct skip as [|k]; [|now apply IH].
    rewrite (Hpat _ _ H). destruct (prefix w (String c s)).
    + cbn [length]. rewrite IH by exact H'. rewrite Hm. simpl. now rewrite Nat.sub_0_r.
    + now apply IH.
Qed.

Lemma prefix_lower (w s : string) :
  prefix w s = true -> prefix (PyStr.lower w) (PyStr.lower s) = true.
Proof.
  revert s. induction w as [|c w IH]; intros s H; [now destruct s|].
  destruct s as [|d s]; simpl in *; [discriminate|].
  destruct (Ascii.ascii_dec c d) as [->|]; [|discriminate].
  destruct (Ascii.ascii_dec _ _); [auto | congruence].
Qed.

(** Where the keyword occurs in its own case only, counting with or
    without regard to case gives the same. *)
Lemma count_same_case (w s : string) (skip : nat) :
  DetailSpec.same_case w s = true ->
  PyStr.count_from w s skip = PyStr.count_from (PyStr.lower w) (PyStr.lower s) skip.
Proof.
  revert skip. induction s as [|c s IH]; intros skip H.
  - simpl. destruct skip; [|reflexivity]. destruct w; reflexivity.
  - cbn [DetailSpec.same_case] in H. apply andb_true_iff in H. destruct H as [H1 H2].
    change (PyStr.lower (String c s)) with (String (PyStr.lower_char c) (PyStr.lower s)) in *.
    cbn [PyStr.count_from]. destruct skip as [|k]; [|now apply IH].
    rewrite lower_length.
    destruct (prefix w (String c s)) eqn:P.
    + apply prefix_lower in P.
      change (PyStr.lower (String c s)) with (String (PyStr.lower_char c) (PyStr.lower s)) in P.
      rewrite P. f_equal. now apply IH.
    + destruct (prefix (PyStr.lower w) (String (PyStr.lower_char c) (PyStr.lower s)));
        [discriminate | now apply IH].
Qed.

(** *** Totals of count dictionaries *)

Lemma total_set (d : list (string * Z)) (k : string) (v : Z) :
  DetailSpec.total (PyDict.set k v d) = (DetailSpec.total d - Helpers.get0 k d + v)%Z.
Proof.
  unfold DetailSpec.total, Spec.sumZ, Helpers.get0.
  induction d as [|[k0 v0] d IH]; simpl; [lia|].
  destruct (String.eqb k k0); simpl; lia.
Qed.

Lemma total_add_each (g : string -> Z) (ws : list string) (out : list (string * Z)) :
  DetailSpec.total
    (fold_left (fun out w => PyDict.set w (Helpers.get0 w out + g w)%Z out) ws out)
  = (DetailSpec.total out + Spec.sumZ (map g ws))%Z.
Proof.
  revert out. induction ws as [|w ws IH]; intros out; simpl; [lia|].
  rewrite IH, total_set. lia.
Qed.

Lemma total_zeros (ws : list string) (out : list (string * Z)) :
  DetailSpec.total out = 0%Z -> (forall k, Helpers.get0 k out = 0%Z) ->
  DetailSpec.total (fold_left (fun out w => PyDict.set w 0%Z out) ws out) = 0%Z.
Proof.
  revert out. induction ws as [|w ws IH]; intros out H0 Hg; simpl; [exact H0|].
  apply IH.
  - rewrite total_set, Hg. lia.
  - intros k. unfold Helpers.get0 in *. destruct (String.eqb_spec k w) as [->|Hne].
    + now rewrite dict_get_set_same.
    + rewrite dict_get_set_other by exact Hne. apply Hg.
Qed.

(** The counts [_count_occ_in_text] returns add up to the number of
    matches of its words. *)
Lemma count_occ_total (text : cell) (words_lower : list string) :
  DetailSpec.total (Detail._count_occ_in_text text words_lower)
  = Spec.sumZ
      (map (fun w => Z.of_nat
                       (length (Detail.finditer (Detail.word_pattern false [w])
                                                (PyStr.lower (fillna_str text)))))
           words_lower).
Proof.
  unfold Detail._count_occ_in_text.
  rewrite (total_add_each
             (fun w => Z.of_nat
                         (length (Detail.finditer (Detail.word_pattern false [w])
                                                  (PyStr.lower (fillna_str text)))))).
  rewrite total_zeros; [lia | reflexivity | reflexivity].
Qed.

Lemma join_inner_total (d out : list (string * Z)) :
  DetailSpec.total
    (fold_left (fun out kv => PyDict.set (fst kv) (Helpers.get0 (fst kv) out + snd kv)%Z out)
               d out)
  = (DetailSpec.total out + DetailSpec.total d)%Z.
Proof.
  revert out. induction d as [|[k v] d IH]; intros out; cbn [fold_left fst snd].
  - unfold DetailSpec.total, Spec.sumZ. simpl. lia.
  - rewrite IH, total_set. unfold DetailSpec.total, Spec.sumZ. simpl. lia.
Qed.

Lemma join_counts_total (dicts : list (list (string * Z))) :
  DetailSpec.total (Helpers._join_counts dicts) = Spec.sumZ (map DetailSpec.total dicts).
Proof.
  unfold Helpers._join_counts.
  assert (H : forall out,
            DetailSpec.total
              (fold_left (fun out d =>
                            fold_left (fun out kv =>
                                         PyDict.set (fst kv)
                                                    (Helpers.get0 (fst kv) out + snd kv)%Z out)
                                      d out)
                         dicts out)
            = (DetailSpec.total out + Spec.sumZ (map DetailSpec.total dicts))%Z).
  { induction dicts as [|d dicts IH]; intros out; simpl; [lia|].
    rewrite IH, join_inner_total. lia. }
  rewrite H. reflexivity.
Qed.

(** *** The keywords the detail view counts *)

Lemma dict_set_keys_new {V : Type} (k : string) (v : V) (d : list (string * V)) :
  ~ In k (PyDict.keys d) -> PyDict.keys (PyDict.set k v d) = PyDict.keys d ++ [k].
Proof.
  unfold PyDict.keys. induction d as [|[k0 v0] d IH]; simpl; intros H; [reflexivity|].
  destruct (String.eqb_spec k k0) as [->|Hne]; [tauto|].
  simpl. f_equal. apply IH. tauto.
Qed.

Lemma color_map_keys (mapping : list (string * string)) (ws : list string)
      (acc : list (string * string)) :
  (forall w, In w ws -> PyStr.strip w = w /\ w <> EmptyString) ->
  NoDup (PyDict.keys acc ++ map PyStr.lower ws) ->
  PyDict.keys
    (fold_left (fun color_map w =>
                  if Resolver.nonempty (PyStr.lower (PyStr.strip w))
                  then PyDict.set (PyStr.lower (PyStr.strip w))
                         (match PyDict.get w mapping with
                          | Some color => color
                          | None => "#1f77b4"
                          end) color_map
                  else color_map) ws acc)
  = PyDict.keys acc ++ map PyStr.lower ws.
Proof.
  revert acc. induction ws as [|w ws IH]; intros acc Hw Hnd; simpl.
  - now rewrite app_nil_r.
  - destruct (Hw w (or_introl eq_refl)) as [S N]. rewrite S.
    assert (Hn : Resolver.nonempty (PyStr.lower w) = true).
    { destruct w; [congruence | reflexivity]. }
    rewrite Hn.
    assert (Hfresh : ~ In (PyStr.lower w) (PyDict.keys acc)).
    { simpl in Hnd. apply NoDup_remove_2 in Hnd. rewrite in_app_iff in Hnd. tauto. }
    rewrite IH.
    + rewrite dict_set_keys_new by exact Hfresh. now rewrite <- app_assoc.
    + intros w' H'. apply Hw. now right.
    + rewrite dict_set_keys_new by exact Hfresh. now rewrite <- app_assoc.
Qed.

(** After a filter pass over keywords that are non-empty and distinct up
    to case, the detail view counts the lower-cased keywords. *)
Lemma color_map_words (raw : string) :
  let words := snd (Filter._parse_keyword_mapping raw) in
  (forall w, In w words -> w <> EmptyString) ->
  NoDup (map PyStr.lower words) ->
  snd (Helpers._build_keyword_color_map raw (Some words)) = map PyStr.lower words.
Proof.
  intros words Hne Hnd.
  destruct (parse_keyword_mapping_inv raw) as (_ & _ & P3). fold words in P3.
  unfold Helpers._build_keyword_color_map, words in *.
  destruct (Filter._parse_keyword_mapping raw) as [mapping ws]. cbn [fst snd] in *.
  assert (E : match ws with [] => ws | _ :: _ => ws end = ws) by now destruct ws.
  rewrite E. cbn [snd].
  apply (color_map_keys mapping ws []); [|exact Hnd].
  intros w Hw. split; [now apply P3 | now apply Hne].
Qed.

(** *** The fields the detail view reads *)

Lemma get_col_In (d : DataFrame) (cands : list string) (c : string) :
  Resolver._get_col (Some d) cands = Some c -> In c (columns d).
Proof.
  unfold Resolver._get_col. intros H.
  destruct (Resolver.first_some _ cands) as [c'|] eqn:F.
  - injection H as ->. apply first_some_Some in F. destruct F as (cand & _ & G).
    destruct (Resolver.nonempty cand); [|discriminate].
    apply lower_map_get in G. destruct G as [G|[G _]]; [discriminate | exact G].
  - apply find_some in H. tauto.
Qed.

Lemma sumZ_app (l1 l2 : list Z) : Spec.sumZ (l1 ++ l2) = (Spec.sumZ l1 + Spec.sumZ l2)%Z.
Proof. unfold Spec.sumZ. induction l1; simpl; lia. Qed.

Lemma sumZ_perm (l1 l2 : list Z) : Permutation l1 l2 -> Spec.sumZ l1 = Spec.sumZ l2.
Proof. unfold Spec.sumZ. induction 1; simpl; lia. Qed.

Lemma series_get_sum (df : DataFrame) (row : list cell) (g : cell -> Z)
      (cands : list string) :
  g (Val EmptyString) = 0%Z ->
  Spec.sumZ (map (fun c => g (cell_of df row c))
                 (match Resolver._get_col (Some df) cands with
                  | Some c => [c]
                  | None => []
                  end))
  = g (Detail.series_get df row (Resolver._get_col (Some df) cands)).
Proof.
  intros Hg. destruct (Resolver._get_col (Some df) cands) as [c|] eqn:E; simpl.
  - apply get_col_In in E. apply mem_In in E. rewrite E. lia.
  - now rewrite Hg.
Qed.

(** Summed over the columns the detail view could resolve, or over the
    three fields it reads, a count that is zero on the empty text gives
    the same. *)
Lemma detail_fields_sum (df : DataFrame) (row : list cell) (g : cell -> Z) :
  g (Val EmptyString) = 0%Z ->
  Spec.sumZ (map (fun c => g (cell_of df row c)) (DetailSpec.detail_columns df))
  = Spec.sumZ (map g (Detail.selected_row_fields df row)).
Proof.
  intros Hg. unfold DetailSpec.detail_columns, Detail.selected_row_fields,
    Detail.title_col, Detail._abstract_col, Detail._author_kw_col.
  cbn [flat_map]. rewrite app_nil_r, !map_app, !sumZ_app.
  rewrite !series_get_sum by exact Hg. cbn [map]. unfold Spec.sumZ. simpl. lia.
Qed.

Lemma dict_get_Some_In {V : Type} (k : string) (v : V) (d : list (string * V)) :
  PyDict.get k d = Some v -> In (k, v) d.
Proof.
  induction d as [|[k0 v0] d IH]; simpl; [discriminate|].
  destruct (String.eqb_spec k k0) as [->|Hne].
  - intros H. injection H as ->. now left.
  - intros H. right. auto.
Qed.

(** Every colour of the colour map is a colour of the keyword text or the
    default blue. *)
Lemma color_map_colours (raw : string) (last : option (list string)) (k c : string) :
  In (k, c) (fst (Helpers._build_keyword_color_map raw last)) ->
  c = "#1f77b4" \/ exists w, In (w, c) (fst (Filter._parse_keyword_mapping raw)).
Proof.
  unfold Helpers._build_keyword_color_map.
  destruct (Filter._parse_keyword_mapping raw) as [mapping ws]. cbn [fst].
  assert (G : forall words,
            In (k, c)
               (fold_left (fun color_map w =>
                             if Resolver.nonempty (PyStr.lower (PyStr.strip w))
                             then PyDict.set (PyStr.lower (PyStr.strip w))
                                    (match PyDict.get w mapping with
                                     | Some color => color
                                     | None => "#1f77b4"
                                     end) color_map
                             else color_map) words []) ->
            c = "#1f77b4" \/ exists w, In (w, c) mapping).
  { intros words H.
    destruct (color_map_fold mapping words words [] (fun w H => H) ltac:(constructor)
                ltac:(intros ? ? [])) as (_ & I2 & _).
    destruct (I2 k c H) as (_ & w & _ & _ & Ec).
    destruct (PyDict.get w mapping) as [c'|] eqn:E; [|now left].
    right. exists w. subst c. now apply dict_get_Some_In. }
  destruct ws as [|w0 ws]; [destruct last as [l|]|]; apply G.
Qed.

(** C3, as the window renders a record: when no colour of the keyword
    text holds a closing angle bracket, the markup of a text, stripped of
    its tags (each run from an opening bracket to the next closing one),
    is the escaped text; so it is for every column of the selected record,
    highlighted or not; and [_highlight_text], which is handed an empty
    mapping, returns the escaped text.  Matched words and the text between
    them are escaped before they are written, so nothing of the record
    comes out as markup. *)
Theorem C3_markup_round_trip
        (df : DataFrame) (raw : string) (last_filter_words : option (list string))
        (row : list cell) (text : cell) (bold : bool) (s : string) (case : bool) :
  (forall k c, In (k, c) (fst (Filter._parse_keyword_mapping raw)) ->
               ~ In ">"%char (list_ascii_of_string c)) ->
  let color_map := fst (Helpers._build_keyword_color_map raw last_filter_words) in
  Highlight.strip_tags (Detail._highlight_keywords_html text color_map bold)
  = PyStr.html_escape (fillna_str text) /\
  map Highlight.strip_tags (Detail.selected_row_markup df raw last_filter_words row)
  = map (fun col => PyStr.html_escape (fillna_str (cell_of df row col))) (columns df) /\
  Highlight.strip_tags (fst (Highlight._highlight_text s [] case)) = PyStr.html_escape s.
Proof.
  intros Hraw color_map.
  assert (Hc : forall k c, In (k, c) color_map -> ~ In ">"%char (list_ascii_of_string c)).
  { intros k c H. apply color_map_colours in H. destruct H as [->|(w & H)].
    - simpl. intuition discriminate.
    - now apply (Hraw w). }
  assert (Hesc : forall t, Highlight.strip_tags (PyStr.html_escape t) = PyStr.html_escape t).
  { intros t. apply strip_tags_no_bracket. intros X. apply html_escape_safe in X. tauto. }
  split; [now apply highlight_keywords_round_trip|]. split.
  - unfold Detail.selected_row_markup. fold color_map.
    destruct (Helpers._build_keyword_color_map raw last_filter_words) as [cm wl] eqn:E.
    cbn [fst] in color_map. subst color_map.
    rewrite map_map. apply map_ext. intros col.
    destruct (_ || _ || _); [now apply highlight_keywords_round_trip | apply Hesc].
  - destruct s as [|a s]; [reflexivity|]. cbn [Highlight._highlight_text fst]. apply Hesc.
Qed.

Lemma C3_witness :
  Highlight.strip_tags
    (Detail._highlight_keywords_html
       (Val "<b>Blockchain</b> & recovery")
       (fst (Helpers._build_keyword_color_map "recovery:#d00000, blockchain" None)) true)
  = PyStr.html_escape (fillna_str (Val "<b>Blockchain</b> & recovery")).
Proof.
  assert (Hraw : forall k c,
             In (k, c) (fst (Filter._parse_keyword_mapping "recovery:#d00000, blockchain")) ->
             ~ In ">"%char (list_ascii_of_string c)).
  { intros k c H. vm_compute in H. destruct H as [H|[H|[]]]; injection H as <- <-;
      vm_compute; intuition discriminate. }
  exact (proj1 (C3_markup_round_trip (DetailSpec.papers []) "recovery:#d00000, blockchain"
                  None [] (Val "<b>Blockchain</b> & recovery") true EmptyString false Hraw)).
Defined.

(** C3 as stated fails: a colour is written into the markup as it was
    entered, and with a closing bracket in it the opening tag ends
    early. *)
Lemma C3_counterexample :
  let color_map := fst (Helpers._build_keyword_color_map "ok:'>x" None) in
  color_map = [("ok", "'>x")] /\
  Detail._highlight_keywords_html (Val "ok") color_map true
  = "<span style='color:'>x; font-weight:bold'>ok</span>" /\
  Highlight.strip_tags (Detail._highlight_keywords_html (Val "ok") color_map true)
  = "x; font-weight:bold'>ok" /\
  Highlight.strip_tags (Detail._highlight_keywords_html (Val "ok") color_map true)
  <> PyStr.html_escape (fillna_str (Val "ok")).
Proof.
  repeat split; try (vm_compute; reflexivity).
  vm_compute. discriminate.
Qed.

(** C2, as the window counts: take a filter pass that scanned the columns
    the detail view reads, over ASCII keywords and fields, the keywords
    non-empty and distinct up to case, every occurrence of a keyword in a
    field a whole word, and, if the pass regards case, every keyword
    occurring in its own case only.  Then the counts shown for a record
    add up to the hit count of the record. *)
Theorem C2_detail_counts_agree (df : DataFrame) (cfg : Filter.FilterCfg) (row : list cell) :
  let words := snd (Filter._parse_keyword_mapping (Filter.cfg_raw cfg)) in
  let fields := Detail.selected_row_fields df row in
  Permutation (Filter.target_columns df cfg) (DetailSpec.detail_columns df) ->
  (forall t, In t (words ++ map fillna_str fields) -> DetailSpec.is_ascii t = true) ->
  (forall w, In w words -> w <> EmptyString) ->
  NoDup (map PyStr.lower words) ->
  (forall w f, In w words -> In f fields ->
     DetailSpec.whole_words (PyStr.lower w) (PyStr.lower (fillna_str f)) = true) ->
  (Filter.cfg_case cfg = true ->
   forall w f, In w words -> In f fields -> DetailSpec.same_case w (fillna_str f) = true) ->
  DetailSpec.shown_total df cfg row = DetailSpec.hit_count df cfg row.
Proof.
  intros words fields Hcols _ Hne Hnd Hwhole Hcase.
  unfold DetailSpec.shown_total, DetailSpec.hit_count. fold words.
  assert (Hcount : forall w f, In w words -> In f fields ->
            Spec.occurrences (Filter.cfg_case cfg) f w
            = Z.of_nat (length (Detail.finditer (Detail.word_pattern false [PyStr.lower w])
                                                (PyStr.lower (fillna_str f))))).
  { intros w f Hw Hf. unfold Detail.finditer.
    rewrite findall_whole_words;
      [|apply lower_nonempty; now apply Hne | now apply Hwhole].
    fold (PyStr.count (PyStr.lower (fillna_str f)) (PyStr.lower w)).
    destruct f as [|t]; cbn [Spec.occurrences fillna_str].
    - unfold PyStr.count. cbn [PyStr.lower PyStr.count_from].
      rewrite prefix_nonempty_empty; [reflexivity|]. apply lower_nonempty. now apply Hne.
    - destruct (Filter.cfg_case cfg) eqn:C; [|reflexivity].
      unfold PyStr.count. f_equal. apply count_same_case.
      exact (Hcase eq_refl w (Val t) Hw Hf). }
  (* the counts shown *)
  unfold Detail.selected_row_counts.
  pose proof (color_map_words (Filter.cfg_raw cfg) Hne Hnd) as Hkeys. fold words in Hkeys.
  destruct (Helpers._build_keyword_color_map (Filter.cfg_raw cfg) (Some words))
    as [color_map words_lower].
  cbn [snd] in Hkeys. subst words_lower.
  rewrite join_counts_total, map_map. fold fields.
  (* the hit count *)
  unfold Spec.hitCount.
  rewrite (sumZ_perm _ _ (Permutation_map _ Hcols)).
  rewrite (detail_fields_sum df row
             (fun f => Spec.sumZ (map (Spec.occurrences (Filter.cfg_case cfg) f) words))).
  - fold fields. f_equal. apply map_ext_in. intros f Hf.
    rewrite count_occ_total, map_map. f_equal. apply map_ext_in. intros w Hw.
    symmetry. now apply Hcount.
  - clear - Hne. induction words as [|w ws IH]; [reflexivity|].
    cbn [map Spec.sumZ fold_right]. unfold Spec.sumZ in IH. rewrite IH.
    + assert (Hw : w <> EmptyString) by (apply Hne; now left).
      unfold Spec.occurrences, PyStr.count. cbn [PyStr.lower PyStr.count_from].
      destruct (Filter.cfg_case cfg);
        rewrite prefix_nonempty_empty; auto using lower_nonempty.
    + intros w' H'. apply Hne. now right.
Qed.

Lemma C2_witness :
  DetailSpec.hit_count (DetailSpec.papers [DetailSpec.example_record]) Spec.example_cfg
                       DetailSpec.example_record = 4%Z /\
  DetailSpec.shown_total (DetailSpec.papers [DetailSpec.example_record]) Spec.example_cfg
                         DetailSpec.example_record
  = DetailSpec.hit_count (DetailSpec.papers [DetailSpec.example_record]) Spec.example_cfg
                         DetailSpec.example_record.
Proof.
  split; [vm_compute; reflexivity|].
  pose proof (C2_detail_counts_agree (DetailSpec.papers [DetailSpec.example_record])
                                     Spec.example_cfg DetailSpec.example_record) as T.
  cbv zeta in T. apply T; clear T.
  - vm_compute. apply Permutation_refl.
  - intros t Ht. vm_compute in Ht.
    repeat (destruct Ht as [<-|Ht]; [vm_compute; reflexivity|]). destruct Ht.
  - intros w Hw. vm_compute in Hw. destruct Hw as [<-|[<-|[]]]; discriminate.
  - vm_compute. apply NoDup_cons; [simpl; intuition discriminate|].
    apply NoDup_cons; [simpl; intuition discriminate|]. apply NoDup_nil.
  - intros w f Hw Hf. vm_compute in Hw, Hf.
    destruct Hw as [<-|[<-|[]]]; destruct Hf as [<-|[<-|[<-|[]]]]; vm_compute; reflexivity.
  - intros C. vm_compute in C. discriminate.
Defined.

(** C2 as stated fails.  The filter counts a keyword wherever it occurs,
    the detail view between word boundaries only; the filter regards case
    when told to, the detail view never does; the filter counts every
    keyword entered, the detail view one keyword for those that differ in
    case only and none for an empty one; and the detail view reads the
    title, the abstract and the author keywords whatever columns the pass
    scanned. *)
Lemma C2_counterexample :
  (DetailSpec.hit_count (DetailSpec.papers [[Val "a blockchain"; NaN; NaN]])
                        (DetailSpec.settings "block" false [])
                        [Val "a blockchain"; NaN; NaN] = 1%Z /\
   DetailSpec.shown_total (DetailSpec.papers [[Val "a blockchain"; NaN; NaN]])
                          (DetailSpec.settings "block" false [])
                          [Val "a blockchain"; NaN; NaN] = 0%Z /\
   DetailSpec.shown_total (DetailSpec.papers [[Val "a blockchain"; NaN; NaN]])
                          (DetailSpec.settings "block" false [])
                          [Val "a blockchain"; NaN; NaN]
   <> DetailSpec.hit_count (DetailSpec.papers [[Val "a blockchain"; NaN; NaN]])
                           (DetailSpec.settings "block" false [])
                           [Val "a blockchain"; NaN; NaN]) /\
  (DetailSpec.hit_count (DetailSpec.papers [[Val "Fault or fault"; NaN; NaN]])
                        (DetailSpec.settings "fault" true [])
                        [Val "Fault or fault"; NaN; NaN] = 1%Z /\
   DetailSpec.shown_total (DetailSpec.papers [[Val "Fault or fault"; NaN; NaN]])
                          (DetailSpec.settings "fault" true [])
                          [Val "Fault or fault"; NaN; NaN] = 2%Z) /\
  (DetailSpec.hit_count (DetailSpec.papers [[Val "fault"; NaN; NaN]])
                        (DetailSpec.settings "Fault, fault" false [])
                        [Val "fault"; NaN; NaN] = 2%Z /\
   DetailSpec.shown_total (DetailSpec.papers [[Val "fault"; NaN; NaN]])
                          (DetailSpec.settings "Fault, fault" false [])
                          [Val "fault"; NaN; NaN] = 1%Z) /\
  (DetailSpec.hit_count (DetailSpec.papers [[Val "ab"; NaN; NaN]])
                        (DetailSpec.settings ":red" false [])
                        [Val "ab"; NaN; NaN] = 3%Z /\
   DetailSpec.shown_total (DetailSpec.papers [[Val "ab"; NaN; NaN]])
                          (DetailSpec.settings ":red" false [])
                          [Val "ab"; NaN; NaN] = 0%Z) /\
  (DetailSpec.hit_count (DetailSpec.papers [[Val "x"; Val "x"; NaN]])
                        (DetailSpec.settings "x" false ["Title"])
                        [Val "x"; Val "x"; NaN] = 1%Z /\
   DetailSpec.shown_total (DetailSpec.papers [[Val "x"; Val "x"; NaN]])
                          (DetailSpec.settings "x" false ["Title"])
                          [Val "x"; Val "x"; NaN] = 2%Z).
Proof.
  repeat split; try (vm_compute; reflexivity).
  vm_compute. discriminate.
Qed.
